(** * deepchannel: the Gilbert-Elliot data generators and their data shaping

    A shallow embedding of the data-generation code of the repository:

    - [Legacy]   : src/gilbertElliotDataGen.py
    - [GE]       : src/gilbertElliot/gilbertElliotDataGen.py
    - [Mismatch] : src/mismatch_data_gen.py

    Python floats and numpy float64 values are binary64 numbers
    ([PrimFloat.float]); complex128 values are pairs of them.  The random
    number generators of numpy and torch, scipy's Riccati solver and torch's
    eigenvalue routine are library code: the generators are functions of
    them (the records [numpy] and [torch]), and the state of the global
    generator is threaded explicitly through every call. *)

From Stdlib Require Import ZArith Bool String Floats Lia.
From stdpp Require Import base list strings pretty.

Local Open Scope Z_scope.
Local Set Warnings "-register-all,-inexact-float".

(** ** Python values, exceptions and results *)

Module Py.

(** The exceptions the modelled code can raise. *)
Inductive exc : Type :=
| TypeError
| ValueError
| IndexError
| UnboundLocalError
| LinAlgError
| RuntimeError
| ZeroDivisionError
| Exception (msg : string).

(** The outcome of a call: a value, or a raised exception. *)
Inductive result (A : Type) : Type :=
| Ok (a : A)
| Raise (e : exc).
Arguments Ok {A} a.
Arguments Raise {A} e.

Definition bind {A B} (m : result A) (k : A -> result B) : result B :=
  match m with
  | Ok a => k a
  | Raise e => Raise e
  end.


(** A [for] loop that collects one value per iteration and stops at the
    first exception. *)
Fixpoint for_each {A B} (f : A -> result B) (l : list A) : result (list B) :=
  match l with
  | [] => Ok []
  | a :: l' =>
      bind (f a) (fun b => bind (for_each f l') (fun bs => Ok (b :: bs)))
  end.

(** A [for] loop that also threads a variable through its iterations
    (a counter, an accumulator). *)
Fixpoint for_state {S A B} (f : S -> A -> result (S * B)) (s : S) (l : list A)
  : result (S * list B) :=
  match l with
  | [] => Ok (s, [])
  | a :: l' =>
      bind (f s a) (fun sb =>
      bind (for_state f (fst sb) l') (fun r => Ok (fst r, snd sb :: snd r)))
  end.

(** The dynamically typed values that reach [GilEllDataGen] in [params]:
    ints, floats, strings, and lists or tuples of them. *)
Inductive val : Type :=
| Int (z : Z)
| Float (f : float)
| Str (s : string)
| Seq (l : list val).

End Py.

Import Py.

Notation "x <- m ;; k" := (Py.bind m (fun x => k))
  (at level 100, m at level 99, right associativity, only parsing).

(** ** numpy arrays as lists *)

#[global] Instance float_inhabited : Inhabited float := populate 0%float.

Module Np.

(** complex128 *)
Record complex : Type := Cx { re : float; im : float }.

Definition czero : complex := Cx 0 0.

(** A real operand is promoted to complex with a zero imaginary part. *)
Definition of_real (a : float) : complex := Cx a 0.

Definition cadd (a b : complex) : complex :=
  Cx (re a + re b)%float (im a + im b)%float.

Definition cmul (a b : complex) : complex :=
  Cx (re a * re b - im a * im b)%float (re a * im b + im a * re b)%float.

(** The imaginary unit [1j]. *)
Definition j : complex := Cx 0 1.

(** [l[start:stop]] on a one-dimensional array, with Python's rules:
    a negative bound counts from the end, and both bounds are clipped to
    the array. *)
Definition clip_index (len k : Z) : Z :=
  if k <? 0 then Z.max 0 (k + len) else Z.min k len.

Definition slice {A} (start stop : Z) (l : list A) : list A :=
  let len := Z.of_nat (length l) in
  let a := clip_index len start in
  let b := clip_index len stop in
  take (Z.to_nat (b - a)) (drop (Z.to_nat a) l).

(** Whether [start:stop] names only existing positions of an array of
    length [len] (no clipping happens). *)
Definition slice_in_bounds (start stop : Z) (len : nat) : bool :=
  (0 <=? start) && (start <=? stop) && (stop <=? Z.of_nat len).

(** [dst[...] = src] where the destination is a one-dimensional view of
    [n] entries: shapes must agree, except that a single value is
    broadcast to all [n] entries. *)
Definition assign {A} (n : nat) (src : list A) : result (list A) :=
  if decide (length src = n) then Ok src
  else match src with
       | [a] => Ok (replicate n a)
       | _ => Raise ValueError
       end.

(** The number of entries of [l[start:stop]] when [l] has [len] entries. *)
Definition slice_length (start stop : Z) (len : nat) : nat :=
  Z.to_nat (clip_index (Z.of_nat len) stop - clip_index (Z.of_nat len) start).

(** The same assignment into a view of shape [(n, m)] and [(n, m, k)]:
    each axis is matched or broadcast. *)
Definition assign2 {A} (n m : nat) (src : list (list A)) : result (list (list A)) :=
  bind (assign n src) (for_each (assign m)).

Definition assign3 {A} (n m k : nat) (src : list (list (list A)))
  : result (list (list (list A))) :=
  bind (assign n src) (for_each (assign2 m k)).

(** A three-dimensional float array with its shape; [cells] lists it
    along the first axis, then the second. *)
Record array3 : Type := Array3 {
  shape3 : nat * nat * nat;
  cells : list (list (list float))
}.

Definition rectangular3 (a : array3) : Prop :=
  length (cells a) = fst (fst (shape3 a))
  /\ Forall (fun plane =>
               length plane = snd (fst (shape3 a))
               /\ Forall (fun row => length row = snd (shape3 a)) plane)
            (cells a).

(** The number of columns of a two-dimensional array given by its rows. *)
Definition ncols {A} (a : list (list A)) : nat :=
  match a with
  | r :: _ => length r
  | [] => 0
  end.

(** [np.transpose] of an array with [n] columns: [t[k][i] = a[i][k]]. *)
Definition transpose2 (n : nat) (a : list (list float)) : list (list float) :=
  map (fun k => map (fun row => row !!! k) a) (seq 0 n).

(** [np.transpose] of an array of shape [(d0, d1, d2)]:
    [t[k][j][i] = a[i][j][k]]. *)
Definition transpose3 (d1 d2 : nat) (a : list (list (list float)))
  : list (list (list float)) :=
  map (fun k => map (fun j => map (fun plane => (plane !!! j) !!! k) a) (seq 0 d1))
      (seq 0 d2).

(** [np.swapaxes(a, 1, 2)] of an array of shape [(d0, d1, d2)]. *)
Definition swapaxes12 (d2 : nat) (a : list (list (list float)))
  : list (list (list float)) :=
  map (transpose2 d2) a.

(** [np.empty(shape)] refuses a negative dimension. *)
Definition empty_check (dims : list Z) : result unit :=
  if forallb (fun d => 0 <=? d) dims then Ok tt else Raise ValueError.

(** [dst[start:stop] = src] on a one-dimensional array: the view holds
    the positions the slice names (none when it stops before it starts),
    and [src] must have as many entries or a single one. *)
Definition set_slice {A} (start stop : Z) (src dst : list A) : result (list A) :=
  let len := Z.of_nat (length dst) in
  let a := clip_index len start in
  let b := Z.max a (clip_index len stop) in
  vs <- assign (Z.to_nat (b - a)) src ;;
  Ok (take (Z.to_nat a) dst ++ vs ++ drop (Z.to_nat b) dst).

(** [dst[-1] = src[-1]]: an empty array has no index -1. *)
Definition set_last {A} (src dst : list A) : result (list A) :=
  match last src, dst with
  | Some v, _ :: _ => Ok (take (length dst - 1) dst ++ [v])
  | _, _ => Raise IndexError
  end.

End Np.

Import Np.

(** ** The library routines of numpy and scipy

    [np.random] keeps one global generator state; [seed] is
    [np.random.seed], [randn] draws one standard-normal sample and
    [random_sample] one uniform sample of [[0, 1)] from it.
    [solve_discrete_are a b q r] is scipy's solver; [b] is a column. *)

Record mat2 : Type := M2 { m00 : float; m01 : float; m10 : float; m11 : float }.

Record numpy : Type := Numpy {
  rng : Type;
  seed : Z -> rng;
  randn : rng -> float * rng;
  random_sample : rng -> float * rng;
  solve_discrete_are : mat2 -> float * float -> mat2 -> float -> result mat2
}.

(** The two states of the Markov chain, ['good'] and ['bad']. *)
Inductive markov : Type := good | bad.

(** What [GilEllDataGen] returns: the rows of [x] and [z], the matrix
    [riccatiConvergences], and (in src/gilbertElliot only) the columns of
    [channelStates]. *)
Record sequenceData : Type := SequenceData {
  sd_x : list complex;
  sd_z : list complex;
  riccatiConvergences : mat2;
  channelStates : list (float * float)
}.

Module Params.

(** [float(z)] for a Python int below [2**63] in magnitude. *)
Definition float_of_Z (z : Z) : float :=
  if z <? 0 then PrimFloat.opp (PrimFloat.of_uint63 (Uint63.of_Z (- z)))
  else PrimFloat.of_uint63 (Uint63.of_Z z).

(** [len(v)] *)
Definition len (v : val) : result Z :=
  match v with
  | Seq l => Ok (Z.of_nat (length l))
  | Str s => Ok (Z.of_nat (String.length s))
  | Int _ | Float _ => Raise TypeError
  end.

(** [v[k]] for a literal index [k >= 0] *)
Definition index (v : val) (k : nat) : result val :=
  match v with
  | Seq l => match l !! k with
             | Some a => Ok a
             | None => Raise IndexError
             end
  | Str s => match String.get k s with
             | Some c => Ok (Str (String c EmptyString))
             | None => Raise IndexError
             end
  | Int _ | Float _ => Raise TypeError
  end.

(** [a, b = v] *)
Definition unpack2 (v : val) : result (val * val) :=
  match v with
  | Seq [a; b] => Ok (a, b)
  | Seq _ => Raise ValueError
  | Str (String a (String b EmptyString)) =>
      Ok (Str (String a EmptyString), Str (String b EmptyString))
  | Str _ => Raise ValueError
  | Int _ | Float _ => Raise TypeError
  end.

(** A value used as a number ([1-p], [np.sqrt(Q_diag)], an entry of
    [np.matrix]): ints and floats are numbers, anything else is an
    error there.  Ints are converted where they enter the arithmetic. *)
Definition num (v : val) : result float :=
  match v with
  | Int z => Ok (float_of_Z z)
  | Float f => Ok f
  | Str _ | Seq _ => Raise TypeError
  end.

(** [type(v) is float] *)
Definition is_float (v : val) : bool :=
  match v with
  | Float _ => true
  | _ => false
  end.

(** [v == s] for a string literal [s] *)
Definition eq_str (v : val) (s : string) : bool :=
  match v with
  | Str s' => String.eqb s' s
  | _ => false
  end.

(** [p,q = params[0]] *)
Definition transition_params (params : val) : result (val * val) :=
  p0 <- index params 0 ;;
  unpack2 p0.

(** [params[1][0]], [params[1][1]] and [params[2]] *)
Definition coeff_params (params : val) : result (val * val * val) :=
  p1 <- index params 1 ;;
  goodCoeffs <- index p1 0 ;;
  p1' <- index params 1 ;;
  badCoeffs <- index p1' 1 ;;
  sequenceLength <- index params 2 ;;
  Ok (goodCoeffs, badCoeffs, sequenceLength).

(** "Setting up the Q_diag and R parameters": the four branches, in the
    order of the source. *)
Definition noise_params (params : val) : result (val * val) :=
  n <- len params ;;
  if n <? 4 then Ok (Float 0.1, Float 0.1)
  else
    p3 <- index params 3 ;;
    l3 <- len p3 ;;
    if l3 =? 1 then
      Q_diag <- index p3 0 ;;
      Ok (Q_diag, Float 0.1)
    else if is_float p3 then
      Ok (p3, Float 0.1)
    else
      Q_diag <- index p3 0 ;;
      R <- index p3 1 ;;
      Ok (Q_diag, R).

(** A coefficient pair as a row of [np.matrix([coeffs, [1, 0]])]. *)
Definition coeff_row (v : val) : result (float * float) :=
  match v with
  | Seq [a; b] =>
      a' <- num a ;;
      b' <- num b ;;
      Ok (a', b')
  | _ => Raise ValueError
  end.

(** [sequenceLength] as the dimension [sequenceLength+1] of [np.empty]
    and the bound of [range]. *)
Definition steps_of (v : val) : result Z :=
  match v with
  | Int n => if n + 1 <? 0 then Raise ValueError else Ok (n + 1)
  | _ => Raise TypeError
  end.

(** The truth value of [v] in [if(v)]: zero, the empty string and the
    empty list are false ([True] and [False] are the ints 1 and 0). *)
Definition truthy (v : val) : bool :=
  match v with
  | Int z => negb (z =? 0)
  | Float f => negb (PrimFloat.eqb f 0)
  | Str s => negb (String.eqb s "")
  | Seq l => negb (Nat.eqb (length l) 0)
  end.

End Params.

(** ** Computations that use the global generator

    A computation takes the generator state and returns an outcome and the
    state it leaves behind; an exception keeps the state it was raised in. *)

Section Generator.

Context (L : numpy).

Definition gen (A : Type) : Type := rng L -> result A * rng L.

Definition ret {A} (a : A) : gen A := fun g => (Ok a, g).

Definition gbind {A B} (m : gen A) (k : A -> gen B) : gen B :=
  fun g => match m g with
           | (Ok a, g') => k a g'
           | (Raise e, g') => (Raise e, g')
           end.

Definition lift {A} (r : result A) : gen A := fun g => (r, g).

(** [np.random.randn(1)] *)
Definition draw : gen float := fun g => (Ok (fst (randn L g)), snd (randn L g)).

(** [np.random.randn(2,1)]: two samples, first row first. *)
Definition draw2 : gen (float * float) :=
  gbind draw (fun d0 => gbind draw (fun d1 => ret (d0, d1))).

(** A loop that threads a state through its iterations and collects one
    output per iteration. *)
Fixpoint gscan {S O} (body : Z -> S -> gen (S * O)) (l : list Z) (s : S)
  : gen (list O) :=
  match l with
  | [] => ret []
  | i :: l' =>
      gbind (body i s) (fun so =>
      gbind (gscan body l' (fst so)) (fun os => ret (snd so :: os)))
  end.

End Generator.

Arguments ret {L A} a.
Arguments gbind {L A B} m k.
Arguments lift {L A} r.
Arguments gscan {L S O} body l s.

Notation "x <~ m ;; k" := (gbind m (fun x => k))
  (at level 100, m at level 99, right associativity, only parsing).

Section GilbertElliot.

Context (L : numpy).

Local Open Scope float_scope.

(** [np.random.seed(seed)] inside [if (seed > 0)]: numpy accepts seeds up
    to [2**32 - 1]. *)
Definition seed_if_positive (s : Z) : gen L unit :=
  fun g =>
    if (0 <? s)%Z then
      if (s <=? 4294967295)%Z then (Ok tt, seed L s) else (Raise ValueError, g)
    else (Ok tt, g).

(** [np.random.choice([a, b], replace=True, p=[pa, pb])], after numpy's
    RandomState.choice: the probabilities are validated, one uniform
    sample is drawn, and its position in the normalised cumulative sums
    selects the entry. *)
Definition choice {A} (a b : A) (pa pb : float) : gen L A :=
  fun g =>
    let p_sum := pa + pb in
    if PrimFloat.is_nan p_sum then (Raise ValueError, g)
    else if (pa <? 0) || (pb <? 0) then (Raise ValueError, g)
    else if 0x1p-26 <? PrimFloat.abs (p_sum - 1) then (Raise ValueError, g)
    else
      let cdf0 := pa / p_sum in
      let cdf1 := p_sum / p_sum in
      let u := fst (random_sample L g) in
      let g' := snd (random_sample L g) in
      if u <? cdf0 then (Ok a, g')
      else if u <? cdf1 then (Ok b, g')
      else (Raise IndexError, g').

(** "Setting up the starting state of the Markov Chain": [None] is the
    variable left unbound when [params[4]] is none of the three names. *)
Definition start_state (params : val) : gen L (option markov) :=
  n <~ lift (Params.len params) ;;
  if (n <? 5)%Z then ret (Some good)
  else
    p4 <~ lift (Params.index params 4) ;;
    if Params.eq_str p4 "good" then ret (Some good)
    else if Params.eq_str p4 "bad" then ret (Some bad)
    else if Params.eq_str p4 "random" then
      s <~ choice good bad 0.5 0.5 ;; ret (Some s)
    else ret None.

(** *** Riccati convergences *)

Definition transpose (a : mat2) : mat2 := M2 (m00 a) (m10 a) (m01 a) (m11 a).

Definition matmul (a b : mat2) : mat2 :=
  M2 (m00 a * m00 b + m01 a * m10 b) (m00 a * m01 b + m01 a * m11 b)
     (m10 a * m00 b + m11 a * m10 b) (m10 a * m01 b + m11 a * m11 b).

Definition msub (a b : mat2) : mat2 :=
  M2 (m00 a - m00 b) (m01 a - m01 b) (m10 a - m10 b) (m11 a - m11 b).

(** [np.linalg.inv] of a 1 x 1 matrix *)
Definition inv1 (k : float) : result float :=
  if k =? 0 then Raise LinAlgError else Ok (1 / k).

(** The prediction and estimate entries for one coefficient matrix [F],
    with [H = [1, 0]]. *)
Definition riccati_pair (F : mat2) (Q_diag R : float) : result (float * float) :=
  riccatiPred <- solve_discrete_are L (transpose F) (1, 0) (M2 Q_diag 0 0 0) R ;;
  let HP0 := 1 * m00 riccatiPred + 0 * m10 riccatiPred in
  let HP1 := 1 * m01 riccatiPred + 0 * m11 riccatiPred in
  let kRicConIntermediate := (HP0 * 1 + HP1 * 0) + R in
  kinv <- inv1 kRicConIntermediate ;;
  let PH0 := m00 riccatiPred * 1 + m01 riccatiPred * 0 in
  let PH1 := m10 riccatiPred * 1 + m11 riccatiPred * 0 in
  let K0 := PH0 * kinv in
  let K1 := PH1 * kinv in
  let KH := M2 (K0 * 1) (K0 * 0) (K1 * 1) (K1 * 0) in
  let riccatiEst := msub riccatiPred (matmul KH riccatiPred) in
  Ok (m00 riccatiPred, m00 riccatiEst).

Definition riccati (goodF badF : mat2) (Q_diag R : float) : result mat2 :=
  g <- riccati_pair goodF Q_diag R ;;
  b <- riccati_pair badF Q_diag R ;;
  Ok (M2 (fst g) (snd g) (fst b) (snd b)).

(** *** One time stamp of the AR process *)

(** [np.divide(np.matmul(QChol, np.random.randn(2,1)), np.sqrt(2))] with
    [QChol = [[sqrt(Q_diag), 0], [0, 0]]] *)
Definition sys_noise (Q_diag : float) : gen L (float * float) :=
  d <~ draw2 L ;;
  let QChol00 := PrimFloat.sqrt Q_diag in
  ret ((QChol00 * fst d + 0 * snd d) / PrimFloat.sqrt 2,
       (0 * fst d + 0 * snd d) / PrimFloat.sqrt 2).

(** [np.divide(np.matmul(np.sqrt(R), np.random.randn(1)), np.sqrt(2))] *)
Definition obs_noise (R : float) : gen L float :=
  d <~ draw L ;;
  ret ((PrimFloat.sqrt R * d) / PrimFloat.sqrt 2).

(** [r + 1j * i] for real arrays [r] and [i] *)
Definition complex_of (r i : float) : complex :=
  cadd (of_real r) (cmul j (of_real i)).

(** [v] and [w]: the four draws of the system noise, then the two of the
    observation noise. *)
Definition noises (Q_diag R : float) : gen L ((complex * complex) * complex) :=
  rSysNoise <~ sys_noise Q_diag ;;
  iSysNoise <~ sys_noise Q_diag ;;
  rObsNoise <~ obs_noise R ;;
  iObsNoise <~ obs_noise R ;;
  ret ((complex_of (fst rSysNoise) (fst iSysNoise),
        complex_of (snd rSysNoise) (snd iSysNoise)),
       complex_of rObsNoise iObsNoise).

(** [np.matmul(F, x_current) + v] *)
Definition ar_step (F : mat2) (x_current v : complex * complex)
  : complex * complex :=
  (cadd (cadd (cmul (of_real (m00 F)) (fst x_current))
              (cmul (of_real (m01 F)) (snd x_current))) (fst v),
   cadd (cadd (cmul (of_real (m10 F)) (fst x_current))
              (cmul (of_real (m11 F)) (snd x_current))) (snd v)).

(** [np.matmul(H, x_current) + w] *)
Definition observe (x_current : complex * complex) (w : complex) : complex :=
  cadd (cadd (cmul (of_real 1) (fst x_current))
             (cmul (of_real 0) (snd x_current))) w.

(** "Start the channel with a zero mean unity variance random sample":
    [randn(2,1)/sqrt(2) + 1j * randn(2,1)/sqrt(2)] *)
Definition unit_variance_sample : gen L (complex * complex) :=
  r <~ draw2 L ;;
  i <~ draw2 L ;;
  ret (complex_of (fst r / PrimFloat.sqrt 2) (fst i / PrimFloat.sqrt 2),
       complex_of (snd r / PrimFloat.sqrt 2) (snd i / PrimFloat.sqrt 2)).

(** The state of the main loop and what one iteration records. *)
Record loop_state : Type := LoopState {
  MarkovState : option markov;
  x_current : complex * complex;
  z_current : complex
}.

Record sample : Type := Sample {
  s_x : complex;
  s_z : complex;
  s_coeffs : float * float
}.

(** "Logic to decided the next Markov State", for [i <> 0]:
    [table] is [transitionProbabiltyArray], paired with
    [transitionStateArray = [['good', 'bad'], ['bad', 'good']]]. *)
Definition transitionStateArray : (markov * markov) * (markov * markov) :=
  ((good, bad), (bad, good)).

Definition markov_step (table : (float * float) * (float * float))
           (s : option markov) : gen L markov :=
  match s with
  | Some good =>
      choice (fst (fst transitionStateArray)) (snd (fst transitionStateArray))
             (fst (fst table)) (snd (fst table))
  | Some bad =>
      choice (fst (snd transitionStateArray)) (snd (snd transitionStateArray))
             (fst (snd table)) (snd (snd table))
  | None => lift (Raise UnboundLocalError)
  end.

(** The candidate states with the probabilities [np.random.choice] is
    given for them, from state [s]. *)
Definition transition_row (table : (float * float) * (float * float))
           (s : markov) : list (markov * float) :=
  match s with
  | good => [(fst (fst transitionStateArray), fst (fst table));
             (snd (fst transitionStateArray), snd (fst table))]
  | bad => [(fst (snd transitionStateArray), fst (snd table));
            (snd (snd transitionStateArray), snd (snd table))]
  end.

(** [F] and the coefficients of the current state. *)
Definition select (goodCoeffs badCoeffs : float * float) (s : option markov)
  : result (mat2 * (float * float)) :=
  match s with
  | Some good => Ok (M2 (fst goodCoeffs) (snd goodCoeffs) 1 0, goodCoeffs)
  | Some bad => Ok (M2 (fst badCoeffs) (snd badCoeffs) 1 0, badCoeffs)
  | None => Raise UnboundLocalError
  end.

End GilbertElliot.

(** ** The Toeplitz (sliding-window) transform

    [sequenceData[0]] and [sequenceData[1]] are arrays of shape [(1, L)];
    [x] and [z] are their single rows.  The three outputs have the window
    index [i] as their last axis; here each is the list of its windows:
    [toeplitzAllTrueStates[c, :, i]] is the [c]-th component of the [i]-th
    element of the first list, [toeplitzObservationStates[c, :, i]]
    likewise in the second, and [toeplitzFinalTrueStates[:, i]] is the
    [i]-th element of the third. *)

Definition rows : Type := (list float * list float)%type.

Record toeplitz : Type := Toeplitz {
  toeplitzAllTrueStates : list rows;
  toeplitzObservationStates : list rows;
  toeplitzFinalTrueStates : list (list float)
}.

Definition split_windows (ws : list (rows * rows * list float)) : toeplitz :=
  Toeplitz (map (fun w => fst (fst w)) ws)
           (map (fun w => snd (fst w)) ws)
           (map snd ws).

Section ToeplitzData.

(** Where the final states of window [i] are read from:
    [final_slice numColumns i = (start, stop)].  The two files differ
    only there. *)
Variable final_slice : Z -> Z -> Z * Z.

(** The body of [for i in range(0, numRows)]. *)
Definition toeplitz_body (x z : list complex) (numColumns : Z) (i : Z)
  : result (rows * rows * list float) :=
  let fs := final_slice numColumns i in
  o0 <- assign (Z.to_nat numColumns) (map re (slice i (i + numColumns) z)) ;;
  o1 <- assign (Z.to_nat numColumns) (map im (slice i (i + numColumns) z)) ;;
  f01 <- assign 2 (map re (slice (fst fs) (snd fs) x)) ;;
  f23 <- assign 2 (map im (slice (fst fs) (snd fs) x)) ;;
  a0 <- assign (Z.to_nat (numColumns + 1))
               (map re (slice i (i + numColumns + 1) x)) ;;
  a1 <- assign (Z.to_nat (numColumns + 1))
               (map im (slice i (i + numColumns + 1) x)) ;;
  Ok ((a0, a1), (o0, o1), f01 ++ f23).

Definition toeplitz_with (x z : list complex) (numColumns : Z)
  : result toeplitz :=
  let sequenceLength := Z.of_nat (length x) - 1 in
  let numRows := sequenceLength - numColumns + 1 in
  if numRows <? 1 then
    (* the message is built with '{1}' and '{2}' from two arguments:
       str.format itself fails, and its IndexError is what propagates *)
    Raise IndexError
  else
    _ <- empty_check [2; numColumns; numRows] ;;
    _ <- empty_check [4; numRows] ;;
    _ <- empty_check [2; numColumns + 1; numRows] ;;
    ws <- for_each (toeplitz_body x z numColumns) (seqZ 0 numRows) ;;
    Ok (split_windows ws).

End ToeplitzData.

(** [numRows] of the source, from the trajectory and the window size. *)
Definition numRows_of (x : list complex) (numColumns : Z) : Z :=
  (Z.of_nat (length x) - 1) - numColumns + 1.

(** The shapes [(2, numColumns+1, numRows)], [(2, numColumns, numRows)] and
    [(4, numRows)] of the three returned arrays. *)
Definition both_of_length (n : nat) (r : rows) : Prop :=
  length (fst r) = n /\ length (snd r) = n.

Definition well_shaped (t : toeplitz) (numColumns numRows : Z) : Prop :=
  length (toeplitzAllTrueStates t) = Z.to_nat numRows
  /\ Forall (both_of_length (Z.to_nat (numColumns + 1))) (toeplitzAllTrueStates t)
  /\ length (toeplitzObservationStates t) = Z.to_nat numRows
  /\ Forall (both_of_length (Z.to_nat numColumns)) (toeplitzObservationStates t)
  /\ length (toeplitzFinalTrueStates t) = Z.to_nat numRows
  /\ Forall (fun f => length f = 4%nat) (toeplitzFinalTrueStates t).

Module Legacy.

(** src/gilbertElliotDataGen.py *)

Section WithNumpy.

Context (L : numpy).
Local Open Scope float_scope.

(** Line 66: [((p, 1-p), (q, 1-q))] *)
Definition transitionProbabiltyArray (p q : float)
  : (float * float) * (float * float) :=
  ((p, 1 - p), (q, 1 - q)).

(** One iteration of the main loop (lines 162 to 205). *)
Definition step (table : (float * float) * (float * float))
           (goodCoeffs badCoeffs : float * float) (Q_diag R : float)
           (i : Z) (s : loop_state) : gen L (loop_state * sample) :=
  ms <~ (if negb (i =? 0)%Z
         then (m <~ markov_step L table (MarkovState s) ;; ret (Some m))
         else ret (MarkovState s)) ;;
  Fc <~ lift (select goodCoeffs badCoeffs ms) ;;
  vw <~ noises L Q_diag R ;;
  (* x_current and z_current keep their zeros in the first iteration *)
  let x' := if negb (i =? 0)%Z
            then ar_step (fst Fc) (x_current s) (fst vw)
            else x_current s in
  let z' := if negb (i =? 0)%Z
            then observe x' (snd vw)
            else z_current s in
  ret (LoopState ms x' z', Sample (fst x') z' (snd Fc)).

(** [GilEllDataGen(params, seed)].  The function returns
    [(x, z, riccatiConvergences)]; there is no [channelStates], the field
    stays empty.  The statements follow the order of the source; a
    [Q_diag] or [R] that is not a number is refused where [Q], [QChol] and
    [R] are built, and coefficients that are not a pair of numbers where
    [goodF] and [badF] are built. *)
Definition GilEllDataGen (params : val) (seed : Z) : gen L sequenceData :=
  _ <~ seed_if_positive L seed ;;
  pq <~ lift (Params.transition_params params) ;;
  p <~ lift (Params.num (fst pq)) ;;
  q <~ lift (Params.num (snd pq)) ;;
  cs <~ lift (Params.coeff_params params) ;;
  noise <~ lift (Params.noise_params params) ;;
  start <~ start_state L params ;;
  Q_diag <~ lift (Params.num (fst noise)) ;;
  R <~ lift (Params.num (snd noise)) ;;
  steps <~ lift (Params.steps_of (snd cs)) ;;
  goodCoeffs <~ lift (Params.coeff_row (fst (fst cs))) ;;
  badCoeffs <~ lift (Params.coeff_row (snd (fst cs))) ;;
  ric <~ lift (riccati L (M2 (fst goodCoeffs) (snd goodCoeffs) 1 0)
                         (M2 (fst badCoeffs) (snd badCoeffs) 1 0) Q_diag R) ;;
  out <~ gscan (step (transitionProbabiltyArray p q) goodCoeffs badCoeffs Q_diag R)
               (seqZ 0 steps)
               (LoopState start (czero, czero) czero) ;;
  ret (SequenceData (map s_x out) (map s_z out) ric []).

End WithNumpy.

(** Lines 258 and 260: [x[0, i+numColumns : i+numColumns+2]]. *)
Definition final_slice (numColumns i : Z) : Z * Z :=
  (i + numColumns, i + numColumns + 2).

Definition toeplitzData (x z : list complex) (numColumns : Z) : result toeplitz :=
  toeplitz_with final_slice x z numColumns.

(** [GilElDataGenWrapper] (lines 413 to 454), up to the file that
    [matSave] writes: the function returns [data] and, in [info], the
    Riccati matrix. *)
Definition GilElDataGenWrapper (L : numpy) (sequenceLength numSequences : Z)
           (goodCoefficients badCoefficients goodTransProb badTransProb
              QVar RVar : val) (randSeed : Z)
  : gen L (toeplitz * mat2) :=
  let longSequenceLength := numSequences + sequenceLength - 1 in
  longSequence <~ GilEllDataGen L
      (Seq [Seq [goodTransProb; badTransProb];
            Seq [goodCoefficients; badCoefficients];
            Int longSequenceLength; Seq [QVar; RVar]; Str "random"]) randSeed ;;
  data <~ lift (toeplitzData (sd_x longSequence) (sd_z longSequence)
                             sequenceLength) ;;
  ret (data, riccatiConvergences longSequence).

(** *** GilEllTrainingDataGen (lines 272 to 347)

    The three arrays have the sequence index as their last axis; each is
    the list of its columns: [finalTrueStates[:, k]],
    [observationStates[:, :, k]] and [allTrueStates[:, :, k]]. *)
Record trainingArrays : Type := TrainingArrays {
  finalTrueStates : list (list float);
  observationStates : list rows;
  allTrueStates : list rows
}.

(** What the six assignments of one sequence read from [sequenceData]:
    the values for [finalTrueStates[0:2, k]] and [[2:4, k]], for
    [observationStates[0, :, k]] and [[1, :, k]], and for
    [allTrueStates[0, :, k]] and [[1, :, k]]. *)
Definition sequence_column (sequenceLength : Z) (sequenceData : sequenceData)
  : result (list float * rows * rows) :=
  o0 <- assign (Z.to_nat sequenceLength)
               (map re (slice 0 sequenceLength (sd_z sequenceData))) ;;
  o1 <- assign (Z.to_nat sequenceLength)
               (map im (slice 0 sequenceLength (sd_z sequenceData))) ;;
  f01 <- assign 2 (map re (slice (sequenceLength - 1) (sequenceLength + 1)
                                 (sd_x sequenceData))) ;;
  f23 <- assign 2 (map im (slice (sequenceLength - 1) (sequenceLength + 1)
                                 (sd_x sequenceData))) ;;
  a0 <- assign (Z.to_nat (sequenceLength + 1))
               (map re (slice 0 (sequenceLength + 1) (sd_x sequenceData))) ;;
  a1 <- assign (Z.to_nat (sequenceLength + 1))
               (map im (slice 0 (sequenceLength + 1) (sd_x sequenceData))) ;;
  Ok (f01 ++ f23, (o0, o1), (a0, a1)).

(** Column [k] of the three arrays. *)
Definition column_at (a : trainingArrays) (k : nat)
  : option (list float * rows * rows) :=
  match finalTrueStates a !! k, observationStates a !! k, allTrueStates a !! k with
  | Some f, Some o, Some s => Some (f, o, s)
  | _, _, _ => None
  end.

(** The position that the index [k] names on an axis of [len] entries:
    a negative index counts from the end. *)
Definition axis_index (len : nat) (k : Z) : result nat :=
  if (0 <=? k) && (k <? Z.of_nat len) then Ok (Z.to_nat k)
  else if (- Z.of_nat len <=? k) && (k <? 0) then Ok (Z.to_nat (k + Z.of_nat len))
  else Raise IndexError.

(** The six assignments, into column [k]: the index is resolved before
    the values are copied. *)
Definition write_sequence (sequenceLength : Z) (sequenceData : sequenceData)
           (k : Z) (a : trainingArrays) : result trainingArrays :=
  pos <- axis_index (length (finalTrueStates a)) k ;;
  col <- sequence_column sequenceLength sequenceData ;;
  Ok (TrainingArrays (<[pos := fst (fst col)]> (finalTrueStates a))
                     (<[pos := snd (fst col)]> (observationStates a))
                     (<[pos := snd col]> (allTrueStates a))).

(** A [for] loop on the generator that updates a state. *)
Fixpoint gfold {L : numpy} {S} (body : Z -> S -> gen L S) (l : list Z) (s : S)
  : gen L S :=
  match l with
  | [] => ret s
  | i :: l' => s' <~ body i s ;; gfold body l' s'
  end.

(** [np.squeeze] on a shape: the axes of size 1 are dropped. *)
Definition squeeze (shape : list Z) : list Z :=
  List.filter (fun d => negb (d =? 1)) shape.

(** [GilEllTrainingDataGen], up to the file that [matSave] writes.
    [np_shuffle n] is the effect of [np.random.shuffle] on the global
    generator for an array of [n] entries.  The function shuffles a
    temporary array in place and receives [None] from it; indexing an
    array with [None] adds an axis of size 1, which [np.squeeze] drops
    again together with every other axis of size 1.  The result is the
    three arrays with their shapes after [np.squeeze], and the Riccati
    matrix of the last trajectory ([sequenceData] is unbound when the
    loop did not run). *)
Definition GilEllTrainingDataGen (L : numpy) (np_shuffle : Z -> rng L -> rng L)
           (sequenceLength numSequences : Z)
           (goodCoefficients badCoefficients QVar RVar : val) (randSeed : Z)
  : gen L (trainingArrays * (list Z * list Z * list Z) * mat2) :=
  _ <~ lift (empty_check [4; numSequences * 2]) ;;
  _ <~ lift (empty_check [2; sequenceLength; numSequences * 2]) ;;
  _ <~ lift (empty_check [2; sequenceLength + 1; numSequences * 2]) ;;
  let columns := Z.to_nat (numSequences * 2) in
  let zeros :=
    TrainingArrays
      (replicate columns (replicate 4 0%float))
      (replicate columns (replicate (Z.to_nat sequenceLength) 0%float,
                          replicate (Z.to_nat sequenceLength) 0%float))
      (replicate columns (replicate (Z.to_nat (sequenceLength + 1)) 0%float,
                          replicate (Z.to_nat (sequenceLength + 1)) 0%float)) in
  st <~ gfold (fun i (st : trainingArrays * option sequenceData) =>
      (* a set of data that is only using the good coefficients *)
      sequenceData <~ GilEllDataGen L
          (Seq [Seq [Int 1; Int 0]; Seq [goodCoefficients; badCoefficients];
                Int sequenceLength; Seq [QVar; RVar]; Str "good"])
          (randSeed + i) ;;
      a <~ lift (write_sequence sequenceLength sequenceData i (fst st)) ;;
      (* a set of data that is only using the bad coefficients *)
      sequenceData <~ GilEllDataGen L
          (Seq [Seq [Int 0; Int 1]; Seq [goodCoefficients; badCoefficients];
                Int sequenceLength; Seq [QVar; RVar]; Str "bad"])
          (randSeed + i + numSequences) ;;
      a <~ lift (write_sequence sequenceLength sequenceData
                                (i + numSequences - 1) a) ;;
      ret (a, Some sequenceData))
    (seqZ 0 numSequences) (zeros, None) ;;
  _ <~ (fun g => (Ok tt, np_shuffle (numSequences * 2) g)) ;;
  match snd st with
  | None => lift (Raise UnboundLocalError)
  | Some sequenceData =>
      ret (fst st,
           (squeeze [4; 1; numSequences * 2],
            squeeze [2; sequenceLength; 1; numSequences * 2],
            squeeze [2; sequenceLength + 1; 1; numSequences * 2]),
           riccatiConvergences sequenceData)
  end.

End Legacy.

Module GE.

(** src/gilbertElliot/gilbertElliotDataGen.py *)

Section WithNumpy.

Context (L : numpy).
Local Open Scope float_scope.

(** Line 148: [((1-p, p), (1-q, q))] *)
Definition transitionProbabiltyArray (p q : float)
  : (float * float) * (float * float) :=
  ((1 - p, p), (1 - q, q)).

(** One iteration of the main loop (lines 253 to 308), with
    [debug=False]. *)
Definition step (table : (float * float) * (float * float))
           (goodCoeffs badCoeffs : float * float) (Q_diag R : float)
           (i : Z) (s : loop_state) : gen L (loop_state * sample) :=
  ms <~ (if negb (i =? 0)%Z
         then (m <~ markov_step L table (MarkovState s) ;; ret (Some m))
         else ret (MarkovState s)) ;;
  Fc <~ lift (select goodCoeffs badCoeffs ms) ;;
  vw <~ noises L Q_diag R ;;
  x' <~ (if negb (i =? 0)%Z
         then ret (ar_step (fst Fc) (x_current s) (fst vw))
         else unit_variance_sample L) ;;
  let z' := observe x' (snd vw) in
  ret (LoopState ms x' z', Sample (fst x') z' (snd Fc)).

(** [GilEllDataGen(params, seed)] with [debug=False]; the statements
    follow the order of the source, as in the other file. *)
Definition GilEllDataGen (params : val) (seed : Z) : gen L sequenceData :=
  _ <~ seed_if_positive L seed ;;
  pq <~ lift (Params.transition_params params) ;;
  p <~ lift (Params.num (fst pq)) ;;
  q <~ lift (Params.num (snd pq)) ;;
  cs <~ lift (Params.coeff_params params) ;;
  noise <~ lift (Params.noise_params params) ;;
  start <~ start_state L params ;;
  Q_diag <~ lift (Params.num (fst noise)) ;;
  R <~ lift (Params.num (snd noise)) ;;
  steps <~ lift (Params.steps_of (snd cs)) ;;
  goodCoeffs <~ lift (Params.coeff_row (fst (fst cs))) ;;
  badCoeffs <~ lift (Params.coeff_row (snd (fst cs))) ;;
  ric <~ lift (riccati L (M2 (fst goodCoeffs) (snd goodCoeffs) 1 0)
                         (M2 (fst badCoeffs) (snd badCoeffs) 1 0) Q_diag R) ;;
  out <~ gscan (step (transitionProbabiltyArray p q) goodCoeffs badCoeffs Q_diag R)
               (seqZ 0 steps)
               (LoopState start (czero, czero) czero) ;;
  ret (SequenceData (map s_x out) (map s_z out) ric (map s_coeffs out)).

End WithNumpy.

(** *** convertToBatched (lines 33 to 45)

    [systemDataToBeConverted] has shape [(4, N)] and is the list of its
    rows; [observedDataToBeFormatted] has shape [(2, seqLength, N)].
    The outputs have the batch index [i] as their last axis; here each
    is the list of its batches: [trueState[:, :, i]] is the [i]-th
    element of the first list, [measuredState[:, :, :, i]] the [i]-th of
    the second. *)
Definition convertToBatched (systemDataToBeConverted : list (list float))
           (observedDataToBeFormatted : array3) (batchSize : Z)
  : result (list (list (list float)) * list (list (list (list float)))) :=
  let channels := fst (fst (shape3 observedDataToBeFormatted)) in
  let numSequences := snd (shape3 observedDataToBeFormatted) in
  let seqLength := snd (fst (shape3 observedDataToBeFormatted)) in
  if batchSize =? 0 then Raise ZeroDivisionError
  else
    (* int(numSequences/batchSize): the quotient truncated towards zero
       (the float division is exact for the sizes an array can have) *)
    let seriesLength := Z.quot (Z.of_nat numSequences) batchSize in
    _ <- empty_check [batchSize; 4; seriesLength] ;;
    _ <- empty_check [batchSize; 2; Z.of_nat seqLength; seriesLength] ;;
    batches <- for_each (fun i =>
        let sysColumns :=
          map (slice (i * batchSize) ((i + 1) * batchSize))
              systemDataToBeConverted in
        t <- assign2 (Z.to_nat batchSize) 4
                     (transpose2 (ncols sysColumns) sysColumns) ;;
        let obsColumns :=
          map (map (slice (i * batchSize) ((1 + i) * batchSize)))
              (cells observedDataToBeFormatted) in
        let width :=
          slice_length (i * batchSize) ((1 + i) * batchSize) numSequences in
        m <- assign3 (Z.to_nat batchSize) 2 seqLength
                     (swapaxes12 channels (transpose3 seqLength width obsColumns)) ;;
        Ok (t, m))
      (seqZ 0 seriesLength) ;;
    Ok (map fst batches, map snd batches).

(** Lines 367 and 369: [x[0, i+numColumns-1 : i+numColumns+1]]. *)
Definition final_slice (numColumns i : Z) : Z * Z :=
  (i + numColumns - 1, i + numColumns + 1).

Definition toeplitzData (x z : list complex) (numColumns : Z) : result toeplitz :=
  toeplitz_with final_slice x z numColumns.

(** *** GilElDataGenWrapper (lines 518 to 594) *)

(** The defaults of [startingState] and [initTest]: both are strings. *)
Definition default_startingState : val := Str "random".
Definition default_initTest : val := Str "False".

(** The body of [if(initTest)], lines 536 to 558: the three arrays are
    rebuilt from zeros.  [sShape] is last set from the observations, and
    is the shape the slice of the channel coefficients is cut with. *)
Definition initTest_padding (sequenceLength : Z) (longSequence : sequenceData)
  : result sequenceData :=
  let inter1 := sd_x longSequence in
  let sShape1 := Z.of_nat (length inter1) in
  let trueStates := replicate (length inter1) czero in
  trueStates <- set_slice sequenceLength (-1)
                  (slice 0 (sShape1 - (sequenceLength + 1)) inter1) trueStates ;;
  trueStates <- set_last inter1 trueStates ;;
  let inter1 := sd_z longSequence in
  let sShape1 := Z.of_nat (length inter1) in
  let measStates := replicate (length inter1) czero in
  measStates <- set_slice (sequenceLength + 1) (-1)
                  (slice 1 (sShape1 - (sequenceLength + 1)) inter1) measStates ;;
  measStates <- set_last inter1 measStates ;;
  let inter1 := channelStates longSequence in
  let channelCoeffs := replicate (length inter1) (0%float, 0%float) in
  channelCoeffs <- set_slice sequenceLength (-1)
                     (slice 0 (sShape1 - (sequenceLength + 1)) inter1)
                     channelCoeffs ;;
  channelCoeffs <- set_last inter1 channelCoeffs ;;
  Ok (SequenceData trueStates measStates (riccatiConvergences longSequence)
                   channelCoeffs).

(** [GilElDataGenWrapper] with [debug=False], up to the file that
    [matSave] writes: the function returns [data] and, in [info], the
    Riccati matrix and the channel coefficients. *)
Definition GilElDataGenWrapper (L : numpy) (sequenceLength numSequences : Z)
           (goodCoefficients badCoefficients goodTransProb badTransProb
              QVar RVar : val) (randSeed : Z) (startingState initTest : val)
  : gen L (toeplitz * mat2 * list (float * float)) :=
  let longSequenceLength := numSequences + sequenceLength - 1 in
  longSequence <~ GilEllDataGen L
      (Seq [Seq [goodTransProb; badTransProb];
            Seq [goodCoefficients; badCoefficients];
            Int longSequenceLength; Seq [QVar; RVar]; startingState]) randSeed ;;
  longSequence <~ lift (if Params.truthy initTest
                        then initTest_padding sequenceLength longSequence
                        else Ok longSequence) ;;
  data <~ lift (toeplitzData (sd_x longSequence) (sd_z longSequence)
                             sequenceLength) ;;
  ret (data, riccatiConvergences longSequence, channelStates longSequence).

(** *** GilElTestDataGen (lines 379 to 515)

    [toeplitzData] returns arrays with the window index as their last
    axis; [convertToBatched] reads them in that layout:
    [data[2][c, i]] is entry [c] of the final states of window [i], and
    [data[1][c, k, i]] is entry [k] of component [c] of the observations
    of window [i]. *)
Definition finalStates_array (data : toeplitz) : list (list float) :=
  map (fun c => map (fun f => f !!! c) (toeplitzFinalTrueStates data)) (seq 0 4).

Definition observation_array (numColumns : Z) (data : toeplitz) : array3 :=
  Array3 (2%nat, Z.to_nat numColumns, length (toeplitzObservationStates data))
         [map (fun k => map (fun w : rows => fst w !!! k)
                            (toeplitzObservationStates data))
              (seq 0 (Z.to_nat numColumns));
          map (fun k => map (fun w : rows => snd w !!! k)
                            (toeplitzObservationStates data))
              (seq 0 (Z.to_nat numColumns))].

(** What the function keeps of one subset [k]: the rows
    [trueStateTEST[k]] and [measuredStateTEST[k]] (lists of batches), the
    entry of [LSandKFTestData], and the entry of [testDataInfo] without
    the name of the file the data went to. *)
Record testSubset : Type := TestSubset {
  trueState : list (list (list float));
  measuredState : list (list (list (list float)));
  subsetTestStateData : toeplitz;
  riccatiConvergencePred : float;
  riccatiConvergenceEst : float;
  ARCoefficients : val * val;
  transitionProbabilities : val * val;
  subset_seed : Z;
  channelCoefficients : list (float * float)
}.

(** [trueStateTEST[k, :, :, :], measuredStateTEST[k, :, :, :, :] =
    convertToBatched(subsetTestStateData[2], subsetTestStateData[1],
    batch_size)]: the two results are assigned into rows with
    [numBatchedSequences] batches. *)
Definition batched_rows (subsetTestStateData : toeplitz)
           (sequenceLength batch_size numBatchedSequences : Z)
  : result (list (list (list float)) * list (list (list (list float)))) :=
  tm <- convertToBatched (finalStates_array subsetTestStateData)
                         (observation_array sequenceLength subsetTestStateData)
                         batch_size ;;
  t <- assign (Z.to_nat numBatchedSequences) (fst tm) ;;
  m <- assign (Z.to_nat numBatchedSequences) (snd tm) ;;
  Ok (t, m).

(** A [for] loop on the generator that collects one value per
    iteration. *)
Fixpoint gfor {L : numpy} {O} (body : Z -> gen L O) (l : list Z) : gen L (list O) :=
  match l with
  | [] => ret []
  | k :: l' => o <~ body k ;; os <~ gfor body l' ;; ret (o :: os)
  end.

(** [GilElTestDataGen] with [debug=False], up to the files that
    [matSave] writes.  The rows [k >= 3] of the two arrays are never
    written: they keep what [np.empty] found in memory, and the lists
    get no entry for them ([None]). *)
Definition GilElTestDataGen (L : numpy) (sequenceLength numSequences : Z)
           (goodCoefficients badCoefficients goodTransProb badTransProb
              QVar RVar : val) (randSeed batch_size testSetLen : Z)
           (initTest : val)
  : gen L (list (option testSubset)) :=
  if batch_size =? 0 then lift (Raise ZeroDivisionError)
  else
    let numBatchedSequences := Z.quot numSequences batch_size in
    _ <~ lift (empty_check [testSetLen; batch_size; 4; numBatchedSequences]) ;;
    _ <~ lift (empty_check [testSetLen; batch_size; 2; sequenceLength;
                            numBatchedSequences]) ;;
    gfor (fun k =>
      if k =? 0 then
        (* data from both the good and bad coefficients *)
        r <~ GilElDataGenWrapper L sequenceLength numSequences
               goodCoefficients badCoefficients goodTransProb badTransProb
               QVar RVar randSeed default_startingState initTest ;;
        tm <~ lift (batched_rows (fst (fst r)) sequenceLength batch_size
                                 numBatchedSequences) ;;
        let ric := snd (fst r) in
        ret (Some (TestSubset (fst tm) (snd tm) (fst (fst r))
                     ((m10 ric + m00 ric) / 2)%float
                     ((m11 ric + m01 ric) / 2)%float
                     (goodCoefficients, badCoefficients)
                     (goodTransProb, badTransProb) randSeed (snd r)))
      else if k =? 1 then
        (* data from the good coefficients only *)
        r <~ GilElDataGenWrapper L sequenceLength numSequences
               goodCoefficients badCoefficients (Int 0) (Int 1)
               QVar RVar randSeed (Str "good") default_initTest ;;
        tm <~ lift (batched_rows (fst (fst r)) sequenceLength batch_size
                                 numBatchedSequences) ;;
        let ric := snd (fst r) in
        ret (Some (TestSubset (fst tm) (snd tm) (fst (fst r))
                     (m00 ric) (m01 ric)
                     (goodCoefficients, badCoefficients)
                     (Int 0, Int 1) randSeed (snd r)))
      else if k =? 2 then
        (* data from the bad coefficients *)
        r <~ GilElDataGenWrapper L sequenceLength numSequences
               goodCoefficients badCoefficients (Int 1) (Int 0)
               QVar RVar randSeed (Str "bad") default_initTest ;;
        tm <~ lift (batched_rows (fst (fst r)) sequenceLength batch_size
                                 numBatchedSequences) ;;
        let ric := snd (fst r) in
        ret (Some (TestSubset (fst tm) (snd tm) (fst (fst r))
                     (m10 ric) (m11 ric)
                     (goodCoefficients, badCoefficients)
                     (Int 1, Int 0) randSeed (snd r)))
      else ret None)
      (seqZ 0 testSetLen).

(** *** shuffleMeasTrainData and shuffleTrueTrainData (lines 49 to 82)

    Both functions move whole blocks [data[i, ..., j]], addressed by the
    first and the last axis of the tensor: a tensor is the list, over
    its first axis, of the lists of its blocks over its last axis.
    [randperm n] is the tensor that [t.randperm(n)] returns; its entries
    are naturals. *)

(** [data[i, ..., j]] *)
Definition block {A} (data : list (list A)) (i j : nat) : result A :=
  match data !! i with
  | Some row => match row !! j with
                | Some c => Ok c
                | None => Raise IndexError
                end
  | None => Raise IndexError
  end.

(** [randomPermutation[cnt]] for a counter [cnt >= 0] *)
Definition entry (randomPermutation : list nat) (cnt : Z) : result nat :=
  match randomPermutation !! Z.to_nat cnt with
  | Some p => Ok p
  | None => Raise IndexError
  end.

(** The two nested loops, which are the same in both functions:
    [dims0] is [dataDims[0]] and [dimsLast] the size of the last axis;
    [cnt] starts at -1 and is incremented before it is used. *)
Definition shuffle_loops {A} (dataToBeShuffled : list (list A))
           (randomPermutation : list nat) (dims0 dimsLast : nat)
  : result (list (list A)) :=
  r <- for_state (fun (cnt : Z) (m : nat) =>
         for_state (fun (cnt : Z) (n : nat) =>
             let cnt := cnt + 1 in
             p <- entry randomPermutation cnt ;;
             let i := (p mod dims0)%nat in
             let j := (p / dims0)%nat in
             c <- block dataToBeShuffled i j ;;
             Ok (cnt, c))
           cnt (seq 0 dimsLast))
       (-1) (seq 0 dims0) ;;
  Ok (snd r).

Definition shuffleMeasTrainData {A} (randperm : nat -> list nat)
           (dataToBeShuffled : list (list A))
  : result (list (list A) * list nat) :=
  let dims0 := length dataToBeShuffled in
  let dims3 := ncols dataToBeShuffled in
  let totalDims := (dims0 * dims3)%nat in
  let randomPermutation := randperm totalDims in
  shuffledData <- shuffle_loops dataToBeShuffled randomPermutation dims0 dims3 ;;
  Ok (shuffledData, randomPermutation).

Definition shuffleTrueTrainData {A} (dataToBeShuffled : list (list A))
           (randomPermutation : list nat) : result (list (list A)) :=
  shuffle_loops dataToBeShuffled randomPermutation
                (length dataToBeShuffled) (ncols dataToBeShuffled).

(** *** matSave (lines 16 to 31)

    The files are operating-system state: [path_exists] is
    [os.path.exists], [mkdir] is [os.mkdir] and [savemat] is
    [hdf5storage.savemat], each on the state of the file system. *)

Record filesystem : Type := FileSystem {
  fs : Type;
  mat : Type;
  path_exists : string -> fs -> bool;
  mkdir : string -> fs -> result fs;
  savemat : string -> mat -> fs -> result fs
}.

(** [directory + '/' + basename + str(logNumber) + '.mat'] *)
Definition logName_of (directory basename : string) (logNumber : Z) : string :=
  (((directory +:+ "/") +:+ basename) +:+ pretty logNumber) +:+ ".mat".

(** [while (not fileSpaceFound)], lines 23 to 28; [fuel] bounds the
    number of iterations the model follows, and [None] is a loop still
    running when they are used up. *)
Fixpoint find_file_space (OS : filesystem) (fuel : nat)
         (directory basename : string) (logNumber : Z) (st : fs OS)
  : option (Z * string) :=
  match fuel with
  | O => None
  | S fuel' =>
      let logNumber := logNumber + 1 in
      let logName := logName_of directory basename logNumber in
      if negb (path_exists OS logName st) then Some (logNumber, logName)
      else find_file_space OS fuel' directory basename logNumber st
  end.

(** The state after "Create the data directory if it doesn't exist". *)
Definition data_directory (OS : filesystem) (directory : string) (st : fs OS)
  : result (fs OS) :=
  if negb (path_exists OS directory st) then mkdir OS directory st else Ok st.

Definition matSave (OS : filesystem) (fuel : nat) (directory basename : string)
           (data : mat OS) (st : fs OS) : option (result string * fs OS) :=
  match data_directory OS directory st with
  | Raise e => Some (Raise e, st)
  | Ok st1 =>
      match find_file_space OS fuel directory basename 0 st1 with
      | None => None
      | Some (_, logName) =>
          match savemat OS logName data st1 with
          | Ok st2 => Some (Ok logName, st2)
          | Raise e => Some (Raise e, st1)
          end
      end
  end.

End GE.

(** ** The library routines of torch

    [torch.manual_seed] and [torch.randn] work on torch's own global
    generator.  [eig] is [torch.eig(., eigenvectors=False).eigenvalues]:
    an [n x 2] tensor with one row per eigenvalue, its real part in the
    first column and its imaginary part in the second. *)

Record torch : Type := Torch {
  t_rng : Type;
  manual_seed : Z -> t_rng;
  t_randn : t_rng -> float * t_rng;
  eig : mat2 -> result mat2
}.

Module Mismatch.

(** src/mismatch_data_gen.py.  torch computes in float32; the model
    computes in binary64. *)

(** What the function stores for series [i] and batch element [j]:
    [x[j, :, i]], the rows [z[j, :, m, i]] and [all_xs[j, :, :, m, i]]. *)
Record element : Type := Element {
  e_x : list float;
  e_z : list (float * float);
  e_all : list mat2
}.

Section WithTorch.

Context (T : torch).
Local Open Scope float_scope.

(** A computation on torch's generator.  [None] stands for a [while]
    loop that is still running when the iterations granted to it are
    used up. *)
Definition tgen (A : Type) : Type := t_rng T -> option (result A * t_rng T).

Definition tret {A} (a : A) : tgen A := fun g => Some (Ok a, g).

Definition tbind {A B} (m : tgen A) (k : A -> tgen B) : tgen B :=
  fun g => match m g with
           | Some (Ok a, g') => k a g'
           | Some (Raise e, g') => Some (Raise e, g')
           | None => None
           end.

Definition tlift {A} (r : result A) : tgen A := fun g => Some (r, g).

(** [torch.randn(1)] *)
Definition tdraw : tgen float :=
  fun g => Some (Ok (fst (t_randn T g)), snd (t_randn T g)).

(** [torch.randn(n, 1)] *)
Fixpoint tdraws (n : nat) : tgen (list float) :=
  match n with
  | O => tret []
  | S n' => tbind tdraw (fun d => tbind (tdraws n') (fun ds => tret (d :: ds)))
  end.

Fixpoint tscan {S O} (body : Z -> S -> tgen (S * O)) (l : list Z) (s : S)
  : tgen (list O) :=
  match l with
  | [] => tret []
  | i :: l' =>
      tbind (body i s) (fun so =>
      tbind (tscan body l' (fst so)) (fun os => tret (snd so :: os)))
  end.

Fixpoint tfor {O} (body : Z -> tgen O) (l : list Z) : tgen (list O) :=
  match l with
  | [] => tret []
  | i :: l' =>
      tbind (body i) (fun o => tbind (tfor body l') (fun os => tret (o :: os)))
  end.

(** [(torch.abs(eigenvalues) > 1).any()] over the four entries of the
    [2 x 2] tensor of eigenvalues. *)
Definition any_abs_gt_one (ev : mat2) : bool :=
  (1 <? PrimFloat.abs (m00 ev)) || (1 <? PrimFloat.abs (m01 ev))
  || (1 <? PrimFloat.abs (m10 ev)) || (1 <? PrimFloat.abs (m11 ev)).

(** [while(not goodCoeffs)], lines 30 to 44; [fuel] bounds the number
    of iterations the model follows. *)
Fixpoint redraw (fuel : nat) (arCoeffMeans : float * float)
         (arCoeffecientNoiseVar : float) (arCoeffsMatrix : mat2) : tgen mat2 :=
  match fuel with
  | O => fun _ => None
  | S fuel' =>
      tbind tdraw (fun d0 =>
      tbind tdraw (fun d1 =>
        let arCoeffNoise0 := d0 * arCoeffecientNoiseVar in
        let arCoeffNoise1 := d1 * arCoeffecientNoiseVar in
        let F := M2 (fst arCoeffMeans + arCoeffNoise0)
                    (snd arCoeffMeans + arCoeffNoise1)
                    (m10 arCoeffsMatrix) (m11 arCoeffsMatrix) in
        tbind (tlift (eig T F)) (fun eigenvalues =>
          if negb (any_abs_gt_one eigenvalues) then tret F
          else redraw fuel' arCoeffMeans arCoeffecientNoiseVar F)))
  end.

(** The candidate matrix of one iteration (lines 35 to 38) and the
    generator state after its two draws. *)
Definition candidate (arCoeffMeans : float * float)
           (arCoeffecientNoiseVar : float) (arCoeffsMatrix : mat2) (g : t_rng T)
  : mat2 * t_rng T :=
  let d0 := t_randn T g in
  let d1 := t_randn T (snd d0) in
  (M2 (fst arCoeffMeans + fst d0 * arCoeffecientNoiseVar)
      (snd arCoeffMeans + fst d1 * arCoeffecientNoiseVar)
      (m10 arCoeffsMatrix) (m11 arCoeffsMatrix),
   snd d1).

(** The candidate matrix of iteration [n] of the loop, counted from 0,
    and the generator state after its draws: every iteration overwrites
    the first row of the matrix of the iteration before it and draws
    from the generator where that one left it. *)
Fixpoint nth_candidate (n : nat) (arCoeffMeans : float * float)
         (arCoeffecientNoiseVar : float) (arCoeffsMatrix : mat2) (g : t_rng T)
  : mat2 * t_rng T :=
  match n with
  | O => candidate arCoeffMeans arCoeffecientNoiseVar arCoeffsMatrix g
  | S n' =>
      nth_candidate n' arCoeffMeans arCoeffecientNoiseVar
        (fst (candidate arCoeffMeans arCoeffecientNoiseVar arCoeffsMatrix g))
        (snd (candidate arCoeffMeans arCoeffecientNoiseVar arCoeffsMatrix g))
  end.

(** [torch.manual_seed]: the seed must fit a 64-bit integer. *)
Definition seed_torch (s : Z) : tgen unit :=
  fun g =>
    if ((-9223372036854775808 <=? s) && (s <=? 18446744073709551615))%Z
    then Some (Ok tt, manual_seed T s)
    else Some (Raise RuntimeError, g).

(** [ARCoeffecientGeneration(arCoeffMeans, arCoeffecientNoiseVar, seed)]
    with [cuda=False]. *)
Definition ARCoeffecientGeneration (fuel : nat) (arCoeffMeans : float * float)
           (arCoeffecientNoiseVar : float) (seed : Z) : tgen mat2 :=
  tbind (if (0 <? seed)%Z then seed_torch seed else tret tt) (fun _ =>
  (* torch.eye(2) with its second row overwritten by the first *)
  redraw fuel arCoeffMeans arCoeffecientNoiseVar (M2 1 0 1 0)).

(** [torch.div(torch.matmul(QChol, torch.randn(AR_n, 1)), sqrt(2))]:
    the product needs [AR_n = 2]. *)
Definition sys_noise (AR_n : Z) (QChol00 : float) : tgen (float * float) :=
  if (AR_n <? 0)%Z then tlift (Raise RuntimeError)
  else
    tbind (tdraws (Z.to_nat AR_n)) (fun ds =>
      match ds with
      | [d0; d1] =>
          tret ((QChol00 * d0 + 0 * d1) / PrimFloat.sqrt 2,
                (0 * d0 + 0 * d1) / PrimFloat.sqrt 2)
      | _ => tlift (Raise RuntimeError)
      end).

(** [torch.div(torch.matmul(torch.sqrt(R), torch.randn(1)), sqrt(2))] *)
Definition obs_noise (R : float) : tgen float :=
  tbind tdraw (fun d => tret ((PrimFloat.sqrt R * d) / PrimFloat.sqrt 2)).

Definition zeros22 : mat2 := M2 0 0 0 0.

Definition madd (a b : mat2) : mat2 :=
  M2 (m00 a + m00 b) (m01 a + m01 b) (m10 a + m10 b) (m11 a + m11 b).

(** One iteration of the sequence loop (lines 174 to 222): the state
    is [(x_complex, z_complex)], recorded after the update.
    [x_complex] has the current state in its first row and the previous
    one in its second; the columns are the real and imaginary parts. *)
Definition step (F : mat2) (AR_n : Z) (m : Z)
           (s : mat2 * (float * float))
  : tgen ((mat2 * (float * float)) * (mat2 * (float * float))) :=
  let QChol00 := PrimFloat.sqrt 0.1 in
  let R := 0.1 in
  tbind (sys_noise AR_n QChol00) (fun rSysNoise =>
  tbind (sys_noise AR_n QChol00) (fun iSysNoise =>
  tbind (obs_noise R) (fun rObsNoise =>
  tbind (obs_noise R) (fun iObsNoise =>
    let v := M2 (fst rSysNoise) (fst iSysNoise) (snd rSysNoise) (snd iSysNoise) in
    let w := (rObsNoise, iObsNoise) in
    let s' :=
      if (m =? 0)%Z then (zeros22, (0, 0))
      else
        let x_complex := madd (matmul F (fst s)) v in
        (x_complex, (m00 x_complex + fst w, m01 x_complex + snd w)) in
    tret (s', s'))))).

(** The loop over [m] for one batch element, and what is stored from
    it: the measurements of [m < sequenceLength], and at
    [m == sequenceLength] the previous and the current state. *)
Definition sequence (F : mat2) (AR_n sequenceLength : Z) : tgen element :=
  tbind (tscan (step F AR_n) (seqZ 0 (sequenceLength + 1))
               (zeros22, (0, 0))) (fun out =>
    let x_last :=
      match out !! Z.to_nat sequenceLength with
      | Some (x_complex, _) =>
          [m10 x_complex; m00 x_complex; m11 x_complex; m01 x_complex]
      | None => [0; 0; 0; 0]
      end in
    tret (Element x_last
                  (map snd (take (Z.to_nat sequenceLength) out))
                  (map fst out))).

(** [torch.zeros(shape)] refuses a negative dimension. *)
Definition zeros_check (dims : list Z) : result unit :=
  if forallb (fun d => (0 <=? d)%Z) dims then Ok tt else Raise RuntimeError.

(** [ARDatagenMismatch(params, seed)] with [cuda=False], up to the
    tensors it fills; the result is indexed by series [i], then by
    batch element [j]. *)
Definition ARDatagenMismatch (fuel : nat)
           (simLength AR_n : Z) (AR_coeffecient_noise_var : float)
           (batchSize sequenceLength : Z) (seed : Z)
  : tgen (list (list element)) :=
  tbind (seed_torch seed) (fun _ =>
  let arCoeffMeans := (0.5, 0.4) in
  tbind (tlift (zeros_check [batchSize; 4; simLength]%Z)) (fun _ =>
  tbind (tlift (zeros_check [batchSize; 2; sequenceLength; simLength]%Z)) (fun _ =>
  tbind (tlift (zeros_check [batchSize; 2; 2; sequenceLength + 1; simLength]%Z)) (fun _ =>
  tfor (fun i =>
    tfor (fun j =>
      tbind (ARCoeffecientGeneration fuel arCoeffMeans AR_coeffecient_noise_var (-1))
            (fun F => sequence F AR_n sequenceLength))
      (seqZ 0 batchSize))
    (seqZ 0 simLength))))).

End WithTorch.

End Mismatch.

(** ** Library instances for the examples

    Small executable stand-ins for the library routines, on which the
    generators are run in the examples below: a counter-driven generator,
    a generator that always returns the same sample, a Riccati solver by
    fixed-point iteration, and the eigenvalues of a 2 x 2 matrix by the
    quadratic formula. *)

Module Fixture.

Local Open Scope float_scope.

(** One step of the Riccati recursion
    [X' = a^T X a - a^T X b (r + b^T X b)^-1 b^T X a + q]. *)
Definition riccati_step (a : mat2) (b : float * float) (q : mat2) (r : float)
           (X : mat2) : result mat2 :=
  let at_ := transpose a in
  let XB0 := m00 X * fst b + m01 X * snd b in
  let XB1 := m10 X * fst b + m11 X * snd b in
  let s := r + (fst b * XB0 + snd b * XB1) in
  let u0 := m00 at_ * XB0 + m01 at_ * XB1 in
  let u1 := m10 at_ * XB0 + m11 at_ * XB1 in
  let BX0 := fst b * m00 X + snd b * m10 X in
  let BX1 := fst b * m01 X + snd b * m11 X in
  let w0 := BX0 * m00 a + BX1 * m10 a in
  let w1 := BX0 * m01 a + BX1 * m11 a in
  if s =? 0 then Raise LinAlgError
  else
    let AXA := matmul (matmul at_ X) a in
    Ok (M2 (m00 AXA - u0 * w0 / s + m00 q) (m01 AXA - u0 * w1 / s + m01 q)
           (m10 AXA - u1 * w0 / s + m10 q) (m11 AXA - u1 * w1 / s + m11 q)).

Fixpoint riccati_iterate (n : nat) (a : mat2) (b : float * float) (q : mat2)
         (r : float) (X : mat2) : result mat2 :=
  match n with
  | O => Ok X
  | S n' => bind (riccati_step a b q r X) (riccati_iterate n' a b q r)
  end.

(** A generator whose state is a counter: the samples cycle through
    [-1.5, -1, ..., 1.5] and through [0, 0.25, 0.5, 0.75]. *)
Definition counter_numpy : numpy :=
  Numpy Z
        (fun s => s)
        (fun g => (Params.float_of_Z (g mod 7 - 3) / 2, (g + 1)%Z))
        (fun g => (Params.float_of_Z (g mod 4) / 4, (g + 1)%Z))
        (fun a b q r => riccati_iterate 50 a b q r q).

(** The eigenvalues of [[a, b], [c, d]] by the quadratic formula, in the
    layout of [torch.eig]: one row [(real, imaginary)] per eigenvalue. *)
Definition eig_quadratic (F : mat2) : mat2 :=
  let tr := m00 F + m11 F in
  let det := m00 F * m11 F - m01 F * m10 F in
  let disc := tr * tr - 4 * det in
  if disc <? 0 then
    M2 (tr / 2) (PrimFloat.sqrt (- disc) / 2)
       (tr / 2) (- (PrimFloat.sqrt (- disc) / 2))
  else
    M2 ((tr + PrimFloat.sqrt disc) / 2) 0
       ((tr - PrimFloat.sqrt disc) / 2) 0.

(** The characteristic polynomial [(l - a)(l - d) - b c] of
    [[a, b], [c, d]] at the complex number [l], and whether it vanishes
    there. *)
Definition char_poly (F : mat2) (l : complex) : complex :=
  cadd (cmul (cadd l (of_real (- m00 F))) (cadd l (of_real (- m11 F))))
       (of_real (- (m01 F * m10 F))).

Definition is_eigenvalue (F : mat2) (l : complex) : bool :=
  (re (char_poly F l) =? 0) && (im (char_poly F l) =? 0).

(** Whether one of the eigenvalues that [eig_quadratic] finds lies
    outside the unit circle: its squared magnitude exceeds 1. *)
Definition outside_unit_circle (F : mat2) : bool :=
  let ev := eig_quadratic F in
  (1 <? m00 ev * m00 ev + m01 ev * m01 ev)
  || (1 <? m10 ev * m10 ev + m11 ev * m11 ev).

(** A generator that returns the samples [d0], [d1], [d0], [d1], ... *)
Definition alternating_torch (d0 d1 : float) : torch :=
  Torch bool (fun _ => false)
        (fun g => (if g then d1 else d0, negb g))
        (fun F => Ok (eig_quadratic F)).

(** A generator that returns the sample [d] for ever. *)
Definition constant_torch (d : float) : torch :=
  Torch unit (fun _ => tt) (fun g => (d, tt)) (fun F => Ok (eig_quadratic F)).

(** A generator whose state is a counter, as [counter_numpy]. *)
Definition counter_torch : torch :=
  Torch Z
        (fun s => s)
        (fun g => (Params.float_of_Z (g mod 7 - 3) / 2, (g + 1)%Z))
        (fun F => Ok (eig_quadratic F)).

(** Whether two outcomes are trajectories whose [k]-th true states have
    different real parts. *)
Definition x_differs (k : nat) (r1 r2 : result sequenceData) : bool :=
  match r1, r2 with
  | Ok a, Ok b =>
      match sd_x a !! k, sd_x b !! k with
      | Some c, Some d => negb (re c =? re d)
      | _, _ => false
      end
  | _, _ => false
  end.

(** A file system that is the list of the paths that exist. *)
Definition listed_files : GE.filesystem :=
  GE.FileSystem (list string) unit
                (fun p st => existsb (String.eqb p) st)
                (fun d st => Ok (d :: st))
                (fun p _ st => Ok (p :: st)).

(** [[(0.5, 0.5), ((0.5, -0.25), (1.5, -0.75)), n, (1.0, 1.0), start]] *)
Definition params (n : Z) (start : string) : val :=
  Seq [Seq [Float 0.5; Float 0.5];
       Seq [Seq [Float 0.5; Float (-0.25)]; Seq [Float 1.5; Float (-0.75)]];
       Int n;
       Seq [Float 1; Float 1];
       Str start].

End Fixture.

(** * Properties *)

(** ** Results and loops *)

Lemma for_each_Forall2 {A B} (f : A -> result B) (l : list A) (bs : list B) :
  for_each f l = Ok bs <-> Forall2 (fun a b => f a = Ok b) l bs.
Proof.
  revert bs. induction l as [|a l IH]; intros bs; simpl.
  - split.
    + intros [= <-]. constructor.
    + intros H. inversion H. reflexivity.
  - destruct (f a) as [b|e] eqn:Ea; simpl.
    + destruct (for_each f l) as [bs'|e] eqn:El; simpl.
      * split.
        -- intros [= <-]. constructor; [assumption|]. apply IH. reflexivity.
        -- intros H. inversion H as [|? b' ? bs'' Hb Hbs]; subst.
           rewrite Ea in Hb. injection Hb as <-.
           apply IH in Hbs. injection Hbs as <-. reflexivity.
      * split; [discriminate|].
        intros H. inversion H as [|? b' ? bs'' Hb Hbs]; subst.
        apply IH in Hbs. discriminate.
    + split; [discriminate|].
      intros H. inversion H as [|? b' ? bs'' Hb Hbs]; subst. congruence.
Qed.

Lemma for_each_total {A B} (f : A -> result B) (g : A -> B) (l : list A) :
  Forall (fun a => f a = Ok (g a)) l -> for_each f l = Ok (map g l).
Proof.
  induction 1 as [|a l Ha _ IH]; simpl; [reflexivity|].
  rewrite Ha. simpl. rewrite IH. reflexivity.
Qed.

(** ** Slices *)

Lemma slice_inside {A} (a b : Z) (l : list A) :
  0 <= a -> a <= b -> b <= Z.of_nat (length l) ->
  slice a b l = take (Z.to_nat (b - a)) (drop (Z.to_nat a) l).
Proof.
  intros Ha Hab Hb. unfold slice, clip_index.
  destruct (Z.ltb_spec a 0); [lia|]. destruct (Z.ltb_spec b 0); [lia|].
  rewrite !Z.min_l by lia. reflexivity.
Qed.

Lemma length_slice_inside {A} (a b : Z) (l : list A) :
  0 <= a -> a <= b -> b <= Z.of_nat (length l) ->
  length (slice a b l) = Z.to_nat (b - a).
Proof.
  intros Ha Hab Hb. rewrite slice_inside by assumption.
  rewrite length_take, length_drop. lia.
Qed.

Lemma lookup_slice_inside {A} (a b : Z) (l : list A) (k : nat) :
  0 <= a -> a <= b -> b <= Z.of_nat (length l) ->
  (k < Z.to_nat (b - a))%nat ->
  slice a b l !! k = l !! (Z.to_nat a + k)%nat.
Proof.
  intros Ha Hab Hb Hk. rewrite slice_inside by assumption.
  rewrite lookup_take_lt by assumption. apply lookup_drop.
Qed.

(** A slice whose stop bound lies beyond the end is cut at the end. *)
Lemma slice_clipped {A} (a b : Z) (l : list A) :
  0 <= a -> a <= Z.of_nat (length l) -> Z.of_nat (length l) <= b ->
  slice a b l = drop (Z.to_nat a) l.
Proof.
  intros Ha Hal Hb. unfold slice, clip_index.
  destruct (Z.ltb_spec a 0); [lia|]. destruct (Z.ltb_spec b 0); [lia|].
  rewrite (Z.min_l a) by lia. rewrite (Z.min_r b) by lia.
  apply take_ge. rewrite length_drop. lia.
Qed.

Lemma slice_pair {A} (a : Z) (l : list A) (u v : A) :
  0 <= a -> l !! Z.to_nat a = Some u -> l !! Z.to_nat (a + 1) = Some v ->
  slice a (a + 2) l = [u; v].
Proof.
  intros Ha Hu Hv.
  assert (Hlen : a + 2 <= Z.of_nat (length l)).
  { apply lookup_lt_Some in Hv. lia. }
  rewrite slice_inside by lia.
  replace (Z.to_nat (a + 2 - a)) with 2%nat by lia.
  rewrite (drop_S _ _ _ Hu).
  replace (Z.to_nat (a + 1)) with (S (Z.to_nat a)) in Hv by lia.
  rewrite (drop_S _ _ _ Hv). reflexivity.
Qed.

Lemma slice_last {A} (a : Z) (l : list A) (u : A) :
  0 <= a -> Z.of_nat (length l) = a + 1 -> l !! Z.to_nat a = Some u ->
  slice a (a + 2) l = [u].
Proof.
  intros Ha Hlen Hu. rewrite slice_clipped by lia.
  rewrite (drop_S _ _ _ Hu). rewrite drop_ge by lia. reflexivity.
Qed.

(** ** Assignment into a view *)

Lemma assign_exact {A} (n : nat) (src : list A) :
  length src = n -> assign n src = Ok src.
Proof. intros H. unfold assign. destruct (decide _); [reflexivity|contradiction]. Qed.

Lemma assign_broadcast {A} (n : nat) (a : A) :
  assign n [a] = Ok (replicate n a).
Proof.
  unfold assign. destruct (decide _) as [E|E]; [|reflexivity].
  simpl in E. subst n. reflexivity.
Qed.

(** ** The window loop *)

Lemma empty_check_nonneg (dims : list Z) :
  Forall (fun d => 0 <= d) dims -> empty_check dims = Ok tt.
Proof.
  intros H. unfold empty_check.
  replace (forallb _ dims) with true; [reflexivity|].
  symmetry. apply forallb_forall. intros d Hd.
  rewrite Forall_forall in H. apply Z.leb_le, H. apply list_elem_of_In, Hd.
Qed.


Lemma toeplitz_with_windows fs (x z : list complex) (numColumns : Z)
      (g : Z -> rows * rows * list float) :
  0 <= numColumns -> 1 <= numRows_of x numColumns ->
  (forall i, 0 <= i < numRows_of x numColumns ->
             toeplitz_body fs x z numColumns i = Ok (g i)) ->
  toeplitz_with fs x z numColumns
  = Ok (split_windows (map g (seqZ 0 (numRows_of x numColumns)))).
Proof.
  intros Hnc Hrows Hbody. unfold toeplitz_with, numRows_of in *.
  destruct (Z.ltb_spec (Z.of_nat (length x) - 1 - numColumns + 1) 1); [lia|].
  rewrite !empty_check_nonneg by (repeat constructor; lia). simpl.
  rewrite (for_each_total _ g); [reflexivity|].
  apply Forall_seqZ. intros i Hi. apply Hbody. lia.
Qed.

Lemma lookup_windows (g : Z -> rows * rows * list float) (n i : Z) :
  0 <= i < n ->
  toeplitzFinalTrueStates (split_windows (map g (seqZ 0 n))) !! Z.to_nat i
  = Some (snd (g i)).
Proof.
  intros Hi. simpl. rewrite !list_lookup_fmap.
  assert (E : seqZ 0 n !! Z.to_nat i = Some i).
  { apply lookup_seqZ. lia. }
  rewrite E. reflexivity.
Qed.

Lemma length_windows (g : Z -> rows * rows * list float) (n : Z) :
  length (toeplitzAllTrueStates (split_windows (map g (seqZ 0 n)))) = Z.to_nat n
  /\ length (toeplitzObservationStates (split_windows (map g (seqZ 0 n)))) = Z.to_nat n
  /\ length (toeplitzFinalTrueStates (split_windows (map g (seqZ 0 n)))) = Z.to_nat n.
Proof. simpl. rewrite !length_map, length_seqZ. auto. Qed.

(** The body of the loop in src/gilbertElliot/gilbertElliotDataGen.py:
    every slice lies inside the trajectory. *)
Lemma GE_body (x z : list complex) (numColumns i : Z) :
  1 <= numColumns -> length z = length x ->
  0 <= i < numRows_of x numColumns ->
  toeplitz_body GE.final_slice x z numColumns i
  = Ok ((map re (slice i (i + numColumns + 1) x),
         map im (slice i (i + numColumns + 1) x)),
        (map re (slice i (i + numColumns) z),
         map im (slice i (i + numColumns) z)),
        map re (slice (i + numColumns - 1) (i + numColumns + 1) x)
        ++ map im (slice (i + numColumns - 1) (i + numColumns + 1) x)).
Proof.
  intros Hnc Hz Hi. unfold numRows_of in Hi. unfold toeplitz_body, GE.final_slice.
  cbn [fst snd].
  rewrite !assign_exact; [reflexivity|..];
    rewrite length_map, length_slice_inside; lia.
Qed.

(** The body of the loop in src/gilbertElliotDataGen.py, for every window
    but the last. *)
Lemma Legacy_body (x z : list complex) (numColumns i : Z) :
  0 <= numColumns -> length z = length x ->
  0 <= i < numRows_of x numColumns - 1 ->
  toeplitz_body Legacy.final_slice x z numColumns i
  = Ok ((map re (slice i (i + numColumns + 1) x),
         map im (slice i (i + numColumns + 1) x)),
        (map re (slice i (i + numColumns) z),
         map im (slice i (i + numColumns) z)),
        map re (slice (i + numColumns) (i + numColumns + 2) x)
        ++ map im (slice (i + numColumns) (i + numColumns + 2) x)).
Proof.
  intros Hnc Hz Hi. unfold numRows_of in Hi. unfold toeplitz_body, Legacy.final_slice.
  cbn [fst snd].
  rewrite !assign_exact; [reflexivity|..];
    rewrite length_map, length_slice_inside; lia.
Qed.

(** The last window in src/gilbertElliotDataGen.py: the final-state slice
    starts at the last sample and asks for one more; numpy cuts it to the
    single last sample and broadcasts that into both entries. *)
Lemma Legacy_body_last (x z : list complex) (numColumns : Z) (xl : complex) :
  0 <= numColumns -> length z = length x ->
  1 <= numRows_of x numColumns ->
  x !! Z.to_nat (Z.of_nat (length x) - 1) = Some xl ->
  let i := numRows_of x numColumns - 1 in
  toeplitz_body Legacy.final_slice x z numColumns i
  = Ok ((map re (slice i (i + numColumns + 1) x),
         map im (slice i (i + numColumns + 1) x)),
        (map re (slice i (i + numColumns) z),
         map im (slice i (i + numColumns) z)),
        [re xl; re xl; im xl; im xl]).
Proof.
  intros Hnc Hz Hrows Hxl i. unfold numRows_of in *. subst i.
  unfold toeplitz_body, Legacy.final_slice. cbn [fst snd].
  replace (Z.of_nat (length x) - 1 - numColumns + 1 - 1 + numColumns)
    with (Z.of_nat (length x) - 1) by lia.
  rewrite (slice_last (Z.of_nat (length x) - 1) x xl) by (assumption || lia).
  simpl map. rewrite !assign_broadcast. simpl.
  rewrite !assign_exact; [reflexivity|..];
    rewrite length_map, length_slice_inside; lia.
Qed.

Lemma well_shaped_windows (g : Z -> rows * rows * list float) (numColumns n : Z) :
  (forall i, 0 <= i < n ->
     both_of_length (Z.to_nat (numColumns + 1)) (fst (fst (g i)))
     /\ both_of_length (Z.to_nat numColumns) (snd (fst (g i)))
     /\ length (snd (g i)) = 4%nat) ->
  well_shaped (split_windows (map g (seqZ 0 n))) numColumns n.
Proof.
  intros H. unfold well_shaped.
  destruct (length_windows g n) as (-> & -> & ->).
  simpl. rewrite <- !list_fmap_compose.
  repeat split; try reflexivity; apply Forall_fmap, Forall_seqZ;
    intros i Hi; simpl; apply H; lia.
Qed.

Lemma GE_toeplitzData_ok (x z : list complex) (numColumns : Z) :
  1 <= numColumns -> length z = length x -> 1 <= numRows_of x numColumns ->
  exists g,
    GE.toeplitzData x z numColumns
    = Ok (split_windows (map g (seqZ 0 (numRows_of x numColumns))))
    /\ forall i, 0 <= i < numRows_of x numColumns ->
         toeplitz_body GE.final_slice x z numColumns i = Ok (g i)
         /\ g i = ((map re (slice i (i + numColumns + 1) x),
                    map im (slice i (i + numColumns + 1) x)),
                   (map re (slice i (i + numColumns) z),
                    map im (slice i (i + numColumns) z)),
                   map re (slice (i + numColumns - 1) (i + numColumns + 1) x)
                   ++ map im (slice (i + numColumns - 1) (i + numColumns + 1) x)).
Proof.
  intros Hnc Hz Hrows.
  eexists (fun i => _). split.
  - apply toeplitz_with_windows; [lia|assumption|].
    intros i Hi. apply GE_body; assumption.
  - intros i Hi. split; [|reflexivity]. apply GE_body; assumption.
Qed.

Lemma Legacy_toeplitzData_ok (x z : list complex) (numColumns : Z) :
  0 <= numColumns -> length z = length x -> 1 <= numRows_of x numColumns ->
  exists g xl,
    x !! Z.to_nat (Z.of_nat (length x) - 1) = Some xl
    /\ Legacy.toeplitzData x z numColumns
       = Ok (split_windows (map g (seqZ 0 (numRows_of x numColumns))))
    /\ forall i, 0 <= i < numRows_of x numColumns ->
         g i = ((map re (slice i (i + numColumns + 1) x),
                 map im (slice i (i + numColumns + 1) x)),
                (map re (slice i (i + numColumns) z),
                 map im (slice i (i + numColumns) z)),
                if i =? numRows_of x numColumns - 1
                then [re xl; re xl; im xl; im xl]
                else map re (slice (i + numColumns) (i + numColumns + 2) x)
                     ++ map im (slice (i + numColumns) (i + numColumns + 2) x)).
Proof.
  intros Hnc Hz Hrows.
  assert (Hlast : is_Some (x !! Z.to_nat (Z.of_nat (length x) - 1))).
  { apply lookup_lt_is_Some. unfold numRows_of in Hrows. lia. }
  destruct Hlast as [xl Hxl].
  exists (fun i =>
            ((map re (slice i (i + numColumns + 1) x),
              map im (slice i (i + numColumns + 1) x)),
             (map re (slice i (i + numColumns) z),
              map im (slice i (i + numColumns) z)),
             if i =? numRows_of x numColumns - 1
             then [re xl; re xl; im xl; im xl]
             else map re (slice (i + numColumns) (i + numColumns + 2) x)
                  ++ map im (slice (i + numColumns) (i + numColumns + 2) x))), xl.
  split; [exact Hxl|]. split.
  - apply toeplitz_with_windows; [lia|assumption|].
    intros i Hi. cbv beta.
    destruct (Z.eqb_spec i (numRows_of x numColumns - 1)) as [->|Hne].
    + apply (Legacy_body_last x z numColumns xl); assumption.
    + apply Legacy_body; [assumption..|lia].
  - intros i Hi. reflexivity.
Qed.

(** ** Computations on the generator *)

Lemma gbind_Ok {L : numpy} {A B} (m : gen L A) (k : A -> gen L B) g b g' :
  gbind m k g = (Ok b, g') ->
  exists a g1, m g = (Ok a, g1) /\ k a g1 = (Ok b, g').
Proof.
  unfold gbind. destruct (m g) as [[a|e] g1]; [|discriminate].
  intros H. exists a, g1. split; [reflexivity|assumption].
Qed.

Lemma lift_Ok {L : numpy} {A} (r : result A) g a g' :
  lift (L:=L) r g = (Ok a, g') -> r = Ok a /\ g' = g.
Proof. unfold lift. intros [= -> ->]. split; reflexivity. Qed.

Lemma gbind_lift_Ok {L : numpy} {A B} (r : result A) (k : A -> gen L B) a g :
  r = Ok a -> gbind (lift r) k g = k a g.
Proof. intros ->. reflexivity. Qed.

Lemma gbind_lift_Raise {L : numpy} {A B} (r : result A) (k : A -> gen L B) e g :
  r = Raise e -> gbind (lift r) k g = (Raise e, g).
Proof. intros ->. reflexivity. Qed.

(** Comparing floats inside a proof: two floats that a test tells apart
    are different. *)
Lemma float_neq (a b : float) :
  PrimFloat.eqb a a = true -> PrimFloat.eqb a b = false -> a <> b.
Proof. intros Haa Hab E. rewrite <- E in Hab. congruence. Qed.

(** ** Seeding *)

Lemma seeded_run {L : numpy} {A} (k : unit -> gen L A) (s : Z) (g1 g2 : rng L) :
  0 < s ->
  fst (gbind (seed_if_positive L s) k g1) = fst (gbind (seed_if_positive L s) k g2).
Proof.
  intros Hs. unfold gbind, seed_if_positive.
  destruct (Z.ltb_spec 0 s); [|lia].
  destruct (s <=? 4294967295); reflexivity.
Qed.

Lemma seed_if_positive_in_range {L : numpy} (s : Z) (g : rng L) :
  s <= 4294967295 ->
  seed_if_positive L s g = (Ok tt, if 0 <? s then seed L s else g).
Proof.
  intros Hs. unfold seed_if_positive.
  destruct (0 <? s); [|reflexivity].
  destruct (Z.leb_spec s 4294967295); [reflexivity|lia].
Qed.

(** ** The noise parameter *)

Lemma noise_params_bare_float (params : val) (f : float) :
  Params.index params 3 = Ok (Float f) ->
  Params.noise_params params = Raise TypeError.
Proof.
  intros H. unfold Params.noise_params.
  destruct params as [z|f'|s|l]; simpl in H; try discriminate.
  - destruct (String.get 3 s); discriminate.
  - destruct (l !! 3%nat) as [a|] eqn:E; [|discriminate].
    injection H as ->.
    pose proof (lookup_lt_Some _ _ _ E) as Hlt.
    cbn [Params.len Params.index bind].
    destruct (Z.ltb_spec (Z.of_nat (length l)) 4); [lia|].
    rewrite E. reflexivity.
Qed.

(** ** The Markov chain *)

(** The draw of [markov_step] is the categorical draw over the row that
    [transition_row] lists. *)
Lemma markov_step_uses_row (L : numpy) table (s : markov) :
  exists a b pa pb,
    transition_row table s = [(a, pa); (b, pb)]
    /\ markov_step L table (Some s) = choice L a b pa pb.
Proof. destruct s; simpl; eauto 10. Qed.

(** src/gilbertElliot/gilbertElliotDataGen.py pairs ['good', 'bad'] with
    [(1-p, p)] and ['bad', 'good'] with [(1-q, q)]. *)
Lemma GE_transition_rows (p q : float) :
  transition_row (GE.transitionProbabiltyArray p q) good
  = [(good, (1 - p)%float); (bad, p)]
  /\ transition_row (GE.transitionProbabiltyArray p q) bad
     = [(bad, (1 - q)%float); (good, q)].
Proof. split; reflexivity. Qed.

(** src/gilbertElliotDataGen.py pairs ['good', 'bad'] with [(p, 1-p)] and
    ['bad', 'good'] with [(q, 1-q)]. *)
Lemma Legacy_transition_rows (p q : float) :
  transition_row (Legacy.transitionProbabiltyArray p q) good
  = [(good, p); (bad, (1 - p)%float)]
  /\ transition_row (Legacy.transitionProbabiltyArray p q) bad
     = [(bad, q); (good, (1 - q)%float)].
Proof. split; reflexivity. Qed.

(** C2 (the code of src/gilbertElliotDataGen.py at p = 0.25, q = 0.125, and
    at p = q = 1): from 'good' the draw gives 'bad' the probability
    1 - p = 0.75 and not p = 0.25, from 'bad' it gives 'good' the
    probability 0.875 and not 0.125; with p = 1, a probability of one of
    leaving 'good', the chain stays in 'good', where the other file
    moves to 'bad'. *)
Theorem Legacy_transition_probabilities_swapped :
  transition_row (Legacy.transitionProbabiltyArray 0.25 0.125) good
  = [(good, 0.25%float); (bad, 0.75%float)]
  /\ transition_row (Legacy.transitionProbabiltyArray 0.25 0.125) bad
     = [(bad, 0.125%float); (good, 0.875%float)]
  /\ fst (markov_step Fixture.counter_numpy
                      (Legacy.transitionProbabiltyArray 1 1) (Some good) 2)
     = Ok good
  /\ fst (markov_step Fixture.counter_numpy
                      (GE.transitionProbabiltyArray 1 1) (Some good) 2)
     = Ok bad.
Proof. repeat split; vm_compute; reflexivity. Qed.

(** ** Determinism *)

(** C6, as stated, fails: with the default seed -1 (and with any seed
    below 1) no seed is set, and two calls with the same parameters that
    find the global generator in different states return different
    trajectories. *)
Lemma GilEllDataGen_unseeded_not_deterministic :
  fst (GE.GilEllDataGen Fixture.counter_numpy (Fixture.params 2 "good") (-1) 0)
  <> fst (GE.GilEllDataGen Fixture.counter_numpy (Fixture.params 2 "good") (-1) 1)
  /\ fst (Legacy.GilEllDataGen Fixture.counter_numpy (Fixture.params 2 "good") 0 0)
     <> fst (Legacy.GilEllDataGen Fixture.counter_numpy (Fixture.params 2 "good") 0 1).
Proof.
  split; intros H.
  - assert (E : Fixture.x_differs 1
                  (fst (GE.GilEllDataGen Fixture.counter_numpy
                          (Fixture.params 2 "good") (-1) 0))
                  (fst (GE.GilEllDataGen Fixture.counter_numpy
                          (Fixture.params 2 "good") (-1) 0)) = true).
    { rewrite H at 2. vm_compute. reflexivity. }
    vm_compute in E. discriminate.
  - assert (E : Fixture.x_differs 1
                  (fst (Legacy.GilEllDataGen Fixture.counter_numpy
                          (Fixture.params 2 "good") 0 0))
                  (fst (Legacy.GilEllDataGen Fixture.counter_numpy
                          (Fixture.params 2 "good") 0 0)) = true).
    { rewrite H at 2. vm_compute. reflexivity. }
    vm_compute in E. discriminate.
Qed.

(** C6 (amended): for every seed greater than zero, the outcome of
    [GilEllDataGen] (the trajectories [x] and [z] and the Riccati matrix,
    or the exception) is the same whatever state the global generator
    was in, in both files; a seed below 1 sets no seed. *)
Theorem GilEllDataGen_deterministic_when_seeded
        (L : numpy) (params : val) (s : Z) (g1 g2 : rng L) :
  0 < s ->
  fst (GE.GilEllDataGen L params s g1) = fst (GE.GilEllDataGen L params s g2)
  /\ fst (Legacy.GilEllDataGen L params s g1)
     = fst (Legacy.GilEllDataGen L params s g2).
Proof.
  intros Hs. split.
  - unfold GE.GilEllDataGen. apply seeded_run, Hs.
  - unfold Legacy.GilEllDataGen. apply seeded_run, Hs.
Qed.

Lemma GilEllDataGen_deterministic_when_seeded_witness :
  0 < 100
  /\ fst (GE.GilEllDataGen Fixture.counter_numpy (Fixture.params 2 "random") 100 0)
     = fst (GE.GilEllDataGen Fixture.counter_numpy (Fixture.params 2 "random") 100 1).
Proof.
  split; [lia|].
  apply (GilEllDataGen_deterministic_when_seeded
           Fixture.counter_numpy (Fixture.params 2 "random") 100 0 1).
  lia.
Defined.

(** ** The documented bare-float noise parameter *)

(** C10: when [params[3]] is a bare float and the fields before it are
    well formed, [GilEllDataGen] raises TypeError at [len(params[3])], in
    both files, before any random number is drawn: the generator is left
    as the seeding left it. *)
Theorem GilEllDataGen_bare_float_raises_TypeError
        (L : numpy) (params : val) (f : float) (s : Z) (g : rng L)
        (pq : val * val) (p q : float) (cs : val * val * val) :
  Params.index params 3 = Ok (Float f) ->
  Params.transition_params params = Ok pq ->
  Params.num (fst pq) = Ok p ->
  Params.num (snd pq) = Ok q ->
  Params.coeff_params params = Ok cs ->
  s <= 4294967295 ->
  GE.GilEllDataGen L params s g
  = (Raise TypeError, if 0 <? s then seed L s else g)
  /\ Legacy.GilEllDataGen L params s g
     = (Raise TypeError, if 0 <? s then seed L s else g).
Proof.
  intros H3 Hpq Hp Hq Hcs Hs.
  pose proof (noise_params_bare_float params f H3) as Hnoise.
  split.
  - unfold GE.GilEllDataGen. unfold gbind at 1.
    rewrite (seed_if_positive_in_range s g Hs).
    rewrite (gbind_lift_Ok _ _ _ _ Hpq), (gbind_lift_Ok _ _ _ _ Hp),
      (gbind_lift_Ok _ _ _ _ Hq), (gbind_lift_Ok _ _ _ _ Hcs).
    apply gbind_lift_Raise, Hnoise.
  - unfold Legacy.GilEllDataGen. unfold gbind at 1.
    rewrite (seed_if_positive_in_range s g Hs).
    rewrite (gbind_lift_Ok _ _ _ _ Hpq), (gbind_lift_Ok _ _ _ _ Hp),
      (gbind_lift_Ok _ _ _ _ Hq), (gbind_lift_Ok _ _ _ _ Hcs).
    apply gbind_lift_Raise, Hnoise.
Qed.

Lemma GilEllDataGen_bare_float_raises_TypeError_witness :
  GE.GilEllDataGen Fixture.counter_numpy
    (Seq [Seq [Float 0.5; Float 0.5];
          Seq [Seq [Float 0.5; Float (-0.25)]; Seq [Float 1.5; Float (-0.75)]];
          Int 20; Float 0.1]) 100 0
  = (Raise TypeError, 100)
  /\ Legacy.GilEllDataGen Fixture.counter_numpy
       (Seq [Seq [Float 0.5; Float 0.5];
             Seq [Seq [Float 0.5; Float (-0.25)]; Seq [Float 1.5; Float (-0.75)]];
             Int 20; Float 0.1]) 100 0
     = (Raise TypeError, 100).
Proof.
  apply (GilEllDataGen_bare_float_raises_TypeError
           Fixture.counter_numpy _ 0.1 100 0
           (Float 0.5, Float 0.5) 0.5 0.5
           (Seq [Float 0.5; Float (-0.25)], Seq [Float 1.5; Float (-0.75)], Int 20));
    first [reflexivity | lia].
Defined.

(** ** The first iteration of the main loop *)

Lemma gscan_cons_Ok {L : numpy} {S O} (body : Z -> S -> gen L (S * O))
      (i : Z) (l : list Z) (s : S) g os g' :
  gscan body (i :: l) s g = (Ok os, g') ->
  exists s1 o g1 os',
    body i s g = (Ok (s1, o), g1)
    /\ gscan body l s1 g1 = (Ok os', g')
    /\ os = o :: os'.
Proof.
  cbn [gscan]. intros H.
  apply gbind_Ok in H as ([s1 o] & g1 & Hbody & H).
  apply gbind_Ok in H as (os' & g2 & Hrest & H).
  injection H as <- <-. exists s1, o, g1, os'. auto.
Qed.

Lemma gscan_first {L : numpy} {S O} (body : Z -> S -> gen L (S * O))
      (n : Z) (s : S) g os g' :
  gscan body (seqZ 0 n) s g = (Ok os, g') -> os <> [] ->
  exists s1 o g1 os',
    body 0 s g = (Ok (s1, o), g1) /\ os = o :: os'.
Proof.
  intros H Hne.
  destruct (Z.le_gt_cases n 0) as [Hn|Hn].
  - rewrite seqZ_nil in H by assumption. injection H as <- _. contradiction.
  - rewrite seqZ_cons in H by assumption.
    apply gscan_cons_Ok in H as (s1 & o & g1 & os' & Hbody & _ & ->).
    eauto 10.
Qed.

Ltac invert_gen H :=
  repeat (let a := fresh "a" in
          let g := fresh "g" in
          let E := fresh "E" in
          apply gbind_Ok in H as (a & g & E & H)).

(** In src/gilbertElliotDataGen.py the first iteration records the zeros
    that [x_current] and [z_current] were allocated with. *)
Lemma Legacy_step_0 (L : numpy) table gc bc Q_diag R (s st : loop_state)
      (o : sample) g g' :
  Legacy.step L table gc bc Q_diag R 0 s g = (Ok (st, o), g') ->
  x_current st = x_current s /\ z_current st = z_current s
  /\ s_x o = fst (x_current s) /\ s_z o = z_current s.
Proof.
  unfold Legacy.step. cbn [Z.eqb negb]. intros H.
  invert_gen H. injection H as <- <- _. auto.
Qed.

(** In src/gilbertElliot/gilbertElliotDataGen.py the first iteration
    draws the state, after the noise of that iteration. *)
Lemma GE_step_0 (L : numpy) table gc bc Q_diag R (s st : loop_state)
      (o : sample) g g' :
  GE.step L table gc bc Q_diag R 0 s g = (Ok (st, o), g') ->
  exists vw gn xs,
    noises L Q_diag R g = (Ok vw, gn)
    /\ unit_variance_sample L gn = (Ok xs, g')
    /\ x_current st = xs
    /\ s_x o = fst xs
    /\ s_z o = observe xs (snd vw).
Proof.
  unfold GE.step. cbn [Z.eqb negb]. intros H.
  apply gbind_Ok in H as (ms & g1 & Hms & H).
  injection Hms as <- <-.
  apply gbind_Ok in H as (Fc & g2 & HF & H).
  apply lift_Ok in HF as [_ ->].
  apply gbind_Ok in H as (vw & gn & Hvw & H).
  apply gbind_Ok in H as (xs & g3 & Hxs & H).
  injection H as <- <- <-.
  exists vw, gn, xs. auto.
Qed.

(** The sample drawn for the first state: four consecutive normal
    samples, the first two for the real parts of the two components and
    the next two for their imaginary parts, each divided by sqrt(2). *)
Lemma unit_variance_sample_draws (L : numpy) (g : rng L) :
  let d0 := randn L g in
  let d1 := randn L (snd d0) in
  let d2 := randn L (snd d1) in
  let d3 := randn L (snd d2) in
  unit_variance_sample L g
  = (Ok (complex_of (fst d0 / PrimFloat.sqrt 2) (fst d2 / PrimFloat.sqrt 2),
         complex_of (fst d1 / PrimFloat.sqrt 2) (fst d3 / PrimFloat.sqrt 2)),
     snd d3).
Proof. reflexivity. Qed.

Lemma Legacy_GilEllDataGen_first (L : numpy) params s g sd g' :
  Legacy.GilEllDataGen L params s g = (Ok sd, g') -> sd_x sd <> [] ->
  sd_x sd !! 0%nat = Some czero /\ sd_z sd !! 0%nat = Some czero.
Proof.
  unfold Legacy.GilEllDataGen. intros H Hne.
  invert_gen H. injection H as <- _. cbn [sd_x sd_z] in *.
  match goal with
  | E : gscan _ _ _ ?g0 = (Ok ?os, _) |- _ =>
      assert (Hos : os <> []) by (intros ->; apply Hne; reflexivity);
        destruct (gscan_first _ _ _ _ _ _ E Hos) as (s1 & o & gs & os' & Hbody & ->)
  end.
  apply Legacy_step_0 in Hbody as (_ & _ & Hx & Hz).
  cbn [x_current z_current fst] in Hx, Hz.
  simpl. rewrite Hx, Hz. auto.
Qed.

Lemma GE_GilEllDataGen_first (L : numpy) params s g sd g' :
  GE.GilEllDataGen L params s g = (Ok sd, g') -> sd_x sd <> [] ->
  exists noise Q_diag R start gs g0 vw gn xs g1,
    seed_if_positive L s g = (Ok tt, gs)
    /\ Params.noise_params params = Ok noise
    /\ Params.num (fst noise) = Ok Q_diag
    /\ Params.num (snd noise) = Ok R
    /\ start_state L params gs = (Ok start, g0)
    /\ noises L Q_diag R g0 = (Ok vw, gn)
    /\ unit_variance_sample L gn = (Ok xs, g1)
    /\ sd_x sd !! 0%nat = Some (fst xs)
    /\ sd_z sd !! 0%nat = Some (observe xs (snd vw)).
Proof.
  unfold GE.GilEllDataGen. intros H Hne.
  invert_gen H. injection H as <- _. cbn [sd_x sd_z] in *.
  repeat match goal with
         | E : lift _ _ = (Ok _, _) |- _ => apply lift_Ok in E as [E ->]
         end.
  match goal with
  | E : gscan (GE.step _ _ _ _ ?Q ?R) _ _ ?g0 = (Ok ?os, _),
    Eseed : seed_if_positive _ _ _ = (Ok ?u, ?gs),
    Enoise : Params.noise_params _ = Ok ?noise,
    Estart : start_state _ _ _ = (Ok ?start, _) |- _ =>
      assert (Hos : os <> []) by (intros ->; apply Hne; reflexivity);
        destruct (gscan_first _ _ _ _ _ _ E Hos) as (s1 & o & g1 & os' & Hbody & ->);
        apply GE_step_0 in Hbody as (vw & gn & xs & Hn & Hu & _ & Hx & Hz);
        destruct u;
        exists noise, Q, R, start, gs, g0, vw, gn, xs, g1
  end.
  simpl. rewrite Hx, Hz. auto 12.
Qed.

(** ** Computations on torch's generator *)

Lemma tbind_Ok {T : torch} {A B} (m : Mismatch.tgen T A)
      (k : A -> Mismatch.tgen T B) g b g' :
  Mismatch.tbind T m k g = Some (Ok b, g') ->
  exists a g1, m g = Some (Ok a, g1) /\ k a g1 = Some (Ok b, g').
Proof.
  unfold Mismatch.tbind. destruct (m g) as [[[a|e] g1]|]; try discriminate.
  intros H. exists a, g1. split; [reflexivity|assumption].
Qed.

Lemma tfor_Forall {T : torch} {O} (P : O -> Prop) (body : Z -> Mismatch.tgen T O)
      (l : list Z) :
  (forall i g o g', body i g = Some (Ok o, g') -> P o) ->
  forall g os g', Mismatch.tfor T body l g = Some (Ok os, g') -> Forall P os.
Proof.
  intros Hbody. induction l as [|i l IH]; intros g os g' H; cbn [Mismatch.tfor] in H.
  - injection H as <- _. constructor.
  - apply tbind_Ok in H as (o & g1 & Ho & H).
    apply tbind_Ok in H as (os' & g2 & Hos & H).
    injection H as <- _. constructor; [eapply Hbody, Ho|eapply IH, Hos].
Qed.

Lemma tscan_first {T : torch} {S O} (body : Z -> S -> Mismatch.tgen T (S * O))
      (n : Z) (s : S) g os g' :
  0 < n ->
  Mismatch.tscan T body (seqZ 0 n) s g = Some (Ok os, g') ->
  exists s1 o g1 os', body 0 s g = Some (Ok (s1, o), g1) /\ os = o :: os'.
Proof.
  intros Hn H. rewrite seqZ_cons in H by assumption. cbn [Mismatch.tscan] in H.
  apply tbind_Ok in H as ([s1 o] & g1 & Hbody & H).
  apply tbind_Ok in H as (os' & g2 & _ & H).
  injection H as <- _. eauto 10.
Qed.

(** The first iteration of the sequence loop of src/mismatch_data_gen.py
    sets the state and the measurement to zeros. *)
Lemma Mismatch_step_0 (T : torch) (F : mat2) (AR_n : Z) s s' o g g' :
  Mismatch.step T F AR_n 0 s g = Some (Ok (s', o), g') ->
  o = (Mismatch.zeros22, (0%float, 0%float)) /\ s' = o.
Proof.
  unfold Mismatch.step. intros H.
  repeat (let a := fresh "a" in
          let g := fresh "g" in
          let E := fresh "E" in
          apply tbind_Ok in H as (a & g & E & H)).
  cbn [Z.eqb] in H. injection H as <- <- _. auto.
Qed.

Lemma Mismatch_sequence_first (T : torch) (F : mat2) (AR_n n : Z) e g g' :
  0 <= n ->
  Mismatch.sequence T F AR_n n g = Some (Ok e, g') ->
  Mismatch.e_all e !! 0%nat = Some Mismatch.zeros22
  /\ (1 <= n -> Mismatch.e_z e !! 0%nat = Some (0%float, 0%float)).
Proof.
  intros Hn H. unfold Mismatch.sequence in H.
  apply tbind_Ok in H as (out & g1 & Hout & H).
  injection H as <- _.
  apply tscan_first in Hout as (s1 & o & g2 & os' & Hbody & ->); [|lia].
  apply Mismatch_step_0 in Hbody as [-> _].
  cbn [Mismatch.e_all Mismatch.e_z]. split; [reflexivity|].
  intros Hn1. destruct (Z.to_nat n) as [|k] eqn:Ek; [lia|]. reflexivity.
Qed.

Lemma ARDatagenMismatch_first (T : torch) (fuel : nat) (simLength AR_n : Z)
      (var : float) (batchSize sequenceLength s : Z) g out g' :
  0 <= sequenceLength ->
  Mismatch.ARDatagenMismatch T fuel simLength AR_n var batchSize sequenceLength s g
  = Some (Ok out, g') ->
  Forall (Forall (fun e => Mismatch.e_all e !! 0%nat = Some Mismatch.zeros22
                           /\ (1 <= sequenceLength ->
                               Mismatch.e_z e !! 0%nat = Some (0%float, 0%float))))
         out.
Proof.
  intros Hn H. unfold Mismatch.ARDatagenMismatch in H.
  repeat (let a := fresh "a" in
          let g := fresh "g" in
          let E := fresh "E" in
          apply tbind_Ok in H as (a & g & E & H)).
  revert H. apply tfor_Forall. intros i gi series gi'.
  apply tfor_Forall. intros j gj e gj' He.
  apply tbind_Ok in He as (F & gF & _ & He).
  eapply Mismatch_sequence_first; eassumption.
Qed.

(** ** The state of step 0 *)

(** C3, as stated, fails: in src/gilbertElliotDataGen.py the first
    iteration draws the noise and nothing else, and the recorded state and
    observation are the zeros the arrays were allocated with, where the
    sample the other file draws at that point is not zero; and in
    src/mismatch_data_gen.py the state and the measurement of step 0 are
    set to zeros. *)
Lemma step_0_state_is_zero_not_drawn :
  (exists sd, fst (Legacy.GilEllDataGen Fixture.counter_numpy
                     (Fixture.params 2 "good") 100 0) = Ok sd
              /\ sd_x sd !! 0%nat = Some czero
              /\ sd_z sd !! 0%nat = Some czero)
  /\ Legacy.step Fixture.counter_numpy (Legacy.transitionProbabiltyArray 0.5 0.5)
       (0.5, -0.25)%float (1.5, -0.75)%float 1 1 0
       (LoopState (Some good) (czero, czero) czero) 100
     = (Ok (LoopState (Some good) (czero, czero) czero,
            Sample czero czero (0.5, -0.25)%float), 106)
  /\ (exists vw, noises Fixture.counter_numpy 1 1 100 = (Ok vw, 106))
  /\ fst (unit_variance_sample Fixture.counter_numpy 106) <> Ok (czero, czero)
  /\ (exists out g' series e,
        Mismatch.ARDatagenMismatch Fixture.counter_torch 10 1 2 0.5 1 2 7 0
        = Some (Ok out, g')
        /\ out !! 0%nat = Some series
        /\ series !! 0%nat = Some e
        /\ Mismatch.e_all e !! 0%nat = Some Mismatch.zeros22).
Proof.
  split; [|split; [|split; [|split]]].
  - eexists. split; [vm_compute; reflexivity|]. split; reflexivity.
  - vm_compute. reflexivity.
  - eexists. vm_compute. reflexivity.
  - intros H.
    assert (E : match fst (unit_variance_sample Fixture.counter_numpy 106) with
                | Ok xs => (re (fst xs) =? 0)%float
                | Raise _ => true
                end = true) by (rewrite H; reflexivity).
    vm_compute in E. discriminate.
  - eexists _, _, _, _. split; [vm_compute; reflexivity|].
    split; [reflexivity|]. split; reflexivity.
Qed.

(** C3 (amended): only src/gilbertElliot/gilbertElliotDataGen.py draws
    the state of step 0: its first recorded true state is the first
    component of a sample of four fresh normal draws, each divided by
    sqrt(2), drawn after the noise of that iteration and not computed
    from [F].  In src/gilbertElliotDataGen.py the first recorded state
    and observation are zero, and in src/mismatch_data_gen.py the state
    of step 0 of every series and batch element is zero (and so is its
    first measurement). *)
Theorem step_0_state :
  (forall (L : numpy) params s g sd g',
      GE.GilEllDataGen L params s g = (Ok sd, g') -> sd_x sd <> [] ->
      exists noise Q_diag R start gs g0 vw gn xs g1,
        seed_if_positive L s g = (Ok tt, gs)
        /\ Params.noise_params params = Ok noise
        /\ Params.num (fst noise) = Ok Q_diag
        /\ Params.num (snd noise) = Ok R
        /\ start_state L params gs = (Ok start, g0)
        /\ noises L Q_diag R g0 = (Ok vw, gn)
        /\ unit_variance_sample L gn = (Ok xs, g1)
        /\ sd_x sd !! 0%nat = Some (fst xs)
        /\ sd_z sd !! 0%nat = Some (observe xs (snd vw)))
  /\ (forall (L : numpy) params s g sd g',
         Legacy.GilEllDataGen L params s g = (Ok sd, g') -> sd_x sd <> [] ->
         sd_x sd !! 0%nat = Some czero /\ sd_z sd !! 0%nat = Some czero)
  /\ (forall (T : torch) fuel simLength AR_n var batchSize sequenceLength s g out g',
         0 <= sequenceLength ->
         Mismatch.ARDatagenMismatch T fuel simLength AR_n var batchSize
                                    sequenceLength s g = Some (Ok out, g') ->
         Forall (Forall (fun e =>
                   Mismatch.e_all e !! 0%nat = Some Mismatch.zeros22
                   /\ (1 <= sequenceLength ->
                       Mismatch.e_z e !! 0%nat = Some (0%float, 0%float))))
                out).
Proof.
  split; [|split].
  - apply GE_GilEllDataGen_first.
  - apply Legacy_GilEllDataGen_first.
  - intros. eapply ARDatagenMismatch_first; eassumption.
Qed.

Lemma step_0_state_witness :
  (exists sd g',
      GE.GilEllDataGen Fixture.counter_numpy (Fixture.params 2 "good") 100 0
      = (Ok sd, g')
      /\ sd_x sd <> []
      /\ exists vw xs g1,
          noises Fixture.counter_numpy 1 1 100 = (Ok vw, 106)
          /\ unit_variance_sample Fixture.counter_numpy 106 = (Ok xs, g1)
          /\ sd_x sd !! 0%nat = Some (fst xs)
          /\ sd_z sd !! 0%nat = Some (observe xs (snd vw)))
  /\ (exists sd g',
         Legacy.GilEllDataGen Fixture.counter_numpy (Fixture.params 2 "good") 100 0
         = (Ok sd, g')
         /\ sd_x sd <> []
         /\ sd_x sd !! 0%nat = Some czero /\ sd_z sd !! 0%nat = Some czero)
  /\ (exists out g',
         0 <= 2
         /\ Mismatch.ARDatagenMismatch Fixture.counter_torch 10 1 2 0.5 1 2 7 0
            = Some (Ok out, g')
         /\ Forall (Forall (fun e =>
                      Mismatch.e_all e !! 0%nat = Some Mismatch.zeros22
                      /\ (1 <= 2 ->
                          Mismatch.e_z e !! 0%nat = Some (0%float, 0%float))))
                   out).
Proof.
  destruct step_0_state as (HGE & HLegacy & HMismatch).
  split; [|split].
  - eexists _, _. split; [vm_compute; reflexivity|].
    split; [discriminate|].
    edestruct (HGE Fixture.counter_numpy (Fixture.params 2 "good") 100 0)
      as (noise & Q_diag & R & start & gs & g0 & vw & gn & xs & g1
          & Hseed & Hnoise & HQ & HR & Hstart & Hvw & Hxs & Hx & Hz);
      [vm_compute; reflexivity|discriminate|].
    injection Hseed as <-. injection Hnoise as <-.
    injection HQ as <-. injection HR as <-. injection Hstart as _ <-.
    assert (Egn : gn = 106) by (vm_compute in Hvw; congruence).
    subst gn. exists vw, xs, g1. auto.
  - eexists _, _. split; [vm_compute; reflexivity|].
    split; [discriminate|].
    eapply (HLegacy Fixture.counter_numpy (Fixture.params 2 "good") 100 0);
      [vm_compute; reflexivity|discriminate].
  - eexists _, _. split; [lia|]. split; [vm_compute; reflexivity|].
    eapply (HMismatch Fixture.counter_torch 10%nat 1 2 0.5%float 1 2 7 0);
      [lia|vm_compute; reflexivity].
Defined.

(** ** The rejection loop of ARCoeffecientGeneration *)

(** One iteration of the loop: two draws, the candidate matrix, the
    eigenvalue test, and either the return or the next iteration. *)
Lemma redraw_S (T : torch) (fuel : nat) (means : float * float) (var : float)
      (F0 : mat2) (g : t_rng T) :
  Mismatch.redraw T (S fuel) means var F0 g
  = match eig T (fst (Mismatch.candidate T means var F0 g)) with
    | Raise e => Some (Raise e, snd (Mismatch.candidate T means var F0 g))
    | Ok ev =>
        if Mismatch.any_abs_gt_one ev
        then Mismatch.redraw T fuel means var
                             (fst (Mismatch.candidate T means var F0 g))
                             (snd (Mismatch.candidate T means var F0 g))
        else Some (Ok (fst (Mismatch.candidate T means var F0 g)),
                   snd (Mismatch.candidate T means var F0 g))
    end.
Proof.
  cbn [Mismatch.redraw]. unfold Mismatch.tbind, Mismatch.tdraw, Mismatch.tlift.
  unfold Mismatch.candidate. cbn [fst snd].
  destruct (eig T _) as [ev|e]; [|reflexivity].
  destruct (Mismatch.any_abs_gt_one ev); reflexivity.
Qed.

(** Once the loop has ended, allowing it more iterations changes
    nothing: its end depends on the draws, not on a count. *)
Lemma redraw_more_fuel (T : torch) (means : float * float) (var : float)
      (fuel k : nat) (F0 : mat2) (g : t_rng T) r :
  Mismatch.redraw T fuel means var F0 g = Some r ->
  Mismatch.redraw T (fuel + k) means var F0 g = Some r.
Proof.
  revert F0 g. induction fuel as [|fuel IH]; intros F0 g H; [discriminate|].
  replace (S fuel + k)%nat with (S (fuel + k)) by lia.
  rewrite redraw_S in *.
  destruct (eig T (fst (Mismatch.candidate T means var F0 g))) as [ev|e];
    [|assumption].
  destruct (Mismatch.any_abs_gt_one ev); [|assumption].
  apply IH, H.
Qed.

(** A matrix is returned only when the test on it came out false. *)
Lemma redraw_returns_passing (T : torch) (means : float * float) (var : float)
      (fuel : nat) (F0 : mat2) (g : t_rng T) F g' :
  Mismatch.redraw T fuel means var F0 g = Some (Ok F, g') ->
  exists ev, eig T F = Ok ev /\ Mismatch.any_abs_gt_one ev = false.
Proof.
  revert F0 g. induction fuel as [|fuel IH]; intros F0 g H; [discriminate|].
  rewrite redraw_S in H.
  destruct (eig T (fst (Mismatch.candidate T means var F0 g))) as [ev|e] eqn:Eev;
    [|discriminate].
  destruct (Mismatch.any_abs_gt_one ev) eqn:Etest.
  - eapply IH, H.
  - injection H as <- _. eauto.
Qed.

(** The loop raises nothing of its own: an exception is one of [eig]. *)
Lemma redraw_raises_only_eig (T : torch) (means : float * float) (var : float)
      (fuel : nat) (F0 : mat2) (g : t_rng T) e g' :
  Mismatch.redraw T fuel means var F0 g = Some (Raise e, g') ->
  exists F, eig T F = Raise e.
Proof.
  revert F0 g. induction fuel as [|fuel IH]; intros F0 g H; [discriminate|].
  rewrite redraw_S in H.
  destruct (eig T (fst (Mismatch.candidate T means var F0 g))) as [ev|e'] eqn:Eev.
  - destruct (Mismatch.any_abs_gt_one ev);
      [eapply IH, H|discriminate].
  - injection H as <- _. eauto.
Qed.

(** While the candidates are rejected the loop goes on: if the states the
    loop can be in all lead to a rejected candidate, it has not ended
    after any number of iterations. *)
Lemma redraw_loops_while_rejected (T : torch) (means : float * float) (var : float)
      (Inv : mat2 -> t_rng T -> Prop) :
  (forall F0 g, Inv F0 g ->
     exists ev,
       eig T (fst (Mismatch.candidate T means var F0 g)) = Ok ev
       /\ Mismatch.any_abs_gt_one ev = true
       /\ Inv (fst (Mismatch.candidate T means var F0 g))
              (snd (Mismatch.candidate T means var F0 g))) ->
  forall fuel F0 g, Inv F0 g -> Mismatch.redraw T fuel means var F0 g = None.
Proof.
  intros Hstep fuel. induction fuel as [|fuel IH]; intros F0 g HInv; [reflexivity|].
  rewrite redraw_S.
  destruct (Hstep F0 g HInv) as (ev & -> & -> & HInv').
  apply IH, HInv'.
Qed.

(** The loop ends with the first iteration whose candidate is not
    rejected.  When the candidates of the iterations before iteration [n]
    are all rejected, the loop is still running as long as it has been
    followed for no more than [n] iterations; followed for longer, it
    returns the candidate of iteration [n] if that one passes the test,
    and it raises what [eig] raises on it. *)
Lemma redraw_still_running (T : torch) (means : float * float) (var : float)
      (n : nat) :
  forall (fuel : nat) (F0 : mat2) (g : t_rng T),
    (forall j, (j < n)%nat ->
       exists ev,
         eig T (fst (Mismatch.nth_candidate T j means var F0 g)) = Ok ev
         /\ Mismatch.any_abs_gt_one ev = true) ->
    (fuel <= n)%nat ->
    Mismatch.redraw T fuel means var F0 g = None.
Proof.
  induction n as [|n IH]; intros fuel F0 g Hpre Hfuel.
  - replace fuel with 0%nat by lia. reflexivity.
  - destruct fuel as [|fuel]; [reflexivity|].
    rewrite redraw_S.
    destruct (Hpre 0%nat ltac:(lia)) as (ev0 & E0 & T0).
    cbn [Mismatch.nth_candidate] in E0. rewrite E0, T0.
    apply IH; [|lia].
    intros j Hj. apply (Hpre (S j)). lia.
Qed.

Lemma redraw_first_outcome (T : torch) (means : float * float) (var : float)
      (n : nat) :
  forall (fuel : nat) (F0 : mat2) (g : t_rng T),
    (forall j, (j < n)%nat ->
       exists ev,
         eig T (fst (Mismatch.nth_candidate T j means var F0 g)) = Ok ev
         /\ Mismatch.any_abs_gt_one ev = true) ->
    (n < fuel)%nat ->
    (forall ev,
        eig T (fst (Mismatch.nth_candidate T n means var F0 g)) = Ok ev ->
        Mismatch.any_abs_gt_one ev = false ->
        Mismatch.redraw T fuel means var F0 g
        = Some (Ok (fst (Mismatch.nth_candidate T n means var F0 g)),
                snd (Mismatch.nth_candidate T n means var F0 g)))
    /\ (forall e,
           eig T (fst (Mismatch.nth_candidate T n means var F0 g)) = Raise e ->
           Mismatch.redraw T fuel means var F0 g
           = Some (Raise e, snd (Mismatch.nth_candidate T n means var F0 g))).
Proof.
  induction n as [|n IH]; intros fuel F0 g Hpre Hfuel;
    (destruct fuel as [|fuel]; [lia|]); rewrite redraw_S.
  - cbn [Mismatch.nth_candidate]. split.
    + intros ev -> ->. reflexivity.
    + intros e ->. reflexivity.
  - destruct (Hpre 0%nat ltac:(lia)) as (ev0 & E0 & T0).
    cbn [Mismatch.nth_candidate] in E0. rewrite E0, T0.
    cbn [Mismatch.nth_candidate].
    apply IH; [|lia].
    intros j Hj. apply (Hpre (S j)). lia.
Qed.

(** With a seed that [torch.manual_seed] accepts, or none, the function
    is its loop, started from the seeded generator. *)
Lemma ARCoeffecientGeneration_is_its_loop (T : torch) fuel means var s g :
  s <= 18446744073709551615 ->
  Mismatch.ARCoeffecientGeneration T fuel means var s g
  = Mismatch.redraw T fuel means var (M2 1 0 1 0)
                    (if 0 <? s then manual_seed T s else g).
Proof.
  intros Hs. unfold Mismatch.ARCoeffecientGeneration, Mismatch.tbind.
  destruct (Z.ltb_spec 0 s) as [Hpos|Hneg]; [|reflexivity].
  unfold Mismatch.seed_torch.
  destruct (Z.leb_spec (-9223372036854775808) s); [|lia].
  destruct (Z.leb_spec s 18446744073709551615); [|lia].
  reflexivity.
Qed.

Lemma ARCoeffecientGeneration_unseeded (T : torch) fuel means var s g :
  s <= 0 ->
  Mismatch.ARCoeffecientGeneration T fuel means var s g
  = Mismatch.redraw T fuel means var (M2 1 0 1 0) g.
Proof.
  intros Hs. unfold Mismatch.ARCoeffecientGeneration.
  destruct (Z.ltb_spec 0 s); [lia|]. reflexivity.
Qed.

(** With the mean coefficients (2, 0) and no coefficient noise every
    candidate is [[2, 0], [1, 0]], whose eigenvalue 2 fails the test:
    the loop is still running after any number of iterations. *)
Lemma redraw_never_ends (fuel : nat) (F0 : mat2) :
  m10 F0 = 1%float -> m11 F0 = 0%float ->
  Mismatch.redraw (Fixture.constant_torch 0) fuel (2, 0)%float 0 F0 tt = None.
Proof.
  intros H10 H11.
  apply (redraw_loops_while_rejected
           (Fixture.constant_torch 0) (2, 0)%float 0%float
           (fun F _ => m10 F = 1%float /\ m11 F = 0%float)); [|auto].
  intros F g [HF10 HF11]. exists (M2 2 0 0 0).
  unfold Mismatch.candidate. cbn [fst snd Fixture.constant_torch t_randn eig m10 m11].
  rewrite HF10, HF11. repeat split; vm_compute; reflexivity.
Qed.

(** C4, as stated, fails: no number of iterations bounds the loop.  On
    the mean coefficients (2, 0) without noise it has not ended after any
    number of iterations. *)
Lemma ARCoeffecientGeneration_has_no_ceiling :
  ~ exists ceiling : nat,
      forall (T : torch) (means : float * float) (var : float) (s : Z) (g : t_rng T),
        Mismatch.ARCoeffecientGeneration T ceiling means var s g <> None.
Proof.
  intros [ceiling H].
  apply (H (Fixture.constant_torch 0) (2, 0)%float 0%float (-1) tt).
  rewrite ARCoeffecientGeneration_unseeded by lia.
  apply redraw_never_ends; reflexivity.
Qed.

(** C4 (amended): the rejection loop has no attempt ceiling and no
    error of its own.  It redraws until a candidate passes the test and
    returns that candidate: once it has ended, its outcome is the same
    under any larger number of allowed iterations; a returned matrix is
    one whose test came out false; and an exception is one raised by the
    eigenvalue routine or by the seeding, never a sign of exhausted
    attempts.  The loop does return: when the candidates of the first [n]
    iterations are rejected and the next one passes the test, the call
    is still running after [n] iterations and returns that candidate,
    with the generator as its two draws left it, as soon as it is
    followed for [n + 1] iterations or more; when [eig] raises on that
    candidate instead, the call raises the same. *)
Theorem ARCoeffecientGeneration_retries_until_test_passes
        (T : torch) (means : float * float) (var : float) (s : Z) (g : t_rng T)
        (fuel : nat) :
  (forall k r,
      Mismatch.ARCoeffecientGeneration T fuel means var s g = Some r ->
      Mismatch.ARCoeffecientGeneration T (fuel + k) means var s g = Some r)
  /\ (forall F g',
         Mismatch.ARCoeffecientGeneration T fuel means var s g = Some (Ok F, g') ->
         exists ev, eig T F = Ok ev /\ Mismatch.any_abs_gt_one ev = false)
  /\ (forall e g',
         Mismatch.ARCoeffecientGeneration T fuel means var s g = Some (Raise e, g') ->
         (exists F, eig T F = Raise e)
         \/ (e = RuntimeError /\ g' = g
             /\ (s < -9223372036854775808 \/ 18446744073709551615 < s)))
  /\ (forall Inv : mat2 -> t_rng T -> Prop,
         (forall F0 g0, Inv F0 g0 ->
            exists ev,
              eig T (fst (Mismatch.candidate T means var F0 g0)) = Ok ev
              /\ Mismatch.any_abs_gt_one ev = true
              /\ Inv (fst (Mismatch.candidate T means var F0 g0))
                     (snd (Mismatch.candidate T means var F0 g0))) ->
         s <= 0 -> Inv (M2 1 0 1 0) g ->
         Mismatch.ARCoeffecientGeneration T fuel means var s g = None)
  /\ (forall (n : nat) (g0 : t_rng T),
         s <= 18446744073709551615 ->
         g0 = (if 0 <? s then manual_seed T s else g) ->
         (forall j, (j < n)%nat ->
            exists ev,
              eig T (fst (Mismatch.nth_candidate T j means var (M2 1 0 1 0) g0))
              = Ok ev
              /\ Mismatch.any_abs_gt_one ev = true) ->
         ((fuel <= n)%nat ->
          Mismatch.ARCoeffecientGeneration T fuel means var s g = None)
         /\ ((n < fuel)%nat ->
             forall ev,
               eig T (fst (Mismatch.nth_candidate T n means var (M2 1 0 1 0) g0))
               = Ok ev ->
               Mismatch.any_abs_gt_one ev = false ->
               Mismatch.ARCoeffecientGeneration T fuel means var s g
               = Some (Ok (fst (Mismatch.nth_candidate T n means var
                                                       (M2 1 0 1 0) g0)),
                       snd (Mismatch.nth_candidate T n means var (M2 1 0 1 0) g0)))
         /\ ((n < fuel)%nat ->
             forall e,
               eig T (fst (Mismatch.nth_candidate T n means var (M2 1 0 1 0) g0))
               = Raise e ->
               Mismatch.ARCoeffecientGeneration T fuel means var s g
               = Some (Raise e,
                       snd (Mismatch.nth_candidate T n means var
                                                   (M2 1 0 1 0) g0)))).
Proof.
  assert (Hfirst :
            forall (n : nat) (g0 : t_rng T),
              s <= 18446744073709551615 ->
              g0 = (if 0 <? s then manual_seed T s else g) ->
              (forall j, (j < n)%nat ->
                 exists ev,
                   eig T (fst (Mismatch.nth_candidate T j means var
                                                      (M2 1 0 1 0) g0))
                   = Ok ev
                   /\ Mismatch.any_abs_gt_one ev = true) ->
              ((fuel <= n)%nat ->
               Mismatch.ARCoeffecientGeneration T fuel means var s g = None)
              /\ ((n < fuel)%nat ->
                  forall ev,
                    eig T (fst (Mismatch.nth_candidate T n means var
                                                       (M2 1 0 1 0) g0))
                    = Ok ev ->
                    Mismatch.any_abs_gt_one ev = false ->
                    Mismatch.ARCoeffecientGeneration T fuel means var s g
                    = Some (Ok (fst (Mismatch.nth_candidate T n means var
                                                            (M2 1 0 1 0) g0)),
                            snd (Mismatch.nth_candidate T n means var
                                                        (M2 1 0 1 0) g0)))
              /\ ((n < fuel)%nat ->
                  forall e,
                    eig T (fst (Mismatch.nth_candidate T n means var
                                                       (M2 1 0 1 0) g0))
                    = Raise e ->
                    Mismatch.ARCoeffecientGeneration T fuel means var s g
                    = Some (Raise e,
                            snd (Mismatch.nth_candidate T n means var
                                                        (M2 1 0 1 0) g0)))).
  { intros n g0 Hs -> Hpre.
    rewrite ARCoeffecientGeneration_is_its_loop by exact Hs.
    split; [|split].
    - intros Hfuel. eapply redraw_still_running; eassumption.
    - intros Hfuel.
      apply (redraw_first_outcome T means var n fuel _ _ Hpre Hfuel).
    - intros Hfuel.
      apply (redraw_first_outcome T means var n fuel _ _ Hpre Hfuel). }
  assert (Hloop : forall Inv : mat2 -> t_rng T -> Prop,
             (forall F0 g0, Inv F0 g0 ->
                exists ev,
                  eig T (fst (Mismatch.candidate T means var F0 g0)) = Ok ev
                  /\ Mismatch.any_abs_gt_one ev = true
                  /\ Inv (fst (Mismatch.candidate T means var F0 g0))
                         (snd (Mismatch.candidate T means var F0 g0))) ->
             s <= 0 -> Inv (M2 1 0 1 0) g ->
             Mismatch.ARCoeffecientGeneration T fuel means var s g = None).
  { intros Inv Hstep Hs HInv.
    rewrite ARCoeffecientGeneration_unseeded by assumption.
    eapply redraw_loops_while_rejected; eassumption. }
  revert Hloop Hfirst.
  unfold Mismatch.ARCoeffecientGeneration, Mismatch.tbind.
  destruct (0 <? s).
  - unfold Mismatch.seed_torch.
    destruct (Z.leb_spec (-9223372036854775808) s) as [Hlo|Hlo];
      destruct (Z.leb_spec s 18446744073709551615) as [Hhi|Hhi]; cbn [andb].
    + intros Hloop Hfirst.
      split; [|split; [|split; [|split; [exact Hloop|exact Hfirst]]]].
      * intros k r. apply redraw_more_fuel.
      * intros F g'. apply redraw_returns_passing.
      * intros e g' H. left. eapply redraw_raises_only_eig, H.
    + intros Hloop Hfirst.
      split; [|split; [|split; [|split; [exact Hloop|exact Hfirst]]]];
        [auto|discriminate|].
      intros e g' [= <- <-]. right. repeat split; lia.
    + intros Hloop Hfirst.
      split; [|split; [|split; [|split; [exact Hloop|exact Hfirst]]]];
        [auto|discriminate|].
      intros e g' [= <- <-]. right. repeat split; lia.
    + intros Hloop Hfirst.
      split; [|split; [|split; [|split; [exact Hloop|exact Hfirst]]]];
        [auto|discriminate|].
      intros e g' [= <- <-]. right. repeat split; lia.
  - cbn [Mismatch.tret]. intros Hloop Hfirst.
    split; [|split; [|split; [|split; [exact Hloop|exact Hfirst]]]].
    + intros k r. apply redraw_more_fuel.
    + intros F g'. apply redraw_returns_passing.
    + intros e g' H. left. eapply redraw_raises_only_eig, H.
Qed.

Lemma ARCoeffecientGeneration_retries_until_test_passes_witness :
  Mismatch.ARCoeffecientGeneration (Fixture.constant_torch 1) 3 (0.5, 0.25)%float 0 (-1) tt
  = Some (Ok (M2 0.5 0.25 1 0), tt)
  /\ Mismatch.ARCoeffecientGeneration (Fixture.constant_torch 1) (3 + 4)
                                      (0.5, 0.25)%float 0 (-1) tt
     = Some (Ok (M2 0.5 0.25 1 0), tt)
  /\ (exists ev,
         eig (Fixture.constant_torch 1) (M2 0.5 0.25 1 0) = Ok ev
         /\ Mismatch.any_abs_gt_one ev = false)
  /\ Mismatch.ARCoeffecientGeneration (Fixture.constant_torch 1) 1000
                                      (2, 0)%float 0 (-1) tt
     = None
  /\ Mismatch.ARCoeffecientGeneration Fixture.counter_torch 1 (0, 0)%float 2 (-1) 0
     = None
  /\ Mismatch.ARCoeffecientGeneration Fixture.counter_torch 2 (0, 0)%float 2 (-1) 0
     = Some (Ok (M2 (-1) 0 1 0), 4).
Proof.
  assert (Hrejected :
            forall j, (j < 1)%nat ->
              exists ev,
                eig Fixture.counter_torch
                    (fst (Mismatch.nth_candidate Fixture.counter_torch j
                                                 (0, 0)%float 2 (M2 1 0 1 0) 0))
                = Ok ev
                /\ Mismatch.any_abs_gt_one ev = true).
  { intros j Hj. replace j with 0%nat by lia.
    exists (M2 (-1) 0 (-2) 0). split; vm_compute; reflexivity. }
  assert (Hrunning : Mismatch.ARCoeffecientGeneration Fixture.counter_torch 1
                       (0, 0)%float 2 (-1) 0 = None).
  { destruct (ARCoeffecientGeneration_retries_until_test_passes
                Fixture.counter_torch (0, 0)%float 2%float (-1) 0 1)
      as (_ & _ & _ & _ & Hfirst).
    destruct (Hfirst 1%nat 0 ltac:(lia) eq_refl Hrejected) as (Hnone & _).
    apply Hnone. lia. }
  assert (Hreturns : Mismatch.ARCoeffecientGeneration Fixture.counter_torch 2
                       (0, 0)%float 2 (-1) 0
                     = Some (Ok (M2 (-1) 0 1 0), 4)).
  { destruct (ARCoeffecientGeneration_retries_until_test_passes
                Fixture.counter_torch (0, 0)%float 2%float (-1) 0 2)
      as (_ & _ & _ & _ & Hfirst).
    destruct (Hfirst 1%nat 0 ltac:(lia) eq_refl Hrejected) as (_ & Hret & _).
    rewrite (Hret ltac:(lia) (M2 0 0 (-1) 0));
      vm_compute; reflexivity. }
  assert (Hloop : Mismatch.ARCoeffecientGeneration (Fixture.constant_torch 1) 1000
                    (2, 0)%float 0 (-1) tt = None).
  { destruct (ARCoeffecientGeneration_retries_until_test_passes
                (Fixture.constant_torch 1) (2, 0)%float 0%float (-1) tt 1000)
      as (_ & _ & _ & Hloop & _).
    apply (Hloop (fun F _ => m10 F = 1%float /\ m11 F = 0%float));
      [|lia|split; reflexivity].
    intros F g [HF10 HF11]. exists (M2 2 0 0 0).
    unfold Mismatch.candidate.
    cbn [fst snd Fixture.constant_torch t_randn eig m10 m11].
    rewrite HF10, HF11. repeat split; vm_compute; reflexivity. }
  assert (E : Mismatch.ARCoeffecientGeneration (Fixture.constant_torch 1) 3
                (0.5, 0.25)%float 0 (-1) tt
              = Some (Ok (M2 0.5 0.25 1 0), tt)) by (vm_compute; reflexivity).
  destruct (ARCoeffecientGeneration_retries_until_test_passes
              (Fixture.constant_torch 1) (0.5, 0.25)%float 0%float (-1) tt 3)
    as (Hmore & Hpass & _ & _).
  split; [exact E|]. split; [|split; [|split; [|split]]].
  - apply Hmore, E.
  - eapply Hpass, E.
  - exact Hloop.
  - exact Hrunning.
  - exact Hreturns.
Defined.

(** C5 (the code at the mean coefficients (1.5, -1.125) without noise):
    the first candidate [[1.5, -1.125], [1, 0]] is returned.  Its
    eigenvalues are 0.75 + 0.75i and 0.75 - 0.75i, of squared magnitude
    1.125 > 1; the test compares the four real and imaginary parts with 1
    and not the two magnitudes, and none of the parts exceeds 1.  The same
    happens with the mean coefficients (0.5, 0.4) that [ARDatagenMismatch]
    uses, a noise variance of 1 and the draws 1.3 and -2.02: the
    candidate with eigenvalues near 0.9 + 0.9i and 0.9 - 0.9i is
    returned. *)
Theorem ARCoeffecientGeneration_accepts_unstable_matrix :
  Mismatch.ARCoeffecientGeneration (Fixture.constant_torch 0.25) 1
                                   (1.5, -1.125)%float 0 (-1) tt
  = Some (Ok (M2 1.5 (-1.125) 1 0), tt)
  /\ eig (Fixture.constant_torch 0.25) (M2 1.5 (-1.125) 1 0)
     = Ok (M2 0.75 0.75 0.75 (-0.75))
  /\ Fixture.is_eigenvalue (M2 1.5 (-1.125) 1 0) (Cx 0.75 0.75) = true
  /\ Fixture.is_eigenvalue (M2 1.5 (-1.125) 1 0) (Cx 0.75 (-0.75)) = true
  /\ Mismatch.any_abs_gt_one (M2 0.75 0.75 0.75 (-0.75)) = false
  /\ (1 <? 0.75 * 0.75 + 0.75 * 0.75)%float = true
  /\ exists F g',
      Mismatch.ARCoeffecientGeneration (Fixture.alternating_torch 1.3 (-2.02)) 1
                                       (0.5, 0.4)%float 1 (-1) false
      = Some (Ok F, g')
      /\ Fixture.outside_unit_circle F = true.
Proof.
  repeat split; try (vm_compute; reflexivity).
  eexists _, _. split; vm_compute; reflexivity.
Qed.

(** ** The windows of toeplitzData *)

(** In src/gilbertElliot/gilbertElliotDataGen.py every window is read
    from inside the trajectory, and its final states are the current and
    the next true state. *)
Lemma GE_toeplitzData_final_states (x z : list complex) (numColumns : Z) :
  1 <= numColumns -> length z = length x -> 1 <= numRows_of x numColumns ->
  exists t,
    GE.toeplitzData x z numColumns = Ok t
    /\ well_shaped t numColumns (numRows_of x numColumns)
    /\ forall i, 0 <= i < numRows_of x numColumns ->
         slice_in_bounds (fst (GE.final_slice numColumns i))
                         (snd (GE.final_slice numColumns i)) (length x) = true
         /\ exists xc xn,
             x !! Z.to_nat (i + numColumns - 1) = Some xc
             /\ x !! Z.to_nat (i + numColumns) = Some xn
             /\ toeplitzFinalTrueStates t !! Z.to_nat i
                = Some [re xc; re xn; im xc; im xn].
Proof.
  intros Hnc Hz Hrows.
  destruct (GE_toeplitzData_ok x z numColumns Hnc Hz Hrows) as (g & Ht & Hg).
  eexists. split; [exact Ht|]. split.
  - apply well_shaped_windows. intros i Hi.
    destruct (Hg i Hi) as [_ ->]. cbn [fst snd]. unfold both_of_length, fst, snd.
    unfold numRows_of in Hi.
    rewrite length_app, !length_map, !length_slice_inside by lia.
    repeat split; lia.
  - intros i Hi. pose proof Hi as Hi'. unfold numRows_of in Hi'. split.
    + unfold slice_in_bounds, GE.final_slice, fst, snd.
      repeat (apply andb_true_intro; split); apply Z.leb_le; lia.
    + destruct (lookup_lt_is_Some_2 x (Z.to_nat (i + numColumns - 1))) as [xc Hxc]; [lia|].
      destruct (lookup_lt_is_Some_2 x (Z.to_nat (i + numColumns))) as [xn Hxn]; [lia|].
      exists xc, xn. split; [exact Hxc|]. split; [exact Hxn|].
      rewrite lookup_windows by assumption.
      destruct (Hg i Hi) as [_ ->]. cbn [snd].
      replace (i + numColumns + 1) with (i + numColumns - 1 + 2) by lia.
      rewrite (slice_pair (i + numColumns - 1) x xc xn); [reflexivity|lia|exact Hxc|].
      replace (i + numColumns - 1 + 1) with (i + numColumns) by lia. exact Hxn.
Qed.

Lemma GE_toeplitzData_final_states_witness :
  exists t,
    GE.toeplitzData [Cx 1 10; Cx 2 20; Cx 3 30; Cx 4 40]
                    [Cx 5 50; Cx 6 60; Cx 7 70; Cx 8 80] 2 = Ok t
    /\ toeplitzFinalTrueStates t !! 1%nat = Some [3; 4; 30; 40]%float.
Proof.
  destruct (GE_toeplitzData_final_states
              [Cx 1 10; Cx 2 20; Cx 3 30; Cx 4 40]
              [Cx 5 50; Cx 6 60; Cx 7 70; Cx 8 80] 2)
    as (t & Ht & _ & Hfinal); [lia|reflexivity|vm_compute; discriminate|].
  exists t. split; [exact Ht|].
  destruct (Hfinal 1) as (_ & xc & xn & Hxc & Hxn & H); [unfold numRows_of; simpl; lia|].
  injection Hxc as <-. injection Hxn as <-. exact H.
Defined.

(** In src/gilbertElliotDataGen.py the final states of a window are the
    next true state and the one after it, and the slice of the last window
    asks for an index that the trajectory does not have. *)
Lemma Legacy_toeplitzData_final_states (x z : list complex) (numColumns : Z) :
  0 <= numColumns -> length z = length x -> 1 <= numRows_of x numColumns ->
  exists t xl,
    Legacy.toeplitzData x z numColumns = Ok t
    /\ well_shaped t numColumns (numRows_of x numColumns)
    /\ x !! Z.to_nat (Z.of_nat (length x) - 1) = Some xl
    /\ slice_in_bounds
         (fst (Legacy.final_slice numColumns (numRows_of x numColumns - 1)))
         (snd (Legacy.final_slice numColumns (numRows_of x numColumns - 1)))
         (length x) = false
    /\ toeplitzFinalTrueStates t !! Z.to_nat (numRows_of x numColumns - 1)
       = Some [re xl; re xl; im xl; im xl]
    /\ forall i, 0 <= i < numRows_of x numColumns - 1 ->
         exists xn xnn,
           x !! Z.to_nat (i + numColumns) = Some xn
           /\ x !! Z.to_nat (i + numColumns + 1) = Some xnn
           /\ toeplitzFinalTrueStates t !! Z.to_nat i
              = Some [re xn; re xnn; im xn; im xnn].
Proof.
  intros Hnc Hz Hrows.
  destruct (Legacy_toeplitzData_ok x z numColumns Hnc Hz Hrows)
    as (g & xl & Hxl & Ht & Hg).
  exists (split_windows (map g (seqZ 0 (numRows_of x numColumns)))), xl.
  split; [exact Ht|]. split; [|split; [exact Hxl|split; [|split]]].
  - apply well_shaped_windows. intros i Hi.
    rewrite (Hg i Hi). cbn [fst snd]. unfold both_of_length, fst, snd.
    unfold numRows_of in Hi.
    rewrite !length_map, !length_slice_inside by lia.
    repeat split; try lia.
    destruct (Z.eqb_spec i (numRows_of x numColumns - 1)) as [|Hne];
      [reflexivity|]. unfold numRows_of in Hne.
    rewrite length_app, !length_map, !length_slice_inside; lia.
  - unfold slice_in_bounds, Legacy.final_slice, numRows_of, fst, snd.
    apply andb_false_intro2. apply Z.leb_gt. lia.
  - rewrite lookup_windows by lia. rewrite (Hg _) by lia. cbn [snd].
    rewrite Z.eqb_refl. reflexivity.
  - intros i Hi. pose proof Hi as Hi'. unfold numRows_of in Hi'.
    destruct (lookup_lt_is_Some_2 x (Z.to_nat (i + numColumns))) as [xn Hxn]; [lia|].
    destruct (lookup_lt_is_Some_2 x (Z.to_nat (i + numColumns + 1))) as [xnn Hxnn]; [lia|].
    exists xn, xnn. split; [exact Hxn|]. split; [exact Hxnn|].
    rewrite lookup_windows by lia. rewrite (Hg i) by lia. cbn [snd].
    destruct (Z.eqb_spec i (numRows_of x numColumns - 1)); [lia|].
    rewrite (slice_pair (i + numColumns) x xn xnn); [reflexivity|lia|exact Hxn|exact Hxnn].
Qed.

(** C1 (the code of src/gilbertElliotDataGen.py on a trajectory of four
    samples with windows of two): there are two windows, but their final
    states are (x[2], x[3]) and (x[3], x[3]) and not (x[1], x[2]) and
    (x[2], x[3]); the other file returns the latter. *)
Theorem Legacy_toeplitzData_final_states_shifted :
  exists t t',
    Legacy.toeplitzData [Cx 1 10; Cx 2 20; Cx 3 30; Cx 4 40]
                        [Cx 5 50; Cx 6 60; Cx 7 70; Cx 8 80] 2 = Ok t
    /\ toeplitzFinalTrueStates t = [[3; 4; 30; 40]; [4; 4; 40; 40]]%float
    /\ GE.toeplitzData [Cx 1 10; Cx 2 20; Cx 3 30; Cx 4 40]
                       [Cx 5 50; Cx 6 60; Cx 7 70; Cx 8 80] 2 = Ok t'
    /\ toeplitzFinalTrueStates t' = [[2; 3; 20; 30]; [3; 4; 30; 40]]%float.
Proof.
  eexists _, _. split; [vm_compute; reflexivity|]. split; [reflexivity|].
  split; [vm_compute; reflexivity|]. reflexivity.
Qed.

(** With a window size of zero or less, src/gilbertElliot's loop fails in
    numpy: the final-state slice x[0, -1:1] of the first window is empty,
    and a negative dimension is refused. *)
Lemma GE_toeplitzData_window_not_positive :
  GE.toeplitzData [Cx 1 10; Cx 2 20; Cx 3 30] [Cx 5 50; Cx 6 60; Cx 7 70] 0
  = Raise ValueError
  /\ GE.toeplitzData [Cx 1 10; Cx 2 20; Cx 3 30] [Cx 5 50; Cx 6 60; Cx 7 70] (-1)
     = Raise ValueError.
Proof. split; reflexivity. Qed.



(** C9 (the code of src/gilbertElliotDataGen.py on a trajectory of three
    samples, sequenceLength = 2, with windows of two): the only window is
    i = 0, its final-state slice is x[0, 2:4], index 3 = sequenceLength+1
    is not an index of the trajectory, the slice holds the single sample
    x[2], and the assignment succeeds by broadcasting it into both
    entries. *)
Theorem Legacy_toeplitzData_reads_past_the_end :
  numRows_of [Cx 1 10; Cx 2 20; Cx 3 30] 2 = 1
  /\ Legacy.final_slice 2 0 = (2, 4)
  /\ slice_in_bounds 2 4 (length [Cx 1 10; Cx 2 20; Cx 3 30]) = false
  /\ [Cx 1 10; Cx 2 20; Cx 3 30] !! 3%nat = None
  /\ slice 2 4 [Cx 1 10; Cx 2 20; Cx 3 30] = [Cx 3 30]
  /\ exists t,
      Legacy.toeplitzData [Cx 1 10; Cx 2 20; Cx 3 30]
                          [Cx 5 50; Cx 6 60; Cx 7 70] 2 = Ok t
      /\ toeplitzFinalTrueStates t = [[3; 3; 30; 30]]%float.
Proof.
  repeat split; try reflexivity.
  eexists. split; [vm_compute; reflexivity|]. reflexivity.
Qed.

(** ** Transposes and column slices *)

Lemma lookup_total_slice (a b : Z) (l : list float) (k : nat) :
  0 <= a -> a <= b -> b <= Z.of_nat (length l) ->
  (k < Z.to_nat (b - a))%nat ->
  slice a b l !!! k = l !!! (Z.to_nat a + k)%nat.
Proof.
  intros Ha Hab Hb Hk. rewrite !list_lookup_total_alt.
  rewrite lookup_slice_inside by assumption. reflexivity.
Qed.

(** Listing a list through its indices gives the list back. *)
Lemma map_seq_lookup_total {A B} `{Inhabited A} (f : A -> B) (l : list A) :
  map (fun i => f (l !!! i)) (seq 0 (length l)) = map f l.
Proof.
  induction l as [|a l IH]; [reflexivity|].
  cbn [length seq map]. f_equal.
  rewrite <- seq_shift, map_map. exact IH.
Qed.

Lemma map_ext_seq {B} (f g : nat -> B) (a n : nat) :
  (forall k, (k < n)%nat -> f k = g (a + k)%nat) ->
  map f (seq 0 n) = map g (seq a n).
Proof.
  intros H. rewrite <- (Nat.add_0_r a) at 1. rewrite <- fmap_add_seq.
  change (map g (Nat.add a <$> seq 0 n)) with (map g (map (Nat.add a) (seq 0 n))).
  rewrite map_map. apply map_ext_in. intros k Hk. apply H.
  apply in_seq in Hk. lia.
Qed.

(** The transposed column slice [a:b] of a two-dimensional array lists
    its columns [a], ..., [b-1]. *)
Lemma transpose2_slice (rows : list (list float)) (N : nat) (a b : Z) :
  Forall (fun r => length r = N) rows ->
  0 <= a -> a <= b -> b <= Z.of_nat N ->
  transpose2 (Z.to_nat (b - a)) (map (slice a b) rows)
  = map (fun n => map (fun row => row !!! n) rows)
        (seq (Z.to_nat a) (Z.to_nat (b - a))).
Proof.
  intros Hrows Ha Hab Hb. unfold transpose2.
  apply map_ext_seq. intros k Hk. rewrite map_map.
  apply map_ext_in. intros row Hrow.
  rewrite Forall_forall in Hrows.
  apply lookup_total_slice; try assumption.
  rewrite (Hrows row) by (apply list_elem_of_In, Hrow). assumption.
Qed.

(** [np.swapaxes(np.transpose(.), 1, 2)] of the column slice [a:b] of a
    three-dimensional array lists, for each of the columns [a], ..., [b-1],
    the array's planes restricted to that column. *)
Lemma swapaxes_transpose3_slice (planes : list (list (list float)))
      (C S N : nat) (a b : Z) :
  length planes = C ->
  Forall (fun plane => length plane = S
                       /\ Forall (fun row => length row = N) plane) planes ->
  0 <= a -> a <= b -> b <= Z.of_nat N ->
  swapaxes12 C (transpose3 S (Z.to_nat (b - a)) (map (map (slice a b)) planes))
  = map (fun n => map (fun plane => map (fun row => row !!! n) plane) planes)
        (seq (Z.to_nat a) (Z.to_nat (b - a))).
Proof.
  intros HC Hplanes Ha Hab Hb. unfold swapaxes12, transpose3.
  rewrite map_map. apply map_ext_seq. intros k Hk.
  unfold transpose2. rewrite <- HC.
  rewrite <- (map_seq_lookup_total
                (fun plane => map (fun row => row !!! (Z.to_nat a + k)%nat) plane) planes).
  apply map_ext_in. intros c Hc. apply in_seq in Hc.
  rewrite map_map.
  assert (Hplane : is_Some (planes !! c)) by (apply lookup_lt_is_Some; lia).
  destruct Hplane as [plane Hplane].
  rewrite (list_lookup_total_correct planes c plane Hplane).
  rewrite Forall_forall in Hplanes.
  destruct (Hplanes plane) as [HS HN]; [eapply list_elem_of_lookup_2, Hplane|].
  rewrite <- HS.
  rewrite <- (map_seq_lookup_total (fun row => row !!! (Z.to_nat a + k)%nat) plane).
  apply map_ext_in. intros jx Hjx. apply in_seq in Hjx.
  assert (Hrow : is_Some (plane !! jx)) by (apply lookup_lt_is_Some; lia).
  destruct Hrow as [row Hrow].
  rewrite (list_lookup_total_correct plane jx row Hrow).
  erewrite (list_lookup_total_correct (map _ (map (map (slice a b)) planes)) c);
    [|rewrite !list_lookup_fmap, Hplane; reflexivity].
  rewrite (list_lookup_total_correct (map (slice a b) plane) jx (slice a b row))
    by (rewrite list_lookup_fmap, Hrow; reflexivity).
  rewrite Forall_forall in HN.
  apply lookup_total_slice; try assumption.
  rewrite (HN row) by (eapply list_elem_of_lookup_2, Hrow). assumption.
Qed.

Lemma for_each_assign_exact {A} (m : nat) (rs : list (list A)) :
  Forall (fun r => length r = m) rs -> for_each (assign m) rs = Ok rs.
Proof.
  induction 1 as [|r rs Hr _ IH]; [reflexivity|].
  cbn [for_each]. rewrite (assign_exact m r Hr). cbn [bind]. rewrite IH. reflexivity.
Qed.

Lemma assign2_exact {A} (n m : nat) (src : list (list A)) :
  length src = n -> Forall (fun r => length r = m) src ->
  assign2 n m src = Ok src.
Proof.
  intros Hn Hm. unfold assign2. rewrite (assign_exact n src Hn). cbn [bind].
  apply for_each_assign_exact, Hm.
Qed.

Lemma assign3_exact {A} (n m k : nat) (src : list (list (list A))) :
  length src = n ->
  Forall (fun p => length p = m /\ Forall (fun r => length r = k) p) src ->
  assign3 n m k src = Ok src.
Proof.
  intros Hn Hm. unfold assign3. rewrite (assign_exact n src Hn). cbn [bind].
  clear Hn. induction Hm as [|p ps [Hp Hr] _ IH]; [reflexivity|].
  cbn [for_each]. rewrite (assign2_exact m k p Hp Hr). cbn [bind].
  rewrite IH. reflexivity.
Qed.

Lemma slice_length_inside (a b : Z) (N : nat) :
  0 <= a -> a <= b -> b <= Z.of_nat N -> slice_length a b N = Z.to_nat (b - a).
Proof.
  intros Ha Hab Hb. unfold slice_length, clip_index.
  destruct (Z.ltb_spec a 0); [lia|]. destruct (Z.ltb_spec b 0); [lia|].
  rewrite (Z.min_l a), (Z.min_l b) by lia. reflexivity.
Qed.

(** Blocks of [n] consecutive indices, one after the other, list all
    indices. *)
Lemma concat_blocks {B} (f : nat -> B) (n K : nat) :
  concat (map (fun i => map f (seq (i * n) n)) (seq 0 K)) = map f (seq 0 (K * n)).
Proof.
  induction K as [|K IH]; [reflexivity|].
  rewrite seq_S, map_app, concat_app, IH. cbn [map concat].
  rewrite app_nil_r, <- map_app, <- seq_app.
  f_equal. f_equal. lia.
Qed.

(** One batch of [convertToBatched]: its [b]-th element is the sample of
    index [i * batchSize + b]. *)
Lemma convertToBatched_batches (sys : list (list float)) (obs : array3)
      (batchSize : Z) (N S : nat) :
  length sys = 4%nat -> Forall (fun r => length r = N) sys ->
  rectangular3 obs -> shape3 obs = (2%nat, S, N) ->
  0 < batchSize -> Z.of_nat N mod batchSize = 0 ->
  GE.convertToBatched sys obs batchSize
  = Ok (map (fun i : Z =>
               map (fun n => map (fun row => row !!! n) sys)
                   (seq (Z.to_nat (i * batchSize)) (Z.to_nat batchSize)))
            (seqZ 0 (Z.of_nat N / batchSize)),
        map (fun i : Z =>
               map (fun n => map (fun plane => map (fun row => row !!! n) plane)
                                 (cells obs))
                   (seq (Z.to_nat (i * batchSize)) (Z.to_nat batchSize)))
            (seqZ 0 (Z.of_nat N / batchSize))).
Proof.
  intros Hsys4 HsysN [Hplanes Hrect] Hshape Hbs Hmod.
  unfold GE.convertToBatched. rewrite Hshape in *. cbn [fst snd] in *.
  destruct (Z.eqb_spec batchSize 0); [lia|].
  rewrite Z.quot_div_nonneg by lia.
  assert (HK : 0 <= Z.of_nat N / batchSize) by (apply Z.div_pos; lia).
  assert (HN : Z.of_nat N = batchSize * (Z.of_nat N / batchSize))
    by (apply Z.div_exact; lia).
  rewrite !empty_check_nonneg by (repeat constructor; lia). cbn [bind].
  rewrite (for_each_total _
             (fun i : Z =>
                (map (fun n => map (fun row => row !!! n) sys)
                     (seq (Z.to_nat (i * batchSize)) (Z.to_nat batchSize)),
                 map (fun n => map (fun plane => map (fun row => row !!! n) plane)
                                   (cells obs))
                     (seq (Z.to_nat (i * batchSize)) (Z.to_nat batchSize))))).
  { cbn [bind]. rewrite !map_map. reflexivity. }
  apply Forall_seqZ. intros i Hi.
  assert (Hi0 : 0 <= i * batchSize) by nia.
  assert (Hi1 : (i + 1) * batchSize <= Z.of_nat N) by nia.
  assert (Hw : Z.to_nat ((i + 1) * batchSize - i * batchSize) = Z.to_nat batchSize)
    by (f_equal; lia).
  assert (Hcols : ncols (map (slice (i * batchSize) ((i + 1) * batchSize)) sys)
                  = Z.to_nat batchSize).
  { destruct sys as [|r sys']; [discriminate|]. cbn [map ncols].
    apply Forall_cons_1 in HsysN as [Hr _].
    rewrite length_slice_inside by lia. exact Hw. }
  rewrite Hcols, <- Hw.
  rewrite (transpose2_slice sys N) by (assumption || lia).
  rewrite assign2_exact.
  2:{ rewrite length_map, length_seq. reflexivity. }
  2:{ apply Forall_fmap, Forall_forall. intros k _. cbn.
      rewrite length_map. exact Hsys4. }
  cbn [bind].
  replace ((1 + i) * batchSize) with ((i + 1) * batchSize) by lia.
  rewrite slice_length_inside by lia.
  rewrite (swapaxes_transpose3_slice (cells obs) 2 S N) by (assumption || lia).
  rewrite assign3_exact.
  2:{ rewrite length_map, length_seq. reflexivity. }
  2:{ apply Forall_fmap, Forall_forall. intros k _. cbn.
      rewrite length_map. split; [exact Hplanes|].
      apply Forall_fmap. eapply Forall_impl; [exact Hrect|].
      intros plane [HS _]. cbn. rewrite length_map. exact HS. }
  reflexivity.
Qed.

Lemma batches_lookup {B} (f : nat -> B) (batchSize K : Z) (i b : nat) :
  0 < batchSize -> Z.of_nat i < K -> Z.of_nat b < batchSize ->
  exists batch,
    map (fun i : Z => map f (seq (Z.to_nat (i * batchSize)) (Z.to_nat batchSize)))
        (seqZ 0 K) !! i = Some batch
    /\ batch !! b = Some (f (i * Z.to_nat batchSize + b)%nat).
Proof.
  intros Hbs Hi Hb. eexists. split.
  - rewrite list_lookup_fmap.
    assert (E : seqZ 0 K !! i = Some (Z.of_nat i)) by (apply lookup_seqZ; lia).
    rewrite E. reflexivity.
  - rewrite list_lookup_fmap, lookup_seq_lt by lia. cbn. do 2 f_equal.
    rewrite Z2Nat.inj_mul, Nat2Z.id by lia. reflexivity.
Qed.

Lemma batches_concat {B} (f : nat -> B) (batchSize K : Z) :
  0 < batchSize -> 0 <= K ->
  concat (map (fun i : Z => map f (seq (Z.to_nat (i * batchSize)) (Z.to_nat batchSize)))
              (seqZ 0 K))
  = map f (seq 0 (Z.to_nat (batchSize * K))).
Proof.
  intros Hbs HK. unfold seqZ.
  change (map ?g (?h <$> ?l)) with (map g (map h l)). rewrite map_map.
  rewrite (map_ext _ (fun i : nat => map f (seq (i * Z.to_nat batchSize)
                                              (Z.to_nat batchSize)))).
  - rewrite concat_blocks. do 2 f_equal. rewrite Z2Nat.inj_mul by lia. lia.
  - intros i. do 2 f_equal.
    rewrite Z.add_0_r, Z2Nat.inj_mul, Nat2Z.id by lia. reflexivity.
Qed.

(** C8: for [N] samples with [N % batchSize == 0], [convertToBatched]
    returns [N / batchSize] batches; element [b] of batch [i] of
    [trueState] is column [i * batchSize + b] of the system data,
    element [b] of batch [i] of [measuredState] is column
    [i * batchSize + b] of every row of the observed data; and the
    batches, one after the other, are the samples in their original
    order.  The function takes no generator: it draws nothing. *)
Theorem convertToBatched_mapping (sys : list (list float)) (obs : array3)
        (batchSize : Z) (N S : nat) :
  length sys = 4%nat -> Forall (fun r => length r = N) sys ->
  rectangular3 obs -> shape3 obs = (2%nat, S, N) ->
  0 < batchSize -> Z.of_nat N mod batchSize = 0 ->
  exists trueState measuredState,
    GE.convertToBatched sys obs batchSize = Ok (trueState, measuredState)
    /\ length trueState = Z.to_nat (Z.of_nat N / batchSize)
    /\ length measuredState = Z.to_nat (Z.of_nat N / batchSize)
    /\ (forall i b : nat,
           Z.of_nat i < Z.of_nat N / batchSize -> Z.of_nat b < batchSize ->
           exists t m,
             trueState !! i = Some t
             /\ t !! b = Some (map (fun row => row !!! (i * Z.to_nat batchSize + b)%nat)
                                   sys)
             /\ measuredState !! i = Some m
             /\ m !! b = Some (map (fun plane =>
                                      map (fun row =>
                                             row !!! (i * Z.to_nat batchSize + b)%nat)
                                          plane)
                                   (cells obs)))
    /\ concat trueState = map (fun n => map (fun row => row !!! n) sys) (seq 0 N)
    /\ concat measuredState
       = map (fun n => map (fun plane => map (fun row => row !!! n) plane) (cells obs))
             (seq 0 N).
Proof.
  intros Hsys4 HsysN Hrect Hshape Hbs Hmod.
  assert (HK : 0 <= Z.of_nat N / batchSize) by (apply Z.div_pos; lia).
  assert (HN : Z.to_nat (batchSize * (Z.of_nat N / batchSize)) = N).
  { assert (E : Z.of_nat N = batchSize * (Z.of_nat N / batchSize))
      by (apply Z.div_exact; lia).
    rewrite <- E. apply Nat2Z.id. }
  eexists _, _. split.
  { apply (convertToBatched_batches sys obs batchSize N S); assumption. }
  split; [rewrite length_map, length_seqZ; reflexivity|].
  split; [rewrite length_map, length_seqZ; reflexivity|].
  split; [|split].
  - intros i b Hi Hb.
    destruct (batches_lookup (fun n => map (fun row => row !!! n) sys)
                             batchSize (Z.of_nat N / batchSize) i b Hbs Hi Hb)
      as (t & Ht & Htb).
    destruct (batches_lookup
                (fun n => map (fun plane => map (fun row => row !!! n) plane) (cells obs))
                batchSize (Z.of_nat N / batchSize) i b Hbs Hi Hb)
      as (m & Hm & Hmb).
    exists t, m. auto.
  - rewrite batches_concat, HN by assumption. reflexivity.
  - rewrite batches_concat, HN by assumption. reflexivity.
Qed.

Lemma convertToBatched_mapping_witness :
  exists trueState measuredState,
    GE.convertToBatched
      [[1; 2; 3; 4]; [11; 12; 13; 14]; [21; 22; 23; 24]; [31; 32; 33; 34]]%float
      (Array3 (2, 1, 4)%nat [[[5; 6; 7; 8]]; [[50; 60; 70; 80]]]%float) 2
    = Ok (trueState, measuredState)
    /\ concat trueState
       = [[1; 11; 21; 31]; [2; 12; 22; 32]; [3; 13; 23; 33]; [4; 14; 24; 34]]%float
    /\ concat measuredState
       = [[[5]; [50]]; [[6]; [60]]; [[7]; [70]]; [[8]; [80]]]%float.
Proof.
  destruct (convertToBatched_mapping
              [[1; 2; 3; 4]; [11; 12; 13; 14]; [21; 22; 23; 24]; [31; 32; 33; 34]]%float
              (Array3 (2, 1, 4)%nat [[[5; 6; 7; 8]]; [[50; 60; 70; 80]]]%float)
              2 4 1)
    as (trueState & measuredState & H & _ & _ & _ & Ht & Hm).
  - reflexivity.
  - repeat constructor.
  - split; [reflexivity|]. repeat constructor.
  - reflexivity.
  - lia.
  - reflexivity.
  - exists trueState, measuredState. split; [exact H|]. split; [exact Ht|exact Hm].
Defined.

(** * Further properties of the generators *)

(** ** The main loop as a whole *)

Lemma gscan_length {L : numpy} {S O} (body : Z -> S -> gen L (S * O))
      (l : list Z) (s : S) g os g' :
  gscan body l s g = (Ok os, g') -> length os = length l.
Proof.
  revert s g os. induction l as [|i l IH]; intros s g os H.
  - injection H as <- _. reflexivity.
  - apply gscan_cons_Ok in H as (s1 & o & g1 & os' & _ & Hrest & ->).
    cbn [length]. f_equal. eapply IH, Hrest.
Qed.

(** A property of the loop state that every iteration preserves holds
    throughout, and what the iterations record under it holds of every
    recorded output. *)
Lemma gscan_invariant {L : numpy} {S O} (body : Z -> S -> gen L (S * O))
      (Inv : S -> Prop) (P : O -> Prop) (l : list Z) :
  (forall i s g s' o g', Inv s -> body i s g = (Ok (s', o), g') -> Inv s' /\ P o) ->
  forall s g os g', Inv s -> gscan body l s g = (Ok os, g') -> Forall P os.
Proof.
  intros Hbody. induction l as [|i l IH]; intros s g os g' HInv H.
  - injection H as <- _. constructor.
  - apply gscan_cons_Ok in H as (s1 & o & g1 & os' & Hb & Hrest & ->).
    destruct (Hbody _ _ _ _ _ _ HInv Hb) as [HInv' Ho].
    constructor; [exact Ho|]. eapply IH; eassumption.
Qed.

Lemma steps_of_Ok (v : val) (steps : Z) :
  Params.steps_of v = Ok steps -> exists n, v = Int n /\ -1 <= n /\ steps = n + 1.
Proof.
  destruct v as [n| | |]; try discriminate. cbn [Params.steps_of].
  destruct (Z.ltb_spec (n + 1) 0); [discriminate|].
  intros [= <-]. exists n. repeat split. lia.
Qed.

Lemma coeff_params_Ok (params : val) (cs : val * val * val) :
  Params.coeff_params params = Ok cs ->
  exists p1,
    Params.index params 1 = Ok p1
    /\ Params.index p1 0 = Ok (fst (fst cs))
    /\ Params.index p1 1 = Ok (snd (fst cs))
    /\ Params.index params 2 = Ok (snd cs).
Proof.
  unfold Params.coeff_params. intros H.
  destruct (Params.index params 1) as [p1|] eqn:E1; [|discriminate]. cbn [bind] in H.
  destruct (Params.index p1 0) as [gc|] eqn:E10; [|discriminate]. cbn [bind] in H.
  destruct (Params.index p1 1) as [bc|] eqn:E11; [|discriminate]. cbn [bind] in H.
  destruct (Params.index params 2) as [n|] eqn:E2; [|discriminate]. cbn [bind] in H.
  injection H as <-. exists p1. auto.
Qed.

(** What a call of [GilEllDataGen] that returns has gone through, in
    src/gilbertElliot/gilbertElliotDataGen.py. *)
Lemma GE_GilEllDataGen_inv (L : numpy) params s g sd g' :
  GE.GilEllDataGen L params s g = (Ok sd, g') ->
  exists pq p q cs noise start Q_diag R n goodCoeffs badCoeffs ric out gs g0,
    seed_if_positive L s g = (Ok tt, gs)
    /\ Params.transition_params params = Ok pq
    /\ Params.num (fst pq) = Ok p /\ Params.num (snd pq) = Ok q
    /\ Params.coeff_params params = Ok cs
    /\ Params.noise_params params = Ok noise
    /\ start_state L params gs = (Ok start, g0)
    /\ Params.num (fst noise) = Ok Q_diag /\ Params.num (snd noise) = Ok R
    /\ snd cs = Int n /\ -1 <= n
    /\ Params.coeff_row (fst (fst cs)) = Ok goodCoeffs
    /\ Params.coeff_row (snd (fst cs)) = Ok badCoeffs
    /\ riccati L (M2 (fst goodCoeffs) (snd goodCoeffs) 1 0)
                 (M2 (fst badCoeffs) (snd badCoeffs) 1 0) Q_diag R = Ok ric
    /\ gscan (GE.step L (GE.transitionProbabiltyArray p q) goodCoeffs badCoeffs
                      Q_diag R)
             (seqZ 0 (n + 1)) (LoopState start (czero, czero) czero) g0
       = (Ok out, g')
    /\ sd = SequenceData (map s_x out) (map s_z out) ric (map s_coeffs out).
Proof.
  unfold GE.GilEllDataGen. intros H.
  apply gbind_Ok in H as ([] & gs & Hseed & H).
  apply gbind_Ok in H as (pq & g1 & E & H). apply lift_Ok in E as [Hpq ->].
  apply gbind_Ok in H as (p & g1 & E & H). apply lift_Ok in E as [Hp ->].
  apply gbind_Ok in H as (q & g1 & E & H). apply lift_Ok in E as [Hq ->].
  apply gbind_Ok in H as (cs & g1 & E & H). apply lift_Ok in E as [Hcs ->].
  apply gbind_Ok in H as (noise & g1 & E & H). apply lift_Ok in E as [Hnoise ->].
  apply gbind_Ok in H as (start & g0 & Hstart & H).
  apply gbind_Ok in H as (Q_diag & g1 & E & H). apply lift_Ok in E as [HQ ->].
  apply gbind_Ok in H as (R & g1 & E & H). apply lift_Ok in E as [HR ->].
  apply gbind_Ok in H as (steps & g1 & E & H). apply lift_Ok in E as [Hsteps ->].
  apply gbind_Ok in H as (gc & g1 & E & H). apply lift_Ok in E as [Hgc ->].
  apply gbind_Ok in H as (bc & g1 & E & H). apply lift_Ok in E as [Hbc ->].
  apply gbind_Ok in H as (ric & g1 & E & H). apply lift_Ok in E as [Hric ->].
  apply gbind_Ok in H as (out & g1 & Hout & H).
  injection H as <- <-.
  apply steps_of_Ok in Hsteps as (n & Hn & Hn1 & ->).
  exists pq, p, q, cs, noise, start, Q_diag, R, n, gc, bc, ric, out, gs, g0.
  auto 20.
Qed.

(** The same for src/gilbertElliotDataGen.py. *)
Lemma Legacy_GilEllDataGen_inv (L : numpy) params s g sd g' :
  Legacy.GilEllDataGen L params s g = (Ok sd, g') ->
  exists pq p q cs noise start Q_diag R n goodCoeffs badCoeffs ric out gs g0,
    seed_if_positive L s g = (Ok tt, gs)
    /\ Params.transition_params params = Ok pq
    /\ Params.num (fst pq) = Ok p /\ Params.num (snd pq) = Ok q
    /\ Params.coeff_params params = Ok cs
    /\ Params.noise_params params = Ok noise
    /\ start_state L params gs = (Ok start, g0)
    /\ Params.num (fst noise) = Ok Q_diag /\ Params.num (snd noise) = Ok R
    /\ snd cs = Int n /\ -1 <= n
    /\ Params.coeff_row (fst (fst cs)) = Ok goodCoeffs
    /\ Params.coeff_row (snd (fst cs)) = Ok badCoeffs
    /\ riccati L (M2 (fst goodCoeffs) (snd goodCoeffs) 1 0)
                 (M2 (fst badCoeffs) (snd badCoeffs) 1 0) Q_diag R = Ok ric
    /\ gscan (Legacy.step L (Legacy.transitionProbabiltyArray p q) goodCoeffs
                          badCoeffs Q_diag R)
             (seqZ 0 (n + 1)) (LoopState start (czero, czero) czero) g0
       = (Ok out, g')
    /\ sd = SequenceData (map s_x out) (map s_z out) ric [].
Proof.
  unfold Legacy.GilEllDataGen. intros H.
  apply gbind_Ok in H as ([] & gs & Hseed & H).
  apply gbind_Ok in H as (pq & g1 & E & H). apply lift_Ok in E as [Hpq ->].
  apply gbind_Ok in H as (p & g1 & E & H). apply lift_Ok in E as [Hp ->].
  apply gbind_Ok in H as (q & g1 & E & H). apply lift_Ok in E as [Hq ->].
  apply gbind_Ok in H as (cs & g1 & E & H). apply lift_Ok in E as [Hcs ->].
  apply gbind_Ok in H as (noise & g1 & E & H). apply lift_Ok in E as [Hnoise ->].
  apply gbind_Ok in H as (start & g0 & Hstart & H).
  apply gbind_Ok in H as (Q_diag & g1 & E & H). apply lift_Ok in E as [HQ ->].
  apply gbind_Ok in H as (R & g1 & E & H). apply lift_Ok in E as [HR ->].
  apply gbind_Ok in H as (steps & g1 & E & H). apply lift_Ok in E as [Hsteps ->].
  apply gbind_Ok in H as (gc & g1 & E & H). apply lift_Ok in E as [Hgc ->].
  apply gbind_Ok in H as (bc & g1 & E & H). apply lift_Ok in E as [Hbc ->].
  apply gbind_Ok in H as (ric & g1 & E & H). apply lift_Ok in E as [Hric ->].
  apply gbind_Ok in H as (out & g1 & Hout & H).
  injection H as <- <-.
  apply steps_of_Ok in Hsteps as (n & Hn & Hn1 & ->).
  exists pq, p, q, cs, noise, start, Q_diag, R, n, gc, bc, ric, out, gs, g0.
  auto 20.
Qed.

(** A call of [GilEllDataGen] that returns was given an int
    [sequenceLength >= -1] as [params[2]], and its trajectories [x] and
    [z] have [sequenceLength + 1] entries each, in both files: the
    observed and the true trajectory always have the same length. *)
Theorem GilEllDataGen_trajectory_lengths (L : numpy) params s g sd g' :
  GE.GilEllDataGen L params s g = (Ok sd, g')
  \/ Legacy.GilEllDataGen L params s g = (Ok sd, g') ->
  exists n,
    Params.index params 2 = Ok (Int n) /\ -1 <= n
    /\ length (sd_x sd) = Z.to_nat (n + 1)
    /\ length (sd_z sd) = Z.to_nat (n + 1).
Proof.
  intros [H|H].
  - apply GE_GilEllDataGen_inv in H
      as (pq & p & q & cs & noise & start & Q_diag & R & n & gc & bc & ric & out
          & gs & g0 & _ & _ & _ & _ & Hcs & _ & _ & _ & _ & Hn & Hn1 & _ & _ & _
          & Hout & ->).
    apply coeff_params_Ok in Hcs as (p1 & _ & _ & _ & H2). rewrite Hn in H2.
    apply gscan_length in Hout. rewrite length_seqZ in Hout.
    exists n. cbn [sd_x sd_z]. rewrite !length_map. auto.
  - apply Legacy_GilEllDataGen_inv in H
      as (pq & p & q & cs & noise & start & Q_diag & R & n & gc & bc & ric & out
          & gs & g0 & _ & _ & _ & _ & Hcs & _ & _ & _ & _ & Hn & Hn1 & _ & _ & _
          & Hout & ->).
    apply coeff_params_Ok in Hcs as (p1 & _ & _ & _ & H2). rewrite Hn in H2.
    apply gscan_length in Hout. rewrite length_seqZ in Hout.
    exists n. cbn [sd_x sd_z]. rewrite !length_map. auto.
Qed.

Lemma GilEllDataGen_trajectory_lengths_witness :
  exists sd g',
    GE.GilEllDataGen Fixture.counter_numpy (Fixture.params 2 "good") 100 0
    = (Ok sd, g')
    /\ length (sd_x sd) = 3%nat /\ length (sd_z sd) = 3%nat.
Proof.
  eexists _, _. split; [vm_compute; reflexivity|].
  edestruct (GilEllDataGen_trajectory_lengths
               Fixture.counter_numpy (Fixture.params 2 "good") 100 0)
    as (n & Hn & _ & Hx & Hz).
  { left. vm_compute. reflexivity. }
  injection Hn as <-. split; [exact Hx|exact Hz].
Defined.

(** ** The Markov state along the trajectory *)

(** One iteration of the loop of src/gilbertElliot/gilbertElliotDataGen.py
    that completes: the state it leaves is a Markov state, the
    coefficients it records are those of that state, and the state was
    kept (first iteration) or drawn by [markov_step]. *)
Lemma GE_step_inv (L : numpy) table gc bc Q_diag R i (s st : loop_state)
      (o : sample) g g' :
  GE.step L table gc bc Q_diag R i s g = (Ok (st, o), g') ->
  exists m,
    MarkovState st = Some m
    /\ s_coeffs o = match m with good => gc | bad => bc end
    /\ (if negb (i =? 0)
        then exists g1, markov_step L table (MarkovState s) g = (Ok m, g1)
        else MarkovState s = Some m).
Proof.
  unfold GE.step. intros H.
  apply gbind_Ok in H as (ms & g1 & Hms & H).
  apply gbind_Ok in H as (Fc & g2 & HF & H). apply lift_Ok in HF as [HF ->].
  apply gbind_Ok in H as (vw & g2 & _ & H).
  apply gbind_Ok in H as (x' & g3 & _ & H).
  injection H as <- <- _. cbn [MarkovState s_coeffs].
  destruct ms as [m|]; [|discriminate]. exists m. split; [reflexivity|]. split.
  - destruct m; injection HF as <-; reflexivity.
  - destruct (negb (i =? 0)).
    + apply gbind_Ok in Hms as (m' & g4 & Hm & Hret).
      injection Hret as <- <-. eauto.
    + injection Hms as <- _. reflexivity.
Qed.

(** Every column of [channelStates] is the good or the bad coefficient
    pair of [params[1]], and there is one column per time stamp. *)
Theorem GE_channelStates_regimes (L : numpy) params s g sd g' :
  GE.GilEllDataGen L params s g = (Ok sd, g') ->
  exists p1 vg vb gc bc,
    Params.index params 1 = Ok p1
    /\ Params.index p1 0 = Ok vg /\ Params.coeff_row vg = Ok gc
    /\ Params.index p1 1 = Ok vb /\ Params.coeff_row vb = Ok bc
    /\ length (channelStates sd) = length (sd_x sd)
    /\ Forall (fun c => c = gc \/ c = bc) (channelStates sd).
Proof.
  intros H.
  apply GE_GilEllDataGen_inv in H
    as (pq & p & q & cs & noise & start & Q_diag & R & n & gc & bc & ric & out
        & gs & g0 & _ & _ & _ & _ & Hcs & _ & _ & _ & _ & _ & _ & Hgc & Hbc & _
        & Hout & ->).
  apply coeff_params_Ok in Hcs as (p1 & H1 & H10 & H11 & _).
  exists p1, (fst (fst cs)), (snd (fst cs)), gc, bc.
  cbn [channelStates sd_x]. rewrite !length_map.
  repeat (split; [assumption || reflexivity|]).
  apply Forall_fmap.
  eapply (gscan_invariant _ (fun _ => True)); [|exact I|exact Hout].
  intros i s0 g1 s1 o g2 _ Hstep. split; [exact I|].
  apply GE_step_inv in Hstep as (m & _ & Hc & _).
  cbn. rewrite Hc. destruct m; auto.
Qed.

Lemma GE_channelStates_regimes_witness :
  exists sd g',
    GE.GilEllDataGen Fixture.counter_numpy (Fixture.params 3 "random") 100 0
    = (Ok sd, g')
    /\ Forall (fun c => c = (0.5, -0.25)%float \/ c = (1.5, -0.75)%float)
              (channelStates sd).
Proof.
  eexists _, _. split; [vm_compute; reflexivity|].
  edestruct (GE_channelStates_regimes
               Fixture.counter_numpy (Fixture.params 3 "random") 100 0)
    as (p1 & vg & vb & gc & bc & H1 & H10 & Hgc & H11 & Hbc & _ & Hall).
  { vm_compute. reflexivity. }
  injection H1 as <-. injection H10 as <-. injection H11 as <-.
  injection Hgc as <-. injection Hbc as <-. exact Hall.
Defined.

(** [np.random.choice] with the probabilities (1, 0) returns its first
    candidate, whatever uniform sample below 1 is drawn. *)
Lemma choice_certain (L : numpy) {A} (a b : A) (g : rng L) :
  (fst (random_sample L g) <? 1)%float = true ->
  choice L a b 1 0 g = (Ok a, snd (random_sample L g)).
Proof.
  intros Hu. unfold choice.
  change (1 + 0)%float with 1%float.
  change (PrimFloat.is_nan 1) with false.
  change ((1 <? 0)%float || (0 <? 0)%float) with false.
  change (0x1p-26 <? PrimFloat.abs (1 - 1))%float with false.
  change (1 / 1)%float with 1%float.
  cbv beta iota zeta. rewrite Hu. reflexivity.
Qed.

Lemma gscan_raises_first {L : numpy} {S O} (body : Z -> S -> gen L (S * O))
      (i : Z) (l : list Z) (s : S) g e g1 :
  body i s g = (Raise e, g1) -> gscan body (i :: l) s g = (Raise e, g1).
Proof. intros H. cbn [gscan]. unfold gbind. rewrite H. reflexivity. Qed.

(** A chain whose transition probability out of the state [st] is zero
    stays in [st]: every iteration records the coefficients of [st]. *)
Lemma GE_scan_single_regime (L : numpy) (st : markov) (p q : float)
      (gc bc : float * float) (Q_diag R : float) (l : list Z)
      (s0 : loop_state) (g0 : rng L) (out : list sample) (g' : rng L) :
  (forall g, (fst (random_sample L g) <? 1)%float = true) ->
  match st with good => p | bad => q end = 0%float ->
  MarkovState s0 = Some st ->
  gscan (GE.step L (GE.transitionProbabiltyArray p q) gc bc Q_diag R) l s0 g0
  = (Ok out, g') ->
  Forall (fun o => s_coeffs o = match st with good => gc | bad => bc end) out.
Proof.
  intros Hu Hzero Hs0 Hout.
  eapply (gscan_invariant _ (fun s1 => MarkovState s1 = Some st));
    [| |exact Hout]; [|exact Hs0].
  intros i s1 g1 s2 o g2 HInv Hstep.
  apply GE_step_inv in Hstep as (m & Hm & Hc & Hmove).
  assert (m = st) as ->.
  { destruct (negb (i =? 0)).
    - destruct Hmove as (g3 & Hmove). rewrite HInv in Hmove.
      destruct st; cbn [markov_step transitionStateArray GE.transitionProbabiltyArray
                        fst snd] in Hmove; subst.
      + change (1 - 0)%float with 1%float in Hmove.
        rewrite choice_certain in Hmove by apply Hu. congruence.
      + change (1 - 0)%float with 1%float in Hmove.
        rewrite choice_certain in Hmove by apply Hu. congruence.
    - congruence. }
  split; [exact Hm|exact Hc].
Qed.

(** With a transition probability of zero out of the state it starts
    in, the chain of src/gilbertElliot/gilbertElliotDataGen.py never
    leaves that state: started in 'good' with [p = 0], or in 'bad' with
    [q = 0], every column of [channelStates] is the coefficient pair of
    the start state.  This is how [GilElTestDataGen] asks for its
    good-only and bad-only subsets.  The uniform samples of the
    generator lie below 1. *)
Theorem GE_GilEllDataGen_single_regime (L : numpy) (st : markov)
        (goodTransProb badTransProb coeffs len noise : val) s g sd g' :
  (forall g0, (fst (random_sample L g0) <? 1)%float = true) ->
  Params.num (match st with good => goodTransProb | bad => badTransProb end)
  = Ok 0%float ->
  GE.GilEllDataGen L
    (Seq [Seq [goodTransProb; badTransProb]; coeffs; len; noise;
          Str (match st with good => "good" | bad => "bad" end)]) s g
  = (Ok sd, g') ->
  exists v c,
    Params.index coeffs (match st with good => 0 | bad => 1 end) = Ok v
    /\ Params.coeff_row v = Ok c
    /\ Forall (fun c' => c' = c) (channelStates sd).
Proof.
  intros Hu Hzero H.
  apply GE_GilEllDataGen_inv in H
    as (pq & p & q & cs & noise' & start & Q_diag & R & n & gc & bc & ric & out
        & gs & g0 & _ & Hpq & Hp & Hq & Hcs & _ & Hstart & _ & _ & _ & _ & Hgc
        & Hbc & _ & Hout & ->).
  apply coeff_params_Ok in Hcs as (p1 & H1 & H10 & H11 & _).
  injection H1 as <-. injection Hpq as <-. cbn [fst snd] in Hp, Hq.
  assert (Hst : start = Some st).
  { destruct st; vm_compute in Hstart; injection Hstart as <- _; reflexivity. }
  subst start.
  exists (match st with good => fst (fst cs) | bad => snd (fst cs) end),
         (match st with good => gc | bad => bc end).
  split; [destruct st; assumption|]. split; [destruct st; assumption|].
  cbn [channelStates]. apply Forall_fmap.
  eapply (GE_scan_single_regime L st p q); [exact Hu| | |exact Hout];
    [destruct st; congruence|reflexivity].
Qed.

(** The uniform samples of the counter-driven generator are 0, 0.25, 0.5
    and 0.75. *)
Lemma counter_numpy_uniform_below_one (g0 : rng Fixture.counter_numpy) :
  (fst (random_sample Fixture.counter_numpy g0) <? 1)%float = true.
Proof.
  change (fst (random_sample Fixture.counter_numpy g0))
    with (Params.float_of_Z (g0 mod 4) / 4)%float.
  assert (H : g0 mod 4 = 0 \/ g0 mod 4 = 1 \/ g0 mod 4 = 2 \/ g0 mod 4 = 3).
  { pose proof (Z.mod_pos_bound g0 4). lia. }
  destruct H as [->|[->|[->| ->]]]; vm_compute; reflexivity.
Qed.

Lemma GE_GilEllDataGen_single_regime_witness :
  exists sd g',
    GE.GilEllDataGen Fixture.counter_numpy
      (Seq [Seq [Int 0; Int 1];
            Seq [Seq [Float 0.5; Float (-0.25)]; Seq [Float 1.5; Float (-0.75)]];
            Int 3; Seq [Float 1; Float 1]; Str "good"]) 100 0
    = (Ok sd, g')
    /\ Forall (fun c' => c' = (0.5, -0.25)%float) (channelStates sd).
Proof.
  eexists _, _. split; [vm_compute; reflexivity|].
  edestruct (GE_GilEllDataGen_single_regime
               Fixture.counter_numpy good (Int 0) (Int 1)
               (Seq [Seq [Float 0.5; Float (-0.25)]; Seq [Float 1.5; Float (-0.75)]])
               (Int 3) (Seq [Float 1; Float 1]) 100 0)
    as (v & c & Hv & Hc & Hall).
  - exact counter_numpy_uniform_below_one.
  - reflexivity.
  - vm_compute. reflexivity.
  - injection Hv as <-. injection Hc as <-. exact Hall.
Defined.

(** ** An unknown start state *)

Lemma GE_step_0_unbound (L : numpy) table gc bc Q_diag R x0 z0 (g : rng L) :
  GE.step L table gc bc Q_diag R 0 (LoopState None x0 z0) g
  = (Raise UnboundLocalError, g).
Proof. reflexivity. Qed.

Lemma Legacy_step_0_unbound (L : numpy) table gc bc Q_diag R x0 z0 (g : rng L) :
  Legacy.step L table gc bc Q_diag R 0 (LoopState None x0 z0) g
  = (Raise UnboundLocalError, g).
Proof. reflexivity. Qed.

Lemma start_state_named_good (L : numpy) (p0 p1 p2 p3 : val) (g : rng L) :
  start_state L (Seq [p0; p1; p2; p3; Str "good"]) g = (Ok (Some good), g).
Proof. reflexivity. Qed.

Lemma start_state_unknown (L : numpy) (p0 p1 p2 p3 startState : val) (g : rng L) :
  Params.eq_str startState "good" = false ->
  Params.eq_str startState "bad" = false ->
  Params.eq_str startState "random" = false ->
  start_state L (Seq [p0; p1; p2; p3; startState]) g = (Ok None, g).
Proof.
  intros Hg Hb Hr. unfold start_state.
  cbv -[Params.eq_str]. rewrite Hg, Hb, Hr. reflexivity.
Qed.

(** When [params[4]] is none of 'good', 'bad' and 'random', no branch
    binds [MarkovState]: a call that would have returned with 'good'
    fails with UnboundLocalError in the first iteration of the main
    loop, after the Riccati computation, and draws nothing, in both
    files. *)
Theorem GilEllDataGen_unknown_start_state (L : numpy)
        (pq coeffs noise startState : val) (n : Z) s g :
  0 <= n ->
  Params.eq_str startState "good" = false ->
  Params.eq_str startState "bad" = false ->
  Params.eq_str startState "random" = false ->
  (forall sd g',
     GE.GilEllDataGen L (Seq [pq; coeffs; Int n; noise; Str "good"]) s g = (Ok sd, g') ->
     GE.GilEllDataGen L (Seq [pq; coeffs; Int n; noise; startState]) s g
     = (Raise UnboundLocalError, if 0 <? s then seed L s else g))
  /\ (forall sd g',
        Legacy.GilEllDataGen L (Seq [pq; coeffs; Int n; noise; Str "good"]) s g
        = (Ok sd, g') ->
        Legacy.GilEllDataGen L (Seq [pq; coeffs; Int n; noise; startState]) s g
        = (Raise UnboundLocalError, if 0 <? s then seed L s else g)).
Proof.
  intros Hn Hg Hb Hr. split; intros sd g' H.
  - apply GE_GilEllDataGen_inv in H
      as (pq' & p & q & cs & noise' & start & Q_diag & R & n' & gc & bc & ric & out
          & gs & g0 & Hseed & Hpq & Hp & Hq & Hcs & Hnoise & _ & HQ & HR & Hlen
          & _ & Hgc & Hbc & Hric & _ & _).
    assert (Hgs : gs = if 0 <? s then seed L s else g).
    { unfold seed_if_positive in Hseed. destruct (0 <? s); [|congruence].
      destruct (s <=? 4294967295); [congruence|discriminate]. }
    assert (Hsteps : Params.steps_of (snd cs) = Ok (n + 1)).
    { apply coeff_params_Ok in Hcs as (p1 & _ & _ & _ & H2).
      injection H2 as <-. cbn [Params.steps_of].
      destruct (Z.ltb_spec (n + 1) 0); [lia|reflexivity]. }
    unfold GE.GilEllDataGen. unfold gbind at 1. rewrite Hseed.
    change (Params.transition_params (Seq [pq; coeffs; Int n; noise; startState]))
      with (Params.transition_params (Seq [pq; coeffs; Int n; noise; Str "good"])).
    change (Params.coeff_params (Seq [pq; coeffs; Int n; noise; startState]))
      with (Params.coeff_params (Seq [pq; coeffs; Int n; noise; Str "good"])).
    change (Params.noise_params (Seq [pq; coeffs; Int n; noise; startState]))
      with (Params.noise_params (Seq [pq; coeffs; Int n; noise; Str "good"])).
    rewrite (gbind_lift_Ok _ _ _ _ Hpq), (gbind_lift_Ok _ _ _ _ Hp),
      (gbind_lift_Ok _ _ _ _ Hq), (gbind_lift_Ok _ _ _ _ Hcs),
      (gbind_lift_Ok _ _ _ _ Hnoise).
    unfold gbind at 1. rewrite start_state_unknown by assumption.
    rewrite (gbind_lift_Ok _ _ _ _ HQ), (gbind_lift_Ok _ _ _ _ HR),
      (gbind_lift_Ok _ _ _ _ Hsteps), (gbind_lift_Ok _ _ _ _ Hgc),
      (gbind_lift_Ok _ _ _ _ Hbc), (gbind_lift_Ok _ _ _ _ Hric).
    rewrite seqZ_cons by lia. unfold gbind at 1.
    rewrite (gscan_raises_first _ _ _ _ _ _ _ (GE_step_0_unbound L _ _ _ _ _ _ _ _)).
    rewrite Hgs. reflexivity.
  - apply Legacy_GilEllDataGen_inv in H
      as (pq' & p & q & cs & noise' & start & Q_diag & R & n' & gc & bc & ric & out
          & gs & g0 & Hseed & Hpq & Hp & Hq & Hcs & Hnoise & _ & HQ & HR & Hlen
          & _ & Hgc & Hbc & Hric & _ & _).
    assert (Hgs : gs = if 0 <? s then seed L s else g).
    { unfold seed_if_positive in Hseed. destruct (0 <? s); [|congruence].
      destruct (s <=? 4294967295); [congruence|discriminate]. }
    assert (Hsteps : Params.steps_of (snd cs) = Ok (n + 1)).
    { apply coeff_params_Ok in Hcs as (p1 & _ & _ & _ & H2).
      injection H2 as <-. cbn [Params.steps_of].
      destruct (Z.ltb_spec (n + 1) 0); [lia|reflexivity]. }
    unfold Legacy.GilEllDataGen. unfold gbind at 1. rewrite Hseed.
    change (Params.transition_params (Seq [pq; coeffs; Int n; noise; startState]))
      with (Params.transition_params (Seq [pq; coeffs; Int n; noise; Str "good"])).
    change (Params.coeff_params (Seq [pq; coeffs; Int n; noise; startState]))
      with (Params.coeff_params (Seq [pq; coeffs; Int n; noise; Str "good"])).
    change (Params.noise_params (Seq [pq; coeffs; Int n; noise; startState]))
      with (Params.noise_params (Seq [pq; coeffs; Int n; noise; Str "good"])).
    rewrite (gbind_lift_Ok _ _ _ _ Hpq), (gbind_lift_Ok _ _ _ _ Hp),
      (gbind_lift_Ok _ _ _ _ Hq), (gbind_lift_Ok _ _ _ _ Hcs),
      (gbind_lift_Ok _ _ _ _ Hnoise).
    unfold gbind at 1. rewrite start_state_unknown by assumption.
    rewrite (gbind_lift_Ok _ _ _ _ HQ), (gbind_lift_Ok _ _ _ _ HR),
      (gbind_lift_Ok _ _ _ _ Hsteps), (gbind_lift_Ok _ _ _ _ Hgc),
      (gbind_lift_Ok _ _ _ _ Hbc), (gbind_lift_Ok _ _ _ _ Hric).
    rewrite seqZ_cons by lia. unfold gbind at 1.
    rewrite (gscan_raises_first _ _ _ _ _ _ _ (Legacy_step_0_unbound L _ _ _ _ _ _ _ _)).
    rewrite Hgs. reflexivity.
Qed.

Lemma GilEllDataGen_unknown_start_state_witness :
  GE.GilEllDataGen Fixture.counter_numpy (Fixture.params 2 "Good") 100 0
  = (Raise UnboundLocalError, 100)
  /\ Legacy.GilEllDataGen Fixture.counter_numpy (Fixture.params 2 "Good") 100 0
     = (Raise UnboundLocalError, 100).
Proof.
  destruct (GilEllDataGen_unknown_start_state
              Fixture.counter_numpy (Seq [Float 0.5; Float 0.5])
              (Seq [Seq [Float 0.5; Float (-0.25)]; Seq [Float 1.5; Float (-0.75)]])
              (Seq [Float 1; Float 1]) (Str "Good") 2 100 0)
    as [HGE HLegacy]; [lia|reflexivity..|].
  split.
  - eapply HGE. vm_compute. reflexivity.
  - eapply HLegacy. vm_compute. reflexivity.
Defined.

(** ** The windows of the Toeplitz transform *)

Lemma windows_fields (g : Z -> rows * rows * list float) (n : Z)
      (a o : Z -> rows) (f : Z -> list float) :
  (forall i, 0 <= i < n -> g i = (a i, o i, f i)) ->
  split_windows (map g (seqZ 0 n))
  = Toeplitz (map a (seqZ 0 n)) (map o (seqZ 0 n)) (map f (seqZ 0 n)).
Proof.
  intros Hg. unfold split_windows. rewrite !map_map.
  f_equal; apply map_ext_in; intros i Hi; apply list_elem_of_In, elem_of_seqZ in Hi;
    rewrite Hg by lia; reflexivity.
Qed.

Lemma lookup_map_seqZ {B} (f : Z -> B) (n : Z) (i : nat) :
  Z.of_nat i < n -> map f (seqZ 0 n) !! i = Some (f (Z.of_nat i)).
Proof.
  intros Hi. rewrite list_lookup_fmap.
  assert (E : seqZ 0 n !! i = Some (Z.of_nat i)) by (apply lookup_seqZ; lia).
  rewrite E. reflexivity.
Qed.

Lemma lookup_map_slice {B} (h : complex -> B) (l : list complex) (a b : Z) (k : nat) :
  0 <= a -> a <= b -> b <= Z.of_nat (length l) -> Z.of_nat k < b - a ->
  exists c, l !! (Z.to_nat a + k)%nat = Some c
            /\ map h (slice a b l) !! k = Some (h c).
Proof.
  intros Ha Hab Hb Hk.
  assert (Hc : is_Some (l !! (Z.to_nat a + k)%nat)) by (apply lookup_lt_is_Some; lia).
  destruct Hc as [c Hc]. exists c. split; [exact Hc|].
  rewrite list_lookup_fmap, lookup_slice_inside by lia. rewrite Hc. reflexivity.
Qed.

(** Both files build the same observation and all-states windows, and
    they differ in nothing but the final states: window [i] of
    [toeplitzObservationStates] holds the real and imaginary parts of the
    [numColumns] observations [z[i], ..., z[i+numColumns-1]], and window
    [i] of [toeplitzAllTrueStates] those of the [numColumns + 1] states
    [x[i], ..., x[i+numColumns]]: entry [k] of window [i] is sample
    [i + k]. *)
Theorem toeplitzData_windows (x z : list complex) (numColumns : Z) :
  1 <= numColumns -> length z = length x -> 1 <= numRows_of x numColumns ->
  exists t t',
    GE.toeplitzData x z numColumns = Ok t
    /\ Legacy.toeplitzData x z numColumns = Ok t'
    /\ toeplitzObservationStates t' = toeplitzObservationStates t
    /\ toeplitzAllTrueStates t' = toeplitzAllTrueStates t
    /\ forall i : nat, Z.of_nat i < numRows_of x numColumns ->
         exists all obs,
           toeplitzAllTrueStates t !! i = Some all
           /\ toeplitzObservationStates t !! i = Some obs
           /\ (forall k : nat, Z.of_nat k < numColumns ->
                 exists c, z !! (i + k)%nat = Some c
                           /\ fst obs !! k = Some (re c)
                           /\ snd obs !! k = Some (im c))
           /\ (forall k : nat, Z.of_nat k <= numColumns ->
                 exists c, x !! (i + k)%nat = Some c
                           /\ fst all !! k = Some (re c)
                           /\ snd all !! k = Some (im c)).
Proof.
  intros Hnc Hz Hrows.
  destruct (GE_toeplitzData_ok x z numColumns Hnc Hz Hrows) as (g & HGE & Hg).
  destruct (Legacy_toeplitzData_ok x z numColumns ltac:(lia) Hz Hrows)
    as (g' & xl & _ & HLeg & Hg').
  rewrite (windows_fields g _
             (fun i => (map re (slice i (i + numColumns + 1) x),
                        map im (slice i (i + numColumns + 1) x)))
             (fun i => (map re (slice i (i + numColumns) z),
                        map im (slice i (i + numColumns) z)))
             (fun i => map re (slice (i + numColumns - 1) (i + numColumns + 1) x)
                       ++ map im (slice (i + numColumns - 1) (i + numColumns + 1) x)))
    in HGE by (intros i Hi; apply Hg, Hi).
  rewrite (windows_fields g' _
             (fun i => (map re (slice i (i + numColumns + 1) x),
                        map im (slice i (i + numColumns + 1) x)))
             (fun i => (map re (slice i (i + numColumns) z),
                        map im (slice i (i + numColumns) z)))
             (fun i => if i =? numRows_of x numColumns - 1
                       then [re xl; re xl; im xl; im xl]
                       else map re (slice (i + numColumns) (i + numColumns + 2) x)
                            ++ map im (slice (i + numColumns) (i + numColumns + 2) x)))
    in HLeg by (intros i Hi; apply Hg', Hi).
  eexists _, _. split; [exact HGE|]. split; [exact HLeg|].
  split; [reflexivity|]. split; [reflexivity|].
  intros i Hi. cbn [toeplitzAllTrueStates toeplitzObservationStates].
  eexists _, _. split; [apply lookup_map_seqZ, Hi|].
  split; [apply lookup_map_seqZ, Hi|]. cbn [fst snd].
  unfold numRows_of in Hi.
  split; intros k Hk.
  - destruct (lookup_map_slice re z (Z.of_nat i) (Z.of_nat i + numColumns) k)
      as (c & Hc & Hre); try lia.
    destruct (lookup_map_slice im z (Z.of_nat i) (Z.of_nat i + numColumns) k)
      as (c' & Hc' & Him); try lia.
    rewrite Nat2Z.id in Hc, Hc'. exists c. split; [exact Hc|]. split; [exact Hre|].
    congruence.
  - destruct (lookup_map_slice re x (Z.of_nat i) (Z.of_nat i + numColumns + 1) k)
      as (c & Hc & Hre); try lia.
    destruct (lookup_map_slice im x (Z.of_nat i) (Z.of_nat i + numColumns + 1) k)
      as (c' & Hc' & Him); try lia.
    rewrite Nat2Z.id in Hc, Hc'. exists c. split; [exact Hc|]. split; [exact Hre|].
    congruence.
Qed.

Lemma toeplitzData_windows_witness :
  exists t t',
    GE.toeplitzData [Cx 1 10; Cx 2 20; Cx 3 30; Cx 4 40]
                    [Cx 5 50; Cx 6 60; Cx 7 70; Cx 8 80] 2 = Ok t
    /\ Legacy.toeplitzData [Cx 1 10; Cx 2 20; Cx 3 30; Cx 4 40]
                           [Cx 5 50; Cx 6 60; Cx 7 70; Cx 8 80] 2 = Ok t'
    /\ toeplitzObservationStates t' = toeplitzObservationStates t
    /\ toeplitzObservationStates t !! 1%nat = Some ([6; 7], [60; 70])%float.
Proof.
  destruct (toeplitzData_windows
              [Cx 1 10; Cx 2 20; Cx 3 30; Cx 4 40]
              [Cx 5 50; Cx 6 60; Cx 7 70; Cx 8 80] 2)
    as (t & t' & Ht & Ht' & Hobs & _ & _);
    [lia|reflexivity|unfold numRows_of; simpl; lia|].
  exists t, t'. split; [exact Ht|]. split; [exact Ht'|]. split; [exact Hobs|].
  vm_compute in Ht. injection Ht as <-. reflexivity.
Defined.

(** In src/gilbertElliot/gilbertElliotDataGen.py the three outputs fit
    together: the final states of window [i] are the last two states of
    its all-states window, the current state [x[i+numColumns-1]] and the
    next state [x[i+numColumns]]; and the next state of window [i] is
    the current state of window [i + 1]. *)
Theorem GE_toeplitzData_final_states_chain (x z : list complex) (numColumns : Z) :
  1 <= numColumns -> length z = length x -> 1 <= numRows_of x numColumns ->
  exists t,
    GE.toeplitzData x z numColumns = Ok t
    /\ forall i : nat, Z.of_nat i < numRows_of x numColumns ->
         exists all xc xn,
           toeplitzAllTrueStates t !! i = Some all
           /\ toeplitzFinalTrueStates t !! i = Some [re xc; re xn; im xc; im xn]
           /\ fst all !! Z.to_nat (numColumns - 1) = Some (re xc)
           /\ fst all !! Z.to_nat numColumns = Some (re xn)
           /\ snd all !! Z.to_nat (numColumns - 1) = Some (im xc)
           /\ snd all !! Z.to_nat numColumns = Some (im xn)
           /\ (Z.of_nat (S i) < numRows_of x numColumns ->
               exists xnn,
                 toeplitzFinalTrueStates t !! S i
                 = Some [re xn; re xnn; im xn; im xnn]).
Proof.
  intros Hnc Hz Hrows.
  destruct (GE_toeplitzData_ok x z numColumns Hnc Hz Hrows) as (g & HGE & Hg).
  rewrite (windows_fields g _
             (fun i => (map re (slice i (i + numColumns + 1) x),
                        map im (slice i (i + numColumns + 1) x)))
             (fun i => (map re (slice i (i + numColumns) z),
                        map im (slice i (i + numColumns) z)))
             (fun i => map re (slice (i + numColumns - 1) (i + numColumns + 1) x)
                       ++ map im (slice (i + numColumns - 1) (i + numColumns + 1) x)))
    in HGE by (intros i Hi; apply Hg, Hi).
  eexists. split; [exact HGE|].
  assert (Hfinal : forall i : nat, Z.of_nat i < numRows_of x numColumns ->
            exists xc xn,
              x !! Z.to_nat (Z.of_nat i + numColumns - 1) = Some xc
              /\ x !! Z.to_nat (Z.of_nat i + numColumns) = Some xn
              /\ map re (slice (Z.of_nat i + numColumns - 1)
                               (Z.of_nat i + numColumns + 1) x)
                 ++ map im (slice (Z.of_nat i + numColumns - 1)
                                  (Z.of_nat i + numColumns + 1) x)
                 = [re xc; re xn; im xc; im xn]).
  { intros i Hi. unfold numRows_of in Hi.
    destruct (lookup_lt_is_Some_2 x (Z.to_nat (Z.of_nat i + numColumns - 1)))
      as [xc Hxc]; [lia|].
    destruct (lookup_lt_is_Some_2 x (Z.to_nat (Z.of_nat i + numColumns)))
      as [xn Hxn]; [lia|].
    exists xc, xn. split; [exact Hxc|]. split; [exact Hxn|].
    replace (Z.of_nat i + numColumns + 1) with (Z.of_nat i + numColumns - 1 + 2) by lia.
    rewrite (slice_pair (Z.of_nat i + numColumns - 1) x xc xn); [reflexivity|lia|exact Hxc|].
    replace (Z.of_nat i + numColumns - 1 + 1) with (Z.of_nat i + numColumns) by lia.
    exact Hxn. }
  intros i Hi. cbn [toeplitzAllTrueStates toeplitzFinalTrueStates].
  destruct (Hfinal i Hi) as (xc & xn & Hxc & Hxn & Hfin).
  eexists _, xc, xn. split; [apply lookup_map_seqZ, Hi|].
  split; [rewrite lookup_map_seqZ by exact Hi; f_equal; exact Hfin|].
  cbn [fst snd]. pose proof Hi as Hi'. unfold numRows_of in Hi'.
  assert (Hlook : forall (h : complex -> float) (k : Z) (c : complex),
            0 <= k <= numColumns ->
            x !! Z.to_nat (Z.of_nat i + k) = Some c ->
            map h (slice (Z.of_nat i) (Z.of_nat i + numColumns + 1) x) !! Z.to_nat k
            = Some (h c)).
  { intros h k c Hk Hc.
    destruct (lookup_map_slice h x (Z.of_nat i) (Z.of_nat i + numColumns + 1)
                               (Z.to_nat k)) as (c' & Hc' & Hh); try lia.
    replace (Z.to_nat (Z.of_nat i) + Z.to_nat k)%nat
      with (Z.to_nat (Z.of_nat i + k)) in Hc' by lia.
    congruence. }
  split; [apply Hlook; [lia|]; rewrite <- Hxc; f_equal; lia|].
  split; [apply Hlook; [lia|exact Hxn]|].
  split; [apply Hlook; [lia|]; rewrite <- Hxc; f_equal; lia|].
  split; [apply Hlook; [lia|exact Hxn]|].
  intros Hi1. destruct (Hfinal (S i) Hi1) as (xc' & xnn & Hxc' & _ & Hfin').
  assert (xc' = xn) as ->.
  { replace (Z.to_nat (Z.of_nat (S i) + numColumns - 1))
      with (Z.to_nat (Z.of_nat i + numColumns)) in Hxc' by lia.
    congruence. }
  exists xnn. rewrite lookup_map_seqZ by exact Hi1. f_equal. exact Hfin'.
Qed.

Lemma GE_toeplitzData_final_states_chain_witness :
  exists t,
    GE.toeplitzData [Cx 1 10; Cx 2 20; Cx 3 30; Cx 4 40]
                    [Cx 5 50; Cx 6 60; Cx 7 70; Cx 8 80] 2 = Ok t
    /\ toeplitzFinalTrueStates t !! 0%nat = Some [2; 3; 20; 30]%float
    /\ toeplitzFinalTrueStates t !! 1%nat = Some [3; 4; 30; 40]%float.
Proof.
  destruct (GE_toeplitzData_final_states_chain
              [Cx 1 10; Cx 2 20; Cx 3 30; Cx 4 40]
              [Cx 5 50; Cx 6 60; Cx 7 70; Cx 8 80] 2)
    as (t & Ht & _); [lia|reflexivity|unfold numRows_of; simpl; lia|].
  exists t. split; [exact Ht|].
  vm_compute in Ht. injection Ht as <-. split; reflexivity.
Defined.

(** ** Batch sizes that do not divide the number of samples *)

(** [convertToBatched] for any positive batch size: the batches hold the
    samples of index below [batchSize * (N / batchSize)]. *)
Lemma convertToBatched_batches_floor (sys : list (list float)) (obs : array3)
      (batchSize : Z) (N S : nat) :
  length sys = 4%nat -> Forall (fun r => length r = N) sys ->
  rectangular3 obs -> shape3 obs = (2%nat, S, N) ->
  0 < batchSize ->
  GE.convertToBatched sys obs batchSize
  = Ok (map (fun i : Z =>
               map (fun n => map (fun row => row !!! n) sys)
                   (seq (Z.to_nat (i * batchSize)) (Z.to_nat batchSize)))
            (seqZ 0 (Z.of_nat N / batchSize)),
        map (fun i : Z =>
               map (fun n => map (fun plane => map (fun row => row !!! n) plane)
                                 (cells obs))
                   (seq (Z.to_nat (i * batchSize)) (Z.to_nat batchSize)))
            (seqZ 0 (Z.of_nat N / batchSize))).
Proof.
  intros Hsys4 HsysN [Hplanes Hrect] Hshape Hbs.
  unfold GE.convertToBatched. rewrite Hshape in *. cbn [fst snd] in *.
  destruct (Z.eqb_spec batchSize 0); [lia|].
  rewrite Z.quot_div_nonneg by lia.
  assert (HK : 0 <= Z.of_nat N / batchSize) by (apply Z.div_pos; lia).
  assert (HN : batchSize * (Z.of_nat N / batchSize) <= Z.of_nat N)
    by (apply Z.mul_div_le; lia).
  rewrite !empty_check_nonneg by (repeat constructor; lia). cbn [bind].
  rewrite (for_each_total _
             (fun i : Z =>
                (map (fun n => map (fun row => row !!! n) sys)
                     (seq (Z.to_nat (i * batchSize)) (Z.to_nat batchSize)),
                 map (fun n => map (fun plane => map (fun row => row !!! n) plane)
                                   (cells obs))
                     (seq (Z.to_nat (i * batchSize)) (Z.to_nat batchSize))))).
  { cbn [bind]. rewrite !map_map. reflexivity. }
  apply Forall_seqZ. intros i Hi.
  assert (Hi0 : 0 <= i * batchSize) by nia.
  assert (Hi1 : (i + 1) * batchSize <= Z.of_nat N) by nia.
  assert (Hw : Z.to_nat ((i + 1) * batchSize - i * batchSize) = Z.to_nat batchSize)
    by (f_equal; lia).
  assert (Hcols : ncols (map (slice (i * batchSize) ((i + 1) * batchSize)) sys)
                  = Z.to_nat batchSize).
  { destruct sys as [|r sys']; [discriminate|]. cbn [map ncols].
    apply Forall_cons_1 in HsysN as [Hr _].
    rewrite length_slice_inside by lia. exact Hw. }
  rewrite Hcols, <- Hw.
  rewrite (transpose2_slice sys N) by (assumption || lia).
  rewrite assign2_exact.
  2:{ rewrite length_map, length_seq. reflexivity. }
  2:{ apply Forall_fmap, Forall_forall. intros k _. cbn.
      rewrite length_map. exact Hsys4. }
  cbn [bind].
  replace ((1 + i) * batchSize) with ((i + 1) * batchSize) by lia.
  rewrite slice_length_inside by lia.
  rewrite (swapaxes_transpose3_slice (cells obs) 2 S N) by (assumption || lia).
  rewrite assign3_exact.
  2:{ rewrite length_map, length_seq. reflexivity. }
  2:{ apply Forall_fmap, Forall_forall. intros k _. cbn.
      rewrite length_map. split; [exact Hplanes|].
      apply Forall_fmap. eapply Forall_impl; [exact Hrect|].
      intros plane [HS _]. cbn. rewrite length_map. exact HS. }
  reflexivity.
Qed.

(** When [batchSize] does not divide the number [N] of samples, nothing
    is raised: [convertToBatched] returns the [N // batchSize] full
    batches, which hold the first [batchSize * (N // batchSize)] samples
    in their order, and the last [N % batchSize] samples are in no
    batch. *)
Theorem convertToBatched_drops_remainder (sys : list (list float)) (obs : array3)
        (batchSize : Z) (N S : nat) :
  length sys = 4%nat -> Forall (fun r => length r = N) sys ->
  rectangular3 obs -> shape3 obs = (2%nat, S, N) ->
  0 < batchSize ->
  exists trueState measuredState,
    GE.convertToBatched sys obs batchSize = Ok (trueState, measuredState)
    /\ length trueState = Z.to_nat (Z.of_nat N / batchSize)
    /\ length measuredState = Z.to_nat (Z.of_nat N / batchSize)
    /\ Forall (fun t => length t = Z.to_nat batchSize) trueState
    /\ Forall (fun m => length m = Z.to_nat batchSize) measuredState
    /\ concat trueState
       = map (fun n => map (fun row => row !!! n) sys)
             (seq 0 (N - Z.to_nat (Z.of_nat N mod batchSize)))
    /\ concat measuredState
       = map (fun n => map (fun plane => map (fun row => row !!! n) plane) (cells obs))
             (seq 0 (N - Z.to_nat (Z.of_nat N mod batchSize))).
Proof.
  intros Hsys4 HsysN Hrect Hshape Hbs.
  assert (HK : 0 <= Z.of_nat N / batchSize) by (apply Z.div_pos; lia).
  assert (HN : Z.to_nat (batchSize * (Z.of_nat N / batchSize))
               = (N - Z.to_nat (Z.of_nat N mod batchSize))%nat).
  { pose proof (Z.div_mod (Z.of_nat N) batchSize ltac:(lia)) as E.
    pose proof (Z.mod_pos_bound (Z.of_nat N) batchSize Hbs). lia. }
  eexists _, _. split.
  { apply (convertToBatched_batches_floor sys obs batchSize N S); assumption. }
  split; [rewrite length_map, length_seqZ; reflexivity|].
  split; [rewrite length_map, length_seqZ; reflexivity|].
  split; [apply Forall_fmap, Forall_forall; intros i _; cbn;
          rewrite length_map, length_seq; reflexivity|].
  split; [apply Forall_fmap, Forall_forall; intros i _; cbn;
          rewrite length_map, length_seq; reflexivity|].
  split; rewrite batches_concat, HN by assumption; reflexivity.
Qed.

Lemma convertToBatched_drops_remainder_witness :
  exists trueState measuredState,
    GE.convertToBatched
      [[1; 2; 3; 4; 5]; [11; 12; 13; 14; 15];
       [21; 22; 23; 24; 25]; [31; 32; 33; 34; 35]]%float
      (Array3 (2, 1, 5)%nat [[[5; 6; 7; 8; 9]]; [[50; 60; 70; 80; 90]]]%float) 2
    = Ok (trueState, measuredState)
    /\ concat trueState
       = [[1; 11; 21; 31]; [2; 12; 22; 32]; [3; 13; 23; 33]; [4; 14; 24; 34]]%float
    /\ concat measuredState
       = [[[5]; [50]]; [[6]; [60]]; [[7]; [70]]; [[8]; [80]]]%float.
Proof.
  destruct (convertToBatched_drops_remainder
              [[1; 2; 3; 4; 5]; [11; 12; 13; 14; 15];
               [21; 22; 23; 24; 25]; [31; 32; 33; 34; 35]]%float
              (Array3 (2, 1, 5)%nat [[[5; 6; 7; 8; 9]]; [[50; 60; 70; 80; 90]]]%float)
              2 5 1)
    as (trueState & measuredState & H & _ & _ & _ & _ & Ht & Hm).
  - reflexivity.
  - repeat constructor.
  - split; [reflexivity|]. repeat constructor.
  - reflexivity.
  - lia.
  - exists trueState, measuredState. split; [exact H|]. split; [exact Ht|exact Hm].
Defined.

(** The batch sizes that give no batch: zero is a division by zero, a
    negative size is refused by [np.empty], and a size above the number
    of samples returns arrays with no batch in them, without an
    error. *)
Theorem convertToBatched_degenerate_batch_sizes (sys : list (list float))
        (obs : array3) (batchSize : Z) :
  (batchSize = 0 -> GE.convertToBatched sys obs batchSize = Raise ZeroDivisionError)
  /\ (batchSize < 0 -> GE.convertToBatched sys obs batchSize = Raise ValueError)
  /\ (Z.of_nat (snd (shape3 obs)) < batchSize ->
      GE.convertToBatched sys obs batchSize = Ok ([], [])).
Proof.
  unfold GE.convertToBatched. repeat split.
  - intros ->. reflexivity.
  - intros Hneg. destruct (Z.eqb_spec batchSize 0); [lia|].
    unfold empty_check. cbn [forallb].
    destruct (Z.leb_spec 0 batchSize); [lia|]. reflexivity.
  - intros Hbig. destruct (Z.eqb_spec batchSize 0); [lia|].
    rewrite Z.quot_small by lia.
    rewrite !empty_check_nonneg by (repeat constructor; lia).
    reflexivity.
Qed.

(** ** The mismatched AR process *)

Lemma tfor_length {T : torch} {O} (body : Z -> Mismatch.tgen T O) (l : list Z)
      g os g' :
  Mismatch.tfor T body l g = Some (Ok os, g') -> length os = length l.
Proof.
  revert g os. induction l as [|i l IH]; intros g os H; cbn [Mismatch.tfor] in H.
  - injection H as <- _. reflexivity.
  - apply tbind_Ok in H as (o & g1 & _ & H).
    apply tbind_Ok in H as (os' & g2 & Hos & H).
    injection H as <- <-. cbn [length]. f_equal. eapply IH, Hos.
Qed.

Lemma tscan_length {T : torch} {S O} (body : Z -> S -> Mismatch.tgen T (S * O))
      (l : list Z) (s : S) g os g' :
  Mismatch.tscan T body l s g = Some (Ok os, g') -> length os = length l.
Proof.
  revert s g os. induction l as [|i l IH]; intros s g os H; cbn [Mismatch.tscan] in H.
  - injection H as <- _. reflexivity.
  - apply tbind_Ok in H as (so & g1 & _ & H).
    apply tbind_Ok in H as (os' & g2 & Hos & H).
    injection H as <- <-. cbn [length]. f_equal. eapply IH, Hos.
Qed.

Lemma tdraws_length {T : torch} (n : nat) g ds g' :
  Mismatch.tdraws T n g = Some (Ok ds, g') -> length ds = n.
Proof.
  revert g ds. induction n as [|n IH]; intros g ds H; cbn [Mismatch.tdraws] in H.
  - injection H as <- _. reflexivity.
  - apply tbind_Ok in H as (d & g1 & _ & H).
    apply tbind_Ok in H as (ds' & g2 & Hds & H).
    injection H as <- <-. cbn [length]. f_equal. eapply IH, Hds.
Qed.

Lemma zeros_check_Ok (dims : list Z) :
  Mismatch.zeros_check dims = Ok tt -> Forall (fun d => 0 <= d) dims.
Proof.
  unfold Mismatch.zeros_check.
  destruct (forallb _ dims) eqn:E; [|discriminate]. intros _.
  rewrite forallb_forall in E. apply Forall_forall. intros d Hd.
  apply Z.leb_le, E, list_elem_of_In, Hd.
Qed.

(** The system noise can be built for [AR_n = 2] only: [QChol] is
    2 x 2. *)
Lemma Mismatch_sys_noise_Ok (T : torch) (AR_n : Z) (c : float) g v g' :
  Mismatch.sys_noise T AR_n c g = Some (Ok v, g') -> AR_n = 2.
Proof.
  unfold Mismatch.sys_noise. destruct (Z.ltb_spec AR_n 0) as [Hneg|Hpos];
    [discriminate|].
  intros H. apply tbind_Ok in H as (ds & g1 & Hds & H).
  apply tdraws_length in Hds.
  destruct ds as [|d0 [|d1 [|d2 ds]]]; try discriminate.
  cbn [length] in Hds. lia.
Qed.

Lemma Mismatch_sequence_shape (T : torch) (F : mat2) (AR_n n : Z) e g g' :
  0 <= n ->
  Mismatch.sequence T F AR_n n g = Some (Ok e, g') ->
  AR_n = 2
  /\ length (Mismatch.e_x e) = 4%nat
  /\ length (Mismatch.e_z e) = Z.to_nat n
  /\ length (Mismatch.e_all e) = Z.to_nat (n + 1).
Proof.
  intros Hn H. unfold Mismatch.sequence in H.
  apply tbind_Ok in H as (out & g1 & Hout & H).
  injection H as <- _.
  pose proof (tscan_length _ _ _ _ _ _ Hout) as Hlen. rewrite length_seqZ in Hlen.
  split.
  - apply tscan_first in Hout as (s1 & o & g2 & os' & Hbody & _); [|lia].
    unfold Mismatch.step in Hbody.
    apply tbind_Ok in Hbody as (v & g3 & Hv & _).
    eapply Mismatch_sys_noise_Ok, Hv.
  - cbn [Mismatch.e_x Mismatch.e_z Mismatch.e_all].
    rewrite !length_map, length_take, Hlen.
    repeat split; [|lia].
    destruct (out !! Z.to_nat n) as [[xc zc]|]; reflexivity.
Qed.

(** A call of [ARDatagenMismatch] that returns has filled tensors of
    the shapes [(batchSize, 4, simLength)] for [x],
    [(batchSize, 2, sequenceLength, simLength)] for [z] and
    [(batchSize, 2, 2, sequenceLength+1, simLength)] for [all_xs]: no
    dimension is negative, there are [simLength] series of [batchSize]
    elements, and each element has its four state values,
    [sequenceLength] measurements and [sequenceLength + 1] recorded
    states. *)
Theorem ARDatagenMismatch_shapes (T : torch) (fuel : nat) (simLength AR_n : Z)
        (var : float) (batchSize sequenceLength s : Z) g out g' :
  Mismatch.ARDatagenMismatch T fuel simLength AR_n var batchSize sequenceLength s g
  = Some (Ok out, g') ->
  0 <= simLength /\ 0 <= batchSize /\ 0 <= sequenceLength
  /\ length out = Z.to_nat simLength
  /\ Forall (fun series =>
               length series = Z.to_nat batchSize
               /\ Forall (fun e =>
                            length (Mismatch.e_x e) = 4%nat
                            /\ length (Mismatch.e_z e) = Z.to_nat sequenceLength
                            /\ length (Mismatch.e_all e)
                               = Z.to_nat (sequenceLength + 1))
                         series)
            out.
Proof.
  intros H. unfold Mismatch.ARDatagenMismatch in H.
  apply tbind_Ok in H as ([] & g1 & _ & H).
  apply tbind_Ok in H as ([] & g2 & _ & H).
  apply tbind_Ok in H as ([] & g3 & Hz & H).
  apply tbind_Ok in H as ([] & g4 & _ & H).
  injection Hz as Hz _. apply zeros_check_Ok in Hz.
  rewrite !Forall_cons in Hz. destruct Hz as (Hbs & _ & Hn & Hsim & _).
  repeat (split; [assumption|]).
  split; [apply tfor_length in H; rewrite length_seqZ in H; exact H|].
  revert H. apply tfor_Forall. intros i gi series gi' Hseries. split.
  - apply tfor_length in Hseries. rewrite length_seqZ in Hseries. exact Hseries.
  - revert Hseries. apply tfor_Forall. intros j gj e gj' He.
    apply tbind_Ok in He as (F & gF & _ & He).
    eapply Mismatch_sequence_shape in He as (_ & Hx & Hze & Ha); auto.
Qed.

Lemma ARDatagenMismatch_shapes_witness :
  exists out g',
    Mismatch.ARDatagenMismatch Fixture.counter_torch 10 2 2 0.5 3 4 7 0
    = Some (Ok out, g')
    /\ length out = 2%nat
    /\ Forall (fun series =>
                 length series = 3%nat
                 /\ Forall (fun e =>
                              length (Mismatch.e_x e) = 4%nat
                              /\ length (Mismatch.e_z e) = 4%nat
                              /\ length (Mismatch.e_all e) = 5%nat)
                           series)
              out.
Proof.
  eexists _, _. split; [vm_compute; reflexivity|].
  edestruct (ARDatagenMismatch_shapes Fixture.counter_torch 10 2 2 0.5 3 4 7 0)
    as (_ & _ & _ & Hlen & Hall).
  { vm_compute. reflexivity. }
  split; [exact Hlen|exact Hall].
Defined.

(** [ARDatagenMismatch] generates data for the AR order 2 only: with any
    other [AR_n] the product of the 2 x 2 matrix [QChol] with
    [torch.randn(AR_n, 1)] fails in the first iteration, so a call that
    returns at least one element was made with [AR_n = 2]. *)
Theorem ARDatagenMismatch_order_two (T : torch) (fuel : nat) (simLength AR_n : Z)
        (var : float) (batchSize sequenceLength s : Z) g out g' :
  1 <= simLength -> 1 <= batchSize ->
  Mismatch.ARDatagenMismatch T fuel simLength AR_n var batchSize sequenceLength s g
  = Some (Ok out, g') ->
  AR_n = 2.
Proof.
  intros Hsim Hbs H. unfold Mismatch.ARDatagenMismatch in H.
  apply tbind_Ok in H as ([] & g1 & _ & H).
  apply tbind_Ok in H as ([] & g2 & _ & H).
  apply tbind_Ok in H as ([] & g3 & Hz & H).
  apply tbind_Ok in H as ([] & g4 & _ & H).
  injection Hz as Hz _. apply zeros_check_Ok in Hz.
  rewrite !Forall_cons in Hz. destruct Hz as (_ & _ & Hn & _).
  rewrite (seqZ_cons 0 simLength) in H by lia. cbn [Mismatch.tfor] in H.
  apply tbind_Ok in H as (series & g5 & Hseries & _).
  rewrite (seqZ_cons 0 batchSize) in Hseries by lia. cbn [Mismatch.tfor] in Hseries.
  apply tbind_Ok in Hseries as (e & g6 & He & _).
  apply tbind_Ok in He as (F & gF & _ & He).
  eapply Mismatch_sequence_shape in He as (HAR & _); [exact HAR|exact Hn].
Qed.

Lemma ARDatagenMismatch_order_two_witness :
  exists out g',
    Mismatch.ARDatagenMismatch Fixture.counter_torch 10 1 2 0.5 1 2 7 0
    = Some (Ok out, g')
    /\ (2 : Z) = 2
    /\ exists g3,
         Mismatch.ARDatagenMismatch Fixture.counter_torch 10 1 3 0.5 1 2 7 0
         = Some (Raise RuntimeError, g3).
Proof.
  eexists _, _. split; [vm_compute; reflexivity|]. split.
  - eapply (ARDatagenMismatch_order_two
              Fixture.counter_torch 10 1 2 0.5 1 2 7 0);
      [lia|lia|vm_compute; reflexivity].
  - eexists. vm_compute. reflexivity.
Defined.

(** The loop changes the first row of the matrix only: what it returns
    is the last candidate, with the second row it started from. *)
Lemma redraw_result (T : torch) (means : float * float) (var : float)
      (fuel : nat) (F0 : mat2) (g : t_rng T) F g' :
  Mismatch.redraw T fuel means var F0 g = Some (Ok F, g') ->
  m10 F = m10 F0 /\ m11 F = m11 F0
  /\ exists g0,
       m00 F = (fst means + fst (t_randn T g0) * var)%float
       /\ m01 F = (snd means + fst (t_randn T (snd (t_randn T g0))) * var)%float
       /\ g' = snd (t_randn T (snd (t_randn T g0))).
Proof.
  revert F0 g. induction fuel as [|fuel IH]; intros F0 g H; [discriminate|].
  rewrite redraw_S in H.
  destruct (eig T (fst (Mismatch.candidate T means var F0 g))) as [ev|e];
    [|discriminate].
  destruct (Mismatch.any_abs_gt_one ev).
  - apply IH in H as (H10 & H11 & Hrow). cbn [Mismatch.candidate fst m10 m11] in H10, H11.
    auto.
  - injection H as <- <-. cbn [Mismatch.candidate fst snd m00 m01 m10 m11].
    repeat split. exists g. auto.
Qed.

(** The matrix [ARCoeffecientGeneration] returns is in companion form:
    its second row is [1, 0], the first row of [torch.eye(2)] copied over
    the second, and its first row is the mean coefficients plus the
    last two samples drawn, scaled by [arCoeffecientNoiseVar]; nothing is
    drawn after them. *)
Theorem ARCoeffecientGeneration_companion_form (T : torch) (fuel : nat)
        (arCoeffMeans : float * float) (arCoeffecientNoiseVar : float) (seed : Z)
        (g : t_rng T) (F : mat2) (g' : t_rng T) :
  Mismatch.ARCoeffecientGeneration T fuel arCoeffMeans arCoeffecientNoiseVar seed g
  = Some (Ok F, g') ->
  m10 F = 1%float /\ m11 F = 0%float
  /\ exists g0,
       m00 F = (fst arCoeffMeans + fst (t_randn T g0) * arCoeffecientNoiseVar)%float
       /\ m01 F = (snd arCoeffMeans
                   + fst (t_randn T (snd (t_randn T g0))) * arCoeffecientNoiseVar)%float
       /\ g' = snd (t_randn T (snd (t_randn T g0))).
Proof.
  unfold Mismatch.ARCoeffecientGeneration. intros H.
  apply tbind_Ok in H as ([] & g1 & _ & H).
  apply redraw_result in H. exact H.
Qed.

Lemma ARCoeffecientGeneration_companion_form_witness :
  exists F g',
    Mismatch.ARCoeffecientGeneration Fixture.counter_torch 10
      (0.5, 0.4)%float 0.5%float 7 0
    = Some (Ok F, g')
    /\ m10 F = 1%float /\ m11 F = 0%float.
Proof.
  eexists _, _. split; [vm_compute; reflexivity|].
  edestruct (ARCoeffecientGeneration_companion_form
               Fixture.counter_torch 10 (0.5, 0.4)%float 0.5%float 7 0)
    as (H10 & H11 & _).
  { vm_compute. reflexivity. }
  split; [exact H10|exact H11].
Defined.

(** ** The wrappers: one long trajectory cut into windows *)

Lemma set_slice_exact {A} (start stop : Z) (src dst : list A) (a b : nat) :
  Z.of_nat a = clip_index (Z.of_nat (length dst)) start ->
  Z.of_nat b = Z.max (Z.of_nat a) (clip_index (Z.of_nat (length dst)) stop) ->
  length src = (b - a)%nat ->
  set_slice start stop src dst = Ok (take a dst ++ src ++ drop b dst).
Proof.
  intros Ha Hb Hsrc. unfold set_slice. rewrite <- Ha, <- Hb.
  rewrite assign_exact by lia. cbn [bind]. rewrite !Nat2Z.id. reflexivity.
Qed.

Lemma set_last_exact {A} (src dst : list A) (v : A) :
  last src = Some v -> dst <> [] ->
  set_last src dst = Ok (take (length dst - 1) dst ++ [v]).
Proof.
  intros Hv Hne. unfold set_last. rewrite Hv.
  destruct dst; [contradiction|reflexivity].
Qed.

(** One array of the zero padding: [sequenceLength + shift] zeros, then
    the samples [shift], ..., [numSequences - 2], then the last sample
    (with a single window the last sample takes the place of the last
    zero). *)
Lemma padding_one {A} (zero : A) (S N : Z) (shift w : Z) (l : list A) (v : A) :
  1 <= S -> 1 <= N -> 0 <= shift <= 1 ->
  w = N + S -> Z.of_nat (length l) = N + S -> last l = Some v ->
  exists vs,
    set_slice (S + shift) (-1) (slice shift (w - (S + 1)) l)
              (replicate (length l) zero) = Ok vs
    /\ set_last l vs
       = Ok (replicate (Z.to_nat (Z.min (S + shift) (N + S - 1))) zero
             ++ slice shift (N - 1) l ++ [v]).
Proof.
  intros HS HN Hshift -> Hlen Hv.
  replace (N + S - (S + 1)) with (N - 1) by lia.
  assert (Hsrc : length (slice shift (N - 1) l) = Z.to_nat (N - 1 - shift)).
  { unfold slice, clip_index. rewrite Hlen.
    destruct (Z.ltb_spec shift 0); [lia|]. destruct (Z.ltb_spec (N - 1) 0); [lia|].
    rewrite length_take, length_drop. lia. }
  eexists. split.
  { apply (set_slice_exact _ _ _ _
             (Z.to_nat (Z.min (S + shift) (N + S)))
             (Z.to_nat (Z.max (Z.min (S + shift) (N + S)) (N + S - 1)))).
    - rewrite length_replicate, Hlen. unfold clip_index.
      destruct (Z.ltb_spec (S + shift) 0); lia.
    - rewrite length_replicate, Hlen. unfold clip_index.
      destruct (Z.ltb_spec (-1) 0); lia.
    - rewrite Hsrc. lia. }
  rewrite take_replicate, drop_replicate.
  rewrite (set_last_exact _ _ v Hv).
  2:{ intros E. apply (f_equal length) in E.
      rewrite !length_app, !length_replicate in E. cbn [length] in E. lia. }
  rewrite !length_app, !length_replicate, Hsrc.
  f_equal. rewrite (app_assoc _ _ [v]). f_equal.
  destruct (Z.eq_dec N 1) as [->|HN1].
  - (* a single window: the view of the slice assignment is empty *)
    assert (Hnil : slice shift (1 - 1) l = []).
    { apply length_zero_iff_nil. rewrite Hsrc. lia. }
    rewrite Hnil. cbn [app]. rewrite app_nil_r.
    rewrite <- replicate_add, take_replicate. f_equal. lia.
  - rewrite app_assoc, take_app_le.
    2:{ rewrite length_app, length_replicate, Hsrc. lia. }
    rewrite take_ge by (rewrite length_app, length_replicate, Hsrc; lia).
    f_equal. f_equal. lia.
Qed.

(** The zero padding of [initTest], for [numSequences] windows of
    [sequenceLength] samples. *)
Lemma initTest_padding_Ok (S N : Z) (sd : sequenceData) (xl zl : complex)
      (cl : float * float) :
  1 <= S -> 1 <= N ->
  Z.of_nat (length (sd_x sd)) = N + S ->
  Z.of_nat (length (sd_z sd)) = N + S ->
  Z.of_nat (length (channelStates sd)) = N + S ->
  last (sd_x sd) = Some xl -> last (sd_z sd) = Some zl ->
  last (channelStates sd) = Some cl ->
  GE.initTest_padding S sd
  = Ok (SequenceData
          (replicate (Z.to_nat S) czero ++ slice 0 (N - 1) (sd_x sd) ++ [xl])
          (replicate (Z.to_nat (Z.min (S + 1) (N + S - 1))) czero
           ++ slice 1 (N - 1) (sd_z sd) ++ [zl])
          (riccatiConvergences sd)
          (replicate (Z.to_nat S) (0%float, 0%float)
           ++ slice 0 (N - 1) (channelStates sd) ++ [cl])).
Proof.
  intros HS HN Hx Hz Hc Hxl Hzl Hcl. unfold GE.initTest_padding.
  destruct (padding_one czero S N 0 (Z.of_nat (length (sd_x sd))) (sd_x sd) xl)
    as (vx & Hx1 & Hx2); try assumption; try lia.
  destruct (padding_one czero S N 1 (Z.of_nat (length (sd_z sd))) (sd_z sd) zl)
    as (vz & Hz1 & Hz2); try assumption; try lia.
  destruct (padding_one (0%float, 0%float) S N 0 (Z.of_nat (length (sd_z sd)))
                        (channelStates sd) cl)
    as (vc & Hc1 & Hc2); try assumption; try lia.
  rewrite Z.add_0_r in Hx1, Hx2, Hc1, Hc2.
  rewrite Hx1. cbn [bind]. rewrite Hx2. cbn [bind].
  rewrite Hz1. cbn [bind]. rewrite Hz2. cbn [bind].
  rewrite Hc1. cbn [bind]. rewrite Hc2. cbn [bind].
  do 4 f_equal; f_equal; lia.
Qed.

Lemma GE_GilEllDataGen_lengths (L : numpy) params s g sd g' (n : Z) :
  GE.GilEllDataGen L params s g = (Ok sd, g') ->
  Params.index params 2 = Ok (Int n) ->
  -1 <= n
  /\ length (sd_x sd) = Z.to_nat (n + 1)
  /\ length (sd_z sd) = Z.to_nat (n + 1)
  /\ length (channelStates sd) = Z.to_nat (n + 1).
Proof.
  intros H H2.
  apply GE_GilEllDataGen_inv in H
    as (pq & p & q & cs & noise & start & Q_diag & R & n' & gc & bc & ric & out
        & gs & g0 & _ & _ & _ & _ & Hcs & _ & _ & _ & _ & Hn & Hn1 & _ & _ & _
        & Hout & ->).
  apply coeff_params_Ok in Hcs as (p1 & _ & _ & _ & H2'). rewrite Hn in H2'.
  assert (n' = n) as -> by congruence.
  apply gscan_length in Hout. rewrite length_seqZ in Hout.
  cbn [sd_x sd_z channelStates]. rewrite !length_map. auto.
Qed.

Lemma Legacy_GilEllDataGen_lengths (L : numpy) params s g sd g' (n : Z) :
  Legacy.GilEllDataGen L params s g = (Ok sd, g') ->
  Params.index params 2 = Ok (Int n) ->
  -1 <= n
  /\ length (sd_x sd) = Z.to_nat (n + 1)
  /\ length (sd_z sd) = Z.to_nat (n + 1).
Proof.
  intros H H2.
  apply Legacy_GilEllDataGen_inv in H
    as (pq & p & q & cs & noise & start & Q_diag & R & n' & gc & bc & ric & out
        & gs & g0 & _ & _ & _ & _ & Hcs & _ & _ & _ & _ & Hn & Hn1 & _ & _ & _
        & Hout & ->).
  apply coeff_params_Ok in Hcs as (p1 & _ & _ & _ & H2'). rewrite Hn in H2'.
  assert (n' = n) as -> by congruence.
  apply gscan_length in Hout. rewrite length_seqZ in Hout.
  cbn [sd_x sd_z]. rewrite !length_map. auto.
Qed.

Lemma last_of_nonempty {A} (l : list A) :
  (0 < length l)%nat -> exists v, last l = Some v.
Proof.
  intros H. destruct (last l) as [v|] eqn:E; [eauto|].
  apply last_None in E. subst l. cbn in H. lia.
Qed.

(** The shapes of the windows of a trajectory of
    [numSequences + sequenceLength] samples. *)
Lemma GE_toeplitzData_shapes (x z : list complex) (S N : Z) :
  1 <= S -> 1 <= N ->
  Z.of_nat (length x) = N + S -> Z.of_nat (length z) = N + S ->
  exists t, GE.toeplitzData x z S = Ok t /\ well_shaped t S N.
Proof.
  intros HS HN Hx Hz.
  assert (Hrows : numRows_of x S = N) by (unfold numRows_of; lia).
  destruct (GE_toeplitzData_final_states x z S) as (t & Ht & Hshape & _);
    [lia|lia|lia|].
  rewrite Hrows in Hshape. eauto.
Qed.

(** [GilElDataGenWrapper] of src/gilbertElliot/gilbertElliotDataGen.py
    asks [GilEllDataGen] for [numSequences + sequenceLength - 1] steps,
    which is the length that makes [toeplitzData] succeed with exactly
    [numSequences] windows: whenever the long trajectory is generated,
    the wrapper returns, with or without the zero padding of [initTest],
    [numSequences] windows of [sequenceLength] observations,
    [sequenceLength + 1] states and four final-state values each, and
    one pair of channel coefficients per sample of the trajectory. *)
Theorem GE_GilElDataGenWrapper_windows (L : numpy)
        (sequenceLength numSequences : Z)
        (goodCoefficients badCoefficients goodTransProb badTransProb
           QVar RVar : val) (randSeed : Z) (startingState initTest : val)
        (g : rng L) (sd : sequenceData) (g' : rng L) :
  1 <= sequenceLength -> 1 <= numSequences ->
  GE.GilEllDataGen L
    (Seq [Seq [goodTransProb; badTransProb];
          Seq [goodCoefficients; badCoefficients];
          Int (numSequences + sequenceLength - 1); Seq [QVar; RVar];
          startingState]) randSeed g
  = (Ok sd, g') ->
  exists data channelCoefficients,
    GE.GilElDataGenWrapper L sequenceLength numSequences
      goodCoefficients badCoefficients goodTransProb badTransProb QVar RVar
      randSeed startingState initTest g
    = (Ok (data, riccatiConvergences sd, channelCoefficients), g')
    /\ well_shaped data sequenceLength numSequences
    /\ length channelCoefficients = Z.to_nat (numSequences + sequenceLength).
Proof.
  intros HS HN H.
  destruct (GE_GilEllDataGen_lengths
              L _ _ _ _ _ (numSequences + sequenceLength - 1) H eq_refl)
    as (_ & Hx & Hz & Hc).
  replace (numSequences + sequenceLength - 1 + 1)
    with (numSequences + sequenceLength) in Hx, Hz, Hc by lia.
  unfold GE.GilElDataGenWrapper. unfold gbind at 1. rewrite H.
  destruct (Params.truthy initTest).
  - destruct (last_of_nonempty (sd_x sd)) as [xl Hxl]; [lia|].
    destruct (last_of_nonempty (sd_z sd)) as [zl Hzl]; [lia|].
    destruct (last_of_nonempty (channelStates sd)) as [cl Hcl]; [lia|].
    rewrite (gbind_lift_Ok _ _ _ _
               (initTest_padding_Ok sequenceLength numSequences sd xl zl cl
                  HS HN ltac:(lia) ltac:(lia) ltac:(lia) Hxl Hzl Hcl)).
    cbn [sd_x sd_z riccatiConvergences channelStates].
    assert (Hsx : length (slice 0 (numSequences - 1) (sd_x sd))
                  = Z.to_nat (numSequences - 1))
      by (rewrite length_slice_inside by lia; f_equal; lia).
    assert (Hsc : length (slice 0 (numSequences - 1) (channelStates sd))
                  = Z.to_nat (numSequences - 1))
      by (rewrite length_slice_inside by lia; f_equal; lia).
    assert (Hsz : length (slice 1 (numSequences - 1) (sd_z sd))
                  = Z.to_nat (numSequences - 2)).
    { unfold slice, clip_index.
      destruct (Z.ltb_spec 1 0); [lia|].
      destruct (Z.ltb_spec (numSequences - 1) 0); [lia|].
      rewrite length_take, length_drop. lia. }
    edestruct (GE_toeplitzData_shapes
                 (replicate (Z.to_nat sequenceLength) czero
                  ++ slice 0 (numSequences - 1) (sd_x sd) ++ [xl])
                 (replicate (Z.to_nat (Z.min (sequenceLength + 1)
                                             (numSequences + sequenceLength - 1)))
                            czero
                  ++ slice 1 (numSequences - 1) (sd_z sd) ++ [zl])
                 sequenceLength numSequences HS HN) as (t & Ht & Hshape).
    { rewrite !length_app, length_replicate, Hsx. cbn [length]. lia. }
    { rewrite !length_app, length_replicate, Hsz. cbn [length]. lia. }
    rewrite (gbind_lift_Ok _ _ _ _ Ht).
    eexists _, _. split; [reflexivity|]. split; [exact Hshape|].
    rewrite !length_app, length_replicate, Hsc. cbn [length]. lia.
  - rewrite (gbind_lift_Ok _ _ _ _ eq_refl).
    edestruct (GE_toeplitzData_shapes (sd_x sd) (sd_z sd)
                 sequenceLength numSequences HS HN) as (t & Ht & Hshape);
      [lia|lia|].
    rewrite (gbind_lift_Ok _ _ _ _ Ht).
    eexists _, _. split; [reflexivity|]. split; [exact Hshape|]. lia.
Qed.

Lemma GE_GilElDataGenWrapper_windows_witness :
  exists data ric channelCoefficients g',
    GE.GilElDataGenWrapper Fixture.counter_numpy 2 3
      (Seq [Float 0.5; Float (-0.25)]) (Seq [Float 1.5; Float (-0.75)])
      (Float 0.5) (Float 0.5) (Float 1) (Float 1) 100
      GE.default_startingState GE.default_initTest 0
    = (Ok (data, ric, channelCoefficients), g')
    /\ well_shaped data 2 3
    /\ length channelCoefficients = 5%nat.
Proof.
  edestruct (GE_GilElDataGenWrapper_windows
               Fixture.counter_numpy 2 3
               (Seq [Float 0.5; Float (-0.25)]) (Seq [Float 1.5; Float (-0.75)])
               (Float 0.5) (Float 0.5) (Float 1) (Float 1) 100
               GE.default_startingState GE.default_initTest 0)
    as (data & cc & Hw & Hshape & Hcc); [lia|lia|vm_compute; reflexivity|].
  eexists _, _, _, _. split; [exact Hw|]. split; [exact Hshape|exact Hcc].
Defined.

(** [GilElDataGenWrapper] of src/gilbertElliotDataGen.py: whenever the
    long trajectory is generated, [toeplitzData] succeeds on it with
    exactly [numSequences] windows of the expected shapes; and the last
    window, whose final-state slice reaches past the trajectory, gets the
    last sample of the trajectory as both its final states. *)
Theorem Legacy_GilElDataGenWrapper_windows (L : numpy)
        (sequenceLength numSequences : Z)
        (goodCoefficients badCoefficients goodTransProb badTransProb
           QVar RVar : val) (randSeed : Z)
        (g : rng L) (sd : sequenceData) (g' : rng L) :
  1 <= sequenceLength -> 1 <= numSequences ->
  Legacy.GilEllDataGen L
    (Seq [Seq [goodTransProb; badTransProb];
          Seq [goodCoefficients; badCoefficients];
          Int (numSequences + sequenceLength - 1); Seq [QVar; RVar];
          Str "random"]) randSeed g
  = (Ok sd, g') ->
  exists data xl,
    Legacy.GilElDataGenWrapper L sequenceLength numSequences
      goodCoefficients badCoefficients goodTransProb badTransProb QVar RVar
      randSeed g
    = (Ok (data, riccatiConvergences sd), g')
    /\ well_shaped data sequenceLength numSequences
    /\ last (sd_x sd) = Some xl
    /\ toeplitzFinalTrueStates data !! Z.to_nat (numSequences - 1)
       = Some [re xl; re xl; im xl; im xl].
Proof.
  intros HS HN H.
  destruct (Legacy_GilEllDataGen_lengths
              L _ _ _ _ _ (numSequences + sequenceLength - 1) H eq_refl)
    as (_ & Hx & Hz).
  replace (numSequences + sequenceLength - 1 + 1)
    with (numSequences + sequenceLength) in Hx, Hz by lia.
  unfold Legacy.GilElDataGenWrapper. unfold gbind at 1. rewrite H.
  assert (Hrows : numRows_of (sd_x sd) sequenceLength = numSequences)
    by (unfold numRows_of; lia).
  destruct (Legacy_toeplitzData_final_states (sd_x sd) (sd_z sd) sequenceLength)
    as (t & xl & Ht & Hshape & Hxl & _ & Hlast & _); [lia|lia|lia|].
  rewrite Hrows in Hshape, Hlast.
  rewrite (gbind_lift_Ok _ _ _ _ Ht).
  exists t, xl. split; [reflexivity|]. split; [exact Hshape|].
  split; [|exact Hlast].
  rewrite last_lookup. rewrite <- Hxl. f_equal. lia.
Qed.

Lemma Legacy_GilElDataGenWrapper_windows_witness :
  exists data ric xl g',
    Legacy.GilElDataGenWrapper Fixture.counter_numpy 2 3
      (Seq [Float 0.5; Float (-0.25)]) (Seq [Float 1.5; Float (-0.75)])
      (Float 0.5) (Float 0.5) (Float 1) (Float 1) 100 0
    = (Ok (data, ric), g')
    /\ well_shaped data 2 3
    /\ toeplitzFinalTrueStates data !! 2%nat = Some [re xl; re xl; im xl; im xl].
Proof.
  edestruct (Legacy_GilElDataGenWrapper_windows
               Fixture.counter_numpy 2 3
               (Seq [Float 0.5; Float (-0.25)]) (Seq [Float 1.5; Float (-0.75)])
               (Float 0.5) (Float 0.5) (Float 1) (Float 1) 100 0)
    as (data & xl & Hw & Hshape & _ & Hlast); [lia|lia|vm_compute; reflexivity|].
  eexists _, _, xl, _. split; [exact Hw|]. split; [exact Hshape|exact Hlast].
Defined.

(** The windows of a zero-padded trajectory: the first window observes
    zeros only, and its final states are a zero and the first sample of
    the trajectory that was padded. *)
Lemma GE_padded_first_window (S N : Z) (x z : list complex)
      (xl zl x0 : complex) :
  1 <= S -> 2 <= N ->
  Z.of_nat (length x) = N + S -> Z.of_nat (length z) = N + S ->
  x !! 0%nat = Some x0 ->
  exists data,
    GE.toeplitzData
      (replicate (Z.to_nat S) czero ++ slice 0 (N - 1) x ++ [xl])
      (replicate (Z.to_nat (Z.min (S + 1) (N + S - 1))) czero
       ++ slice 1 (N - 1) z ++ [zl]) S
    = Ok data
    /\ well_shaped data S N
    /\ toeplitzObservationStates data !! 0%nat
       = Some (replicate (Z.to_nat S) 0%float, replicate (Z.to_nat S) 0%float)
    /\ toeplitzFinalTrueStates data !! 0%nat
       = Some [0%float; re x0; 0%float; im x0].
Proof.
  intros HS HN Hx Hz Hx0.
  replace (Z.min (S + 1) (N + S - 1)) with (S + 1) by lia.
  set (x' := replicate (Z.to_nat S) czero ++ slice 0 (N - 1) x ++ [xl]).
  set (z' := replicate (Z.to_nat (S + 1)) czero ++ slice 1 (N - 1) z ++ [zl]).
  assert (Hsx : length (slice 0 (N - 1) x) = Z.to_nat (N - 1))
    by (rewrite length_slice_inside by lia; f_equal; lia).
  assert (Hsz : length (slice 1 (N - 1) z) = Z.to_nat (N - 2))
    by (rewrite length_slice_inside by lia; f_equal; lia).
  assert (Hx' : Z.of_nat (length x') = N + S).
  { subst x'. rewrite !length_app, length_replicate, Hsx. cbn [length]. lia. }
  assert (Hz' : Z.of_nat (length z') = N + S).
  { subst z'. rewrite !length_app, length_replicate, Hsz. cbn [length]. lia. }
  assert (Hrows : numRows_of x' S = N) by (unfold numRows_of; lia).
  destruct (GE_toeplitzData_final_states x' z' S) as (data & Ht & Hshape & _);
    [lia|lia|lia|].
  destruct (GE_toeplitzData_ok x' z' S) as (w & Ht' & Hw); [lia|lia|lia|].
  rewrite Hrows in Hshape, Ht', Hw.
  exists data. split; [exact Ht|]. split; [exact Hshape|].
  assert (data = split_windows (map w (seqZ 0 N))) as -> by congruence.
  destruct (Hw 0 ltac:(lia)) as [_ Hw0].
  cbn [toeplitzObservationStates toeplitzFinalTrueStates split_windows].
  rewrite !list_lookup_fmap.
  assert (E0 : seqZ 0 N !! 0%nat = Some 0) by (apply lookup_seqZ; lia).
  rewrite E0. cbn [fmap option_fmap option_map]. rewrite Hw0. cbn [fst snd].
  split.
  - assert (Hz0 : slice 0 (0 + S) z' = replicate (Z.to_nat S) czero).
    { rewrite slice_inside by lia. change (Z.to_nat 0) with 0%nat. rewrite drop_0.
      replace (Z.to_nat (0 + S - 0)) with (Z.to_nat S) by lia.
      subst z'. rewrite take_app_le by (rewrite length_replicate; lia).
      rewrite take_replicate. f_equal. lia. }
    rewrite Hz0.
    change (map re (replicate ?n czero)) with (re <$> replicate n czero).
    change (map im (replicate ?n czero)) with (im <$> replicate n czero).
    rewrite !fmap_replicate. reflexivity.
  - replace (0 + S + 1) with (0 + S - 1 + 2) by lia.
    rewrite (slice_pair (0 + S - 1) x' czero x0); [reflexivity|lia|..].
    + subst x'. rewrite lookup_app_l by (rewrite length_replicate; lia).
      apply lookup_replicate_2. lia.
    + subst x'. rewrite lookup_app_r by (rewrite length_replicate; lia).
      rewrite length_replicate.
      replace (Z.to_nat (0 + S - 1 + 1) - Z.to_nat S)%nat with 0%nat by lia.
      rewrite lookup_app_l by lia.
      rewrite lookup_slice_inside by lia. exact Hx0.
Qed.

(** With a true [initTest] the wrapper of
    src/gilbertElliot/gilbertElliotDataGen.py pads the trajectory with
    zeros before it cuts the windows: the observations of the first
    window are all zero, its current true state is zero and its next
    true state is the first sample [x[0]] of the generated trajectory,
    and the first [sequenceLength] pairs of channel coefficients are
    zero.  The default of [initTest] is the string 'False', which is
    true: a call that does not pass [initTest] is padded. *)
Theorem GE_GilElDataGenWrapper_initTest_padding (L : numpy)
        (sequenceLength numSequences : Z)
        (goodCoefficients badCoefficients goodTransProb badTransProb
           QVar RVar : val) (randSeed : Z) (startingState initTest : val)
        (g : rng L) (sd : sequenceData) (g' : rng L) :
  1 <= sequenceLength -> 2 <= numSequences ->
  Params.truthy initTest = true ->
  GE.GilEllDataGen L
    (Seq [Seq [goodTransProb; badTransProb];
          Seq [goodCoefficients; badCoefficients];
          Int (numSequences + sequenceLength - 1); Seq [QVar; RVar];
          startingState]) randSeed g
  = (Ok sd, g') ->
  exists data channelCoefficients x0,
    GE.GilElDataGenWrapper L sequenceLength numSequences
      goodCoefficients badCoefficients goodTransProb badTransProb QVar RVar
      randSeed startingState initTest g
    = (Ok (data, riccatiConvergences sd, channelCoefficients), g')
    /\ sd_x sd !! 0%nat = Some x0
    /\ toeplitzObservationStates data !! 0%nat
       = Some (replicate (Z.to_nat sequenceLength) 0%float,
               replicate (Z.to_nat sequenceLength) 0%float)
    /\ toeplitzFinalTrueStates data !! 0%nat
       = Some [0%float; re x0; 0%float; im x0]
    /\ take (Z.to_nat sequenceLength) channelCoefficients
       = replicate (Z.to_nat sequenceLength) (0%float, 0%float).
Proof.
  intros HS HN Htrue H.
  destruct (GE_GilEllDataGen_lengths
              L _ _ _ _ _ (numSequences + sequenceLength - 1) H eq_refl)
    as (_ & Hx & Hz & Hc).
  replace (numSequences + sequenceLength - 1 + 1)
    with (numSequences + sequenceLength) in Hx, Hz, Hc by lia.
  unfold GE.GilElDataGenWrapper. unfold gbind at 1. rewrite H, Htrue.
  destruct (last_of_nonempty (sd_x sd)) as [xl Hxl]; [lia|].
  destruct (last_of_nonempty (sd_z sd)) as [zl Hzl]; [lia|].
  destruct (last_of_nonempty (channelStates sd)) as [cl Hcl]; [lia|].
  rewrite (gbind_lift_Ok _ _ _ _
             (initTest_padding_Ok sequenceLength numSequences sd xl zl cl
                HS ltac:(lia) ltac:(lia) ltac:(lia) ltac:(lia) Hxl Hzl Hcl)).
  cbn [sd_x sd_z riccatiConvergences channelStates].
  destruct (lookup_lt_is_Some_2 (sd_x sd) 0) as [x0 Hx0]; [lia|].
  destruct (GE_padded_first_window sequenceLength numSequences (sd_x sd) (sd_z sd)
                                   xl zl x0 HS HN ltac:(lia) ltac:(lia) Hx0)
    as (data & Ht & _ & Hobs & Hfin).
  rewrite (gbind_lift_Ok _ _ _ _ Ht).
  exists data. eexists _, x0. split; [reflexivity|]. split; [exact Hx0|].
  split; [exact Hobs|]. split; [exact Hfin|].
  rewrite take_app_le by (rewrite length_replicate; lia).
  rewrite take_replicate. f_equal. lia.
Qed.

Lemma GE_GilElDataGenWrapper_initTest_padding_witness :
  Params.truthy GE.default_initTest = true
  /\ exists data ric channelCoefficients g',
       GE.GilElDataGenWrapper Fixture.counter_numpy 2 3
         (Seq [Float 0.5; Float (-0.25)]) (Seq [Float 1.5; Float (-0.75)])
         (Float 0.5) (Float 0.5) (Float 1) (Float 1) 100
         GE.default_startingState GE.default_initTest 0
       = (Ok (data, ric, channelCoefficients), g')
       /\ toeplitzObservationStates data !! 0%nat = Some ([0; 0], [0; 0])%float
       /\ take 2 channelCoefficients = [(0, 0); (0, 0)]%float.
Proof.
  split; [reflexivity|].
  edestruct (GE_GilElDataGenWrapper_initTest_padding
               Fixture.counter_numpy 2 3
               (Seq [Float 0.5; Float (-0.25)]) (Seq [Float 1.5; Float (-0.75)])
               (Float 0.5) (Float 0.5) (Float 1) (Float 1) 100
               GE.default_startingState GE.default_initTest 0)
    as (data & cc & x0 & Hw & _ & Hobs & _ & Hcc);
    [lia|lia|reflexivity|vm_compute; reflexivity|].
  eexists _, _, _, _. split; [exact Hw|]. split; [exact Hobs|exact Hcc].
Defined.

(** ** Shuffling the training data *)

(** A loop whose variable advances by [stride] in every iteration, and
    whose iterations record a value that depends on the variable
    only. *)
Lemma for_state_stride {A B} (f : Z -> A -> result (Z * B)) (c : Z -> B)
      (stride : Z) (l : list A) (cnt : Z) :
  (forall (k : nat) a, (k < length l)%nat ->
     f (cnt + stride * Z.of_nat k) a
     = Ok (cnt + stride * Z.of_nat k + stride, c (cnt + stride * Z.of_nat k))) ->
  for_state f cnt l
  = Ok (cnt + stride * Z.of_nat (length l),
        map (fun k : nat => c (cnt + stride * Z.of_nat k)) (seq 0 (length l))).
Proof.
  revert cnt. induction l as [|a l IH]; intros cnt Hf.
  - cbn. do 2 f_equal. lia.
  - cbn [for_state length].
    pose proof (Hf 0%nat a ltac:(cbn; lia)) as H0.
    rewrite Z.mul_0_r, Z.add_0_r in H0. rewrite H0. cbn [bind fst snd].
    rewrite IH.
    + cbn [bind fst snd seq map]. f_equal. f_equal; [lia|].
      f_equal; [f_equal; lia|].
      rewrite <- seq_shift, map_map. apply map_ext. intros k. f_equal. lia.
    + intros k a' Hk. pose proof (Hf (S k) a' ltac:(cbn; lia)) as HS.
      replace (cnt + stride + stride * Z.of_nat k)
        with (cnt + stride * Z.of_nat (S k)) by lia.
      exact HS.
Qed.

Lemma block_inside {A} `{Inhabited A} (data : list (list A)) (d0 dN i j : nat) :
  length data = d0 -> Forall (fun r => length r = dN) data ->
  (i < d0)%nat -> (j < dN)%nat ->
  GE.block data i j = Ok ((data !!! i) !!! j).
Proof.
  intros Hd0 HdN Hi Hj. unfold GE.block.
  destruct (lookup_lt_is_Some_2 data i) as [row Hrow]; [lia|].
  rewrite Hrow, (list_lookup_total_correct _ _ _ Hrow).
  rewrite Forall_forall in HdN.
  pose proof (HdN row (list_elem_of_lookup_2 _ _ _ Hrow)) as Hlen.
  destruct (lookup_lt_is_Some_2 row j) as [c Hc]; [lia|].
  rewrite Hc, (list_lookup_total_correct _ _ _ Hc). reflexivity.
Qed.

(** The loops in closed form: position [(m, n)] of the result holds
    the block [(p % dims0, p // dims0)] for [p] the entry
    [m * dimsLast + n] of the permutation. *)
Lemma shuffle_loops_closed {A} `{Inhabited A} (data : list (list A))
      (perm : list nat) (d0 dN : nat) :
  length data = d0 -> Forall (fun r => length r = dN) data ->
  (forall k, (k < d0 * dN)%nat ->
     exists p, perm !! k = Some p /\ (p < d0 * dN)%nat) ->
  GE.shuffle_loops data perm d0 dN
  = Ok (map (fun m =>
               map (fun n =>
                      (data !!! ((perm !!! (m * dN + n)%nat) mod d0)%nat)
                        !!! ((perm !!! (m * dN + n)%nat) / d0)%nat)
                   (seq 0 dN))
            (seq 0 d0)).
Proof.
  intros Hd0 HdN Hperm. unfold GE.shuffle_loops.
  rewrite (for_state_stride _
             (fun cnt : Z =>
                map (fun n =>
                       (data !!! ((perm !!! (Z.to_nat (cnt + 1) + n)%nat) mod d0)%nat)
                         !!! ((perm !!! (Z.to_nat (cnt + 1) + n)%nat) / d0)%nat)
                    (seq 0 dN))
             (Z.of_nat dN)).
  - cbn [bind snd]. rewrite length_seq. f_equal.
    apply map_ext. intros m. apply map_ext. intros n.
    replace (Z.to_nat (-1 + Z.of_nat dN * Z.of_nat m + 1)) with (m * dN)%nat by lia.
    reflexivity.
  - intros m a Hm. rewrite length_seq in Hm.
    rewrite (for_state_stride _
               (fun cnt : Z =>
                  (data !!! ((perm !!! Z.to_nat (cnt + 1)) mod d0)%nat)
                    !!! ((perm !!! Z.to_nat (cnt + 1)) / d0)%nat)
               1).
    + rewrite length_seq. f_equal. f_equal; [lia|].
      apply map_ext. intros n.
      replace (Z.to_nat (-1 + Z.of_nat dN * Z.of_nat m + 1 * Z.of_nat n + 1))
        with (Z.to_nat (-1 + Z.of_nat dN * Z.of_nat m + 1) + n)%nat by nia.
      reflexivity.
    + intros n b Hn. rewrite length_seq in Hn.
      set (cnt := -1 + Z.of_nat dN * Z.of_nat m + 1 * Z.of_nat n).
      assert (Hk : (Z.to_nat (cnt + 1) < d0 * dN)%nat) by (subst cnt; nia).
      destruct (Hperm _ Hk) as (p & Hp & Hlt).
      unfold GE.entry. rewrite Hp, (list_lookup_total_correct _ _ _ Hp).
      cbn [bind].
      assert (Hd0pos : (0 < d0)%nat) by lia.
      rewrite (block_inside data d0 dN); try assumption.
      * reflexivity.
      * apply Nat.mod_upper_bound. lia.
      * apply Nat.Div0.div_lt_upper_bound. exact Hlt.
Qed.

Lemma concat_snoc_columns {C} (g : nat -> list C) (a : nat -> C) (l : list nat) :
  Permutation (concat (map (fun j => g j ++ [a j]) l))
              (concat (map g l) ++ map a l).
Proof.
  induction l as [|j l IH]; cbn [map concat app]; [constructor|].
  rewrite IH, <- !app_assoc. apply Permutation_app_head. cbn [app].
  apply Permutation_middle.
Qed.

Lemma concat_nils {C} (l : list nat) :
  concat (map (fun _ => @nil C) l) = [].
Proof. induction l as [|j l IH]; [reflexivity|exact IH]. Qed.

(** Listing a table row by row or column by column lists the same
    entries. *)
Lemma concat_transpose {C} (f : nat -> nat -> C) (d0 dN : nat) :
  Permutation (concat (map (fun i => map (f i) (seq 0 dN)) (seq 0 d0)))
              (concat (map (fun j => map (fun i => f i j) (seq 0 d0)) (seq 0 dN))).
Proof.
  induction d0 as [|d0 IH].
  - cbn [seq map concat]. rewrite concat_nils. constructor.
  - rewrite (map_ext (fun j => map (fun i => f i j) (seq 0 (S d0)))
                     (fun j => map (fun i => f i j) (seq 0 d0) ++ [f d0 j])).
    2:{ intros j. rewrite seq_S, map_app. reflexivity. }
    rewrite seq_S, map_app, concat_app. cbn [map concat]. rewrite app_nil_r.
    rewrite concat_snoc_columns. apply Permutation_app; [exact IH|reflexivity].
Qed.

Lemma concat_rows {C} (g : nat -> C) (d0 dN : nat) :
  concat (map (fun m => map (fun n => g (m * dN + n)%nat) (seq 0 dN)) (seq 0 d0))
  = map g (seq 0 (d0 * dN)).
Proof.
  rewrite <- concat_blocks. f_equal. apply map_ext. intros m.
  apply map_ext_seq. reflexivity.
Qed.

Lemma concat_columns {C} (f : nat -> nat -> C) (d0 dN : nat) :
  (0 < d0)%nat ->
  concat (map (fun j => map (fun i => f i j) (seq 0 d0)) (seq 0 dN))
  = map (fun p => f (p mod d0)%nat (p / d0)%nat) (seq 0 (dN * d0)).
Proof.
  intros Hd0. rewrite <- concat_blocks. f_equal. apply map_ext. intros j.
  apply map_ext_seq. intros i Hi.
  replace (j * d0 + i)%nat with (i + j * d0)%nat by lia.
  rewrite Nat.Div0.mod_add, Nat.div_add by lia.
  rewrite Nat.mod_small, Nat.div_small by lia. reflexivity.
Qed.

Lemma rectangular_as_table {C} `{Inhabited C} (data : list (list C)) (d0 dN : nat) :
  length data = d0 -> Forall (fun r => length r = dN) data ->
  data = map (fun i => map (fun j => (data !!! i) !!! j) (seq 0 dN)) (seq 0 d0).
Proof.
  intros Hd0 HdN. subst d0.
  rewrite (map_seq_lookup_total
             (fun row => map (fun j => row !!! j) (seq 0 dN)) data).
  rewrite <- (map_id data) at 1. apply map_ext_in. intros row Hrow.
  rewrite Forall_forall in HdN.
  rewrite <- (HdN row) by (apply list_elem_of_In, Hrow).
  rewrite (map_seq_lookup_total (fun c => c) row), map_id. reflexivity.
Qed.

Lemma zip_tables {C D} (fa : nat -> nat -> C) (fb : nat -> nat -> D)
      (l1 l2 : list nat) :
  zip_with zip (map (fun i => map (fa i) l2) l1) (map (fun i => map (fb i) l2) l1)
  = map (fun i => map (fun j => (fa i j, fb i j)) l2) l1.
Proof.
  induction l1 as [|i l1 IH]; [reflexivity|].
  cbn [map zip_with]. rewrite IH. f_equal.
  clear IH. induction l2 as [|j l2 IH]; [reflexivity|].
  cbn [map zip_with]. rewrite IH. reflexivity.
Qed.

Lemma permutation_entries (perm : list nat) (T : nat) :
  Permutation perm (seq 0 T) ->
  length perm = T
  /\ forall k, (k < T)%nat -> exists p, perm !! k = Some p /\ (p < T)%nat.
Proof.
  intros HP. assert (Hlen : length perm = T).
  { rewrite (Permutation_length HP), length_seq. reflexivity. }
  split; [exact Hlen|]. intros k Hk.
  destruct (lookup_lt_is_Some_2 perm k) as [p Hp]; [lia|].
  exists p. split; [exact Hp|].
  assert (Hin : p ∈ seq 0 T).
  { rewrite <- HP. eapply list_elem_of_lookup_2, Hp. }
  apply elem_of_seq in Hin. lia.
Qed.

(** The two shuffles, given the same permutation of the positions, keep
    every measurement block with its true-state block, and lose or
    repeat none: both succeed, both return tensors of the shape they were
    given, and the pairs (block of the measurements, block of the true
    states at the same position) of the results are the pairs of the
    inputs, in the order the permutation gives. *)
Theorem shuffle_keeps_pairs {A B} `{Inhabited A} `{Inhabited B}
        (randperm : nat -> list nat) (meas : list (list A)) (tru : list (list B))
        (d0 dN : nat) :
  length meas = d0 -> Forall (fun r => length r = dN) meas ->
  length tru = d0 -> Forall (fun r => length r = dN) tru ->
  Permutation (randperm (d0 * dN)%nat) (seq 0 (d0 * dN)%nat) ->
  exists sm st,
    GE.shuffleMeasTrainData randperm meas = Ok (sm, randperm (d0 * dN)%nat)
    /\ GE.shuffleTrueTrainData tru (randperm (d0 * dN)%nat) = Ok st
    /\ length sm = d0 /\ Forall (fun r => length r = dN) sm
    /\ length st = d0 /\ Forall (fun r => length r = dN) st
    /\ Permutation (concat (zip_with zip sm st)) (concat (zip_with zip meas tru)).
Proof.
  intros Hm0 HmN Ht0 HtN HP.
  destruct (Nat.eq_dec d0 0%nat) as [->|Hd0].
  { (* no block at all *)
    apply length_zero_iff_nil in Hm0, Ht0. subst meas tru.
    exists [], []. cbn. repeat split; constructor. }
  assert (Hcm : ncols meas = dN).
  { destruct meas as [|r meas']; [cbn in Hm0; lia|].
    apply Forall_cons_1 in HmN as [Hr _]. exact Hr. }
  assert (Hct : ncols tru = dN).
  { destruct tru as [|r tru']; [cbn in Ht0; lia|].
    apply Forall_cons_1 in HtN as [Hr _]. exact Hr. }
  destruct (permutation_entries _ _ HP) as [Hlen Hentries].
  unfold GE.shuffleMeasTrainData, GE.shuffleTrueTrainData.
  rewrite Hm0, Ht0, Hcm, Hct.
  rewrite (shuffle_loops_closed meas _ d0 dN Hm0 HmN Hentries).
  rewrite (shuffle_loops_closed tru _ d0 dN Ht0 HtN Hentries).
  cbn [bind]. eexists _, _. split; [reflexivity|]. split; [reflexivity|].
  split; [rewrite length_map, length_seq; reflexivity|].
  split; [apply Forall_fmap, Forall_forall; intros m _; cbn;
          rewrite length_map, length_seq; reflexivity|].
  split; [rewrite length_map, length_seq; reflexivity|].
  split; [apply Forall_fmap, Forall_forall; intros m _; cbn;
          rewrite length_map, length_seq; reflexivity|].
  set (perm := randperm (d0 * dN)%nat) in *.
  rewrite (zip_tables
             (fun m n => (meas !!! ((perm !!! (m * dN + n)%nat) mod d0)%nat)
                           !!! ((perm !!! (m * dN + n)%nat) / d0)%nat)
             (fun m n => (tru !!! ((perm !!! (m * dN + n)%nat) mod d0)%nat)
                           !!! ((perm !!! (m * dN + n)%nat) / d0)%nat)).
  rewrite (concat_rows
             (fun k => ((meas !!! ((perm !!! k) mod d0)%nat) !!! ((perm !!! k) / d0)%nat,
                        (tru !!! ((perm !!! k) mod d0)%nat) !!! ((perm !!! k) / d0)%nat))).
  rewrite <- Hlen.
  rewrite (map_seq_lookup_total
             (fun p => ((meas !!! (p mod d0)%nat) !!! (p / d0)%nat,
                        (tru !!! (p mod d0)%nat) !!! (p / d0)%nat)) perm).
  assert (Ez : zip_with zip meas tru
               = map (fun i => map (fun j => ((meas !!! i) !!! j, (tru !!! i) !!! j))
                                   (seq 0 dN))
                     (seq 0 d0)).
  { rewrite <- (zip_tables (fun i j => (meas !!! i) !!! j)
                           (fun i j => (tru !!! i) !!! j)).
    f_equal; apply rectangular_as_table; assumption. }
  rewrite Ez.
  rewrite (concat_transpose (fun i j => ((meas !!! i) !!! j, (tru !!! i) !!! j))).
  rewrite (concat_columns (fun i j => ((meas !!! i) !!! j, (tru !!! i) !!! j)))
    by lia.
  replace (dN * d0)%nat with (d0 * dN)%nat by lia.
  apply (Permutation_map
           (fun p => ((meas !!! (p mod d0)%nat) !!! (p / d0)%nat,
                      (tru !!! (p mod d0)%nat) !!! (p / d0)%nat))), HP.
Qed.

Lemma shuffle_keeps_pairs_witness :
  exists sm st,
    GE.shuffleMeasTrainData (fun _ => [3; 0; 2; 1]%nat) [[1; 2]; [3; 4]]%float
    = Ok (sm, [3; 0; 2; 1]%nat)
    /\ GE.shuffleTrueTrainData [[10; 20]; [30; 40]]%float [3; 0; 2; 1]%nat = Ok st
    /\ sm = [[4; 1]; [2; 3]]%float
    /\ st = [[40; 10]; [20; 30]]%float
    /\ Permutation (concat (zip_with zip sm st))
                   [(1, 10); (2, 20); (3, 30); (4, 40)]%float.
Proof.
  destruct (shuffle_keeps_pairs (fun _ => [3; 0; 2; 1]%nat)
              [[1; 2]; [3; 4]]%float [[10; 20]; [30; 40]]%float 2 2)
    as (sm & st & Hsm & Hst & _ & _ & _ & _ & HP).
  - reflexivity.
  - repeat constructor.
  - reflexivity.
  - repeat constructor.
  - cbn. solve_Permutation.
  - exists sm, st. split; [exact Hsm|]. split; [exact Hst|].
    split; [vm_compute in Hsm; congruence|].
    split; [vm_compute in Hst; congruence|]. exact HP.
Defined.

(** ** Saving under the lowest free number *)

(** The search of [matSave]: started after [k], it stops at the first
    number whose file does not exist. *)
Lemma find_file_space_spec (OS : GE.filesystem) (fuel : nat)
      (directory basename : string) (k : Z) (st : GE.fs OS) (n : Z) (name : string) :
  GE.find_file_space OS fuel directory basename k st = Some (n, name)
  <-> k < n <= k + Z.of_nat fuel
      /\ name = GE.logName_of directory basename n
      /\ GE.path_exists OS name st = false
      /\ forall j, k < j < n ->
           GE.path_exists OS (GE.logName_of directory basename j) st = true.
Proof.
  revert k. induction fuel as [|fuel IH]; intros k; cbn [GE.find_file_space].
  - split; [discriminate|]. intros [Hn _]. lia.
  - destruct (GE.path_exists OS (GE.logName_of directory basename (k + 1)) st)
      eqn:E; cbn [negb].
    + rewrite IH. split.
      * intros (Hn & -> & Hfree & Hlow). repeat split; try assumption; try lia.
        intros j Hj. destruct (Z.eq_dec j (k + 1)) as [->|Hne]; [exact E|].
        apply Hlow. lia.
      * intros (Hn & -> & Hfree & Hlow).
        assert (n <> k + 1) by (intros ->; congruence).
        repeat split; try assumption; try lia.
        intros j Hj. apply Hlow. lia.
    + split.
      * intros [= <- <-]. repeat split; try assumption; try lia.
      * intros (Hn & -> & Hfree & Hlow).
        destruct (Z.eq_dec n (k + 1)) as [->|Hne]; [reflexivity|].
        rewrite Hlow in E by lia. discriminate.
Qed.

(** [matSave] saves to 'directory/basename{n}.mat' for the lowest
    number [n >= 1] whose file does not exist, and it returns the name
    of a file that did not exist: a call returns [logName] exactly when,
    once the directory is there, [logName] is the name with the lowest
    free number and [savemat] succeeds on it. *)
Theorem matSave_lowest_free_number (OS : GE.filesystem) (fuel : nat)
        (directory basename : string) (data : GE.mat OS) (st : GE.fs OS)
        (logName : string) (st2 : GE.fs OS) :
  GE.matSave OS fuel directory basename data st = Some (Ok logName, st2)
  <-> exists st1 n,
        GE.data_directory OS directory st = Ok st1
        /\ 1 <= n <= Z.of_nat fuel
        /\ logName = GE.logName_of directory basename n
        /\ GE.path_exists OS logName st1 = false
        /\ (forall j, 1 <= j < n ->
              GE.path_exists OS (GE.logName_of directory basename j) st1 = true)
        /\ GE.savemat OS logName data st1 = Ok st2.
Proof.
  unfold GE.matSave. split.
  - destruct (GE.data_directory OS directory st) as [st1|e]; [|discriminate].
    destruct (GE.find_file_space OS fuel directory basename 0 st1)
      as [[n name]|] eqn:E; [|discriminate].
    apply find_file_space_spec in E as (Hn & -> & Hfree & Hlow).
    destruct (GE.savemat OS _ data st1) as [st2'|e] eqn:Es; [|discriminate].
    intros [= <- <-]. exists st1, n.
    repeat split; try assumption; try lia.
    intros j Hj. apply Hlow. lia.
  - intros (st1 & n & -> & Hn & -> & Hfree & Hlow & Hsave).
    assert (E : GE.find_file_space OS fuel directory basename 0 st1
                = Some (n, GE.logName_of directory basename n)).
    { apply find_file_space_spec. repeat split; try assumption; try lia.
      intros j Hj. apply Hlow. lia. }
    rewrite E, Hsave. reflexivity.
Qed.

Lemma matSave_lowest_free_number_witness :
  GE.matSave Fixture.listed_files 5 "data" "GEData" tt
             ["data"; "data/GEData2.mat"; "data/GEData1.mat"; "data/GEData4.mat"]
  = Some (Ok "data/GEData3.mat",
          ["data/GEData3.mat"; "data"; "data/GEData2.mat"; "data/GEData1.mat";
           "data/GEData4.mat"]).
Proof.
  apply (proj2 (matSave_lowest_free_number
                  Fixture.listed_files 5 "data" "GEData" tt _ _ _)).
  eexists _, 3. split; [reflexivity|]. split; [lia|]. split; [reflexivity|].
  split; [reflexivity|]. split; [|reflexivity].
  intros j Hj. assert (Hcases : j = 1 \/ j = 2) by lia.
  destruct Hcases as [-> | ->]; reflexivity.
Defined.

(** What a call of [matSave] that returns has found. *)
Lemma matSave_Ok_inv (OS : GE.filesystem) (fuel : nat)
      (directory basename : string) (data : GE.mat OS) (st : GE.fs OS)
      (logName : string) (st2 : GE.fs OS) :
  GE.matSave OS fuel directory basename data st = Some (Ok logName, st2) ->
  exists st1 n,
    GE.data_directory OS directory st = Ok st1
    /\ 1 <= n
    /\ logName = GE.logName_of directory basename n
    /\ GE.path_exists OS logName st1 = false
    /\ (forall j, 1 <= j < n ->
          GE.path_exists OS (GE.logName_of directory basename j) st1 = true)
    /\ GE.savemat OS logName data st1 = Ok st2.
Proof.
  unfold GE.matSave.
  destruct (GE.data_directory OS directory st) as [st1|e]; [|discriminate].
  destruct (GE.find_file_space OS fuel directory basename 0 st1)
    as [[n name]|] eqn:E; [|discriminate].
  apply find_file_space_spec in E as (Hn & -> & Hfree & Hlow).
  destruct (GE.savemat OS _ data st1) as [st2'|e] eqn:Es; [|discriminate].
  intros [= <- <-]. exists st1, n.
  repeat split; try assumption; try lia.
  intros j Hj. apply Hlow. lia.
Qed.

(** Two saves under the same directory and base name never share a
    file: on a file system where a saved file exists afterwards and
    nothing that existed disappears, the second call picks a higher
    number than the first, and the first file is still there after
    it. *)
Theorem matSave_twice_different_files (OS : GE.filesystem) (fuel1 fuel2 : nat)
        (directory basename : string) (data1 data2 : GE.mat OS)
        (st st2 st3 : GE.fs OS) (name1 name2 : string) :
  (forall p d s s', GE.savemat OS p d s = Ok s' ->
     GE.path_exists OS p s' = true
     /\ forall q, GE.path_exists OS q s = true -> GE.path_exists OS q s' = true) ->
  (forall p s s', GE.mkdir OS p s = Ok s' -> GE.path_exists OS p s' = true) ->
  GE.matSave OS fuel1 directory basename data1 st = Some (Ok name1, st2) ->
  GE.matSave OS fuel2 directory basename data2 st2 = Some (Ok name2, st3) ->
  exists n1 n2,
    name1 = GE.logName_of directory basename n1
    /\ name2 = GE.logName_of directory basename n2
    /\ 1 <= n1 < n2
    /\ name1 <> name2
    /\ GE.path_exists OS name1 st3 = true.
Proof.
  intros Hsave Hmkdir H1 H2.
  apply matSave_Ok_inv in H1
    as (st1 & n1 & Hdir1 & Hn1 & -> & Hfree1 & Hlow1 & Hs1).
  destruct (Hsave _ _ _ _ Hs1) as [Hthere1 Hkeep1].
  assert (Hdir : GE.path_exists OS directory st2 = true).
  { apply Hkeep1. unfold GE.data_directory in Hdir1.
    destruct (GE.path_exists OS directory st) eqn:E; cbn [negb] in Hdir1.
    - injection Hdir1 as <-. exact E.
    - eapply Hmkdir, Hdir1. }
  apply matSave_Ok_inv in H2
    as (st1' & n2 & Hdir2 & Hn2 & -> & Hfree2 & Hlow2 & Hs2).
  unfold GE.data_directory in Hdir2. rewrite Hdir in Hdir2. cbn [negb] in Hdir2.
  injection Hdir2 as <-.
  destruct (Hsave _ _ _ _ Hs2) as [_ Hkeep2].
  exists n1, n2. split; [reflexivity|]. split; [reflexivity|].
  assert (Hlt : n1 < n2).
  { destruct (Z.lt_ge_cases n1 n2) as [Hlt|Hge]; [exact Hlt|].
    destruct (Z.eq_dec n2 n1) as [->|Hne]; [congruence|].
    rewrite (Hkeep1 _ (Hlow1 n2 ltac:(lia))) in Hfree2. discriminate. }
  split; [lia|]. split; [|apply Hkeep2, Hthere1].
  intros E. rewrite E in Hthere1. congruence.
Qed.

Lemma matSave_twice_different_files_witness :
  exists name1 name2 st2 st3,
    GE.matSave Fixture.listed_files 5 "data" "GEData" tt [] = Some (Ok name1, st2)
    /\ GE.matSave Fixture.listed_files 5 "data" "GEData" tt st2
       = Some (Ok name2, st3)
    /\ name1 <> name2.
Proof.
  eexists _, _, _, _. split; [vm_compute; reflexivity|].
  split; [vm_compute; reflexivity|].
  edestruct (matSave_twice_different_files
               Fixture.listed_files 5 5 "data" "GEData" tt tt [])
    as (n1 & n2 & _ & _ & _ & Hne & _).
  - intros p d s s' [= <-]. cbn [GE.path_exists Fixture.listed_files existsb].
    rewrite String.eqb_refl. split; [reflexivity|].
    intros q Hq. rewrite Hq. apply orb_true_r.
  - intros p s s' [= <-]. cbn [GE.path_exists Fixture.listed_files existsb].
    rewrite String.eqb_refl. reflexivity.
  - vm_compute. reflexivity.
  - vm_compute. reflexivity.
  - exact Hne.
Defined.

(** ** The test set: three subsets from three trajectories *)

Lemma GE_GilElDataGenWrapper_inv (L : numpy) (sequenceLength numSequences : Z)
      (goodCoefficients badCoefficients goodTransProb badTransProb
         QVar RVar : val) (randSeed : Z) (startingState initTest : val)
      (g : rng L) data ric cc (g' : rng L) :
  GE.GilElDataGenWrapper L sequenceLength numSequences
    goodCoefficients badCoefficients goodTransProb badTransProb QVar RVar
    randSeed startingState initTest g
  = (Ok (data, ric, cc), g') ->
  exists sd sd',
    GE.GilEllDataGen L
      (Seq [Seq [goodTransProb; badTransProb];
            Seq [goodCoefficients; badCoefficients];
            Int (numSequences + sequenceLength - 1); Seq [QVar; RVar];
            startingState]) randSeed g
    = (Ok sd, g')
    /\ (if Params.truthy initTest
        then GE.initTest_padding sequenceLength sd else Ok sd) = Ok sd'
    /\ GE.toeplitzData (sd_x sd') (sd_z sd') sequenceLength = Ok data
    /\ ric = riccatiConvergences sd' /\ cc = channelStates sd'.
Proof.
  unfold GE.GilElDataGenWrapper. intros H.
  apply gbind_Ok in H as (sd & g1 & Hsd & H).
  apply gbind_Ok in H as (sd' & g2 & Hpad & H). apply lift_Ok in Hpad as [Hpad ->].
  apply gbind_Ok in H as (data' & g2 & Ht & H). apply lift_Ok in Ht as [Ht ->].
  injection H as <- <- <- <-. eauto 10.
Qed.

Lemma gfor_cons_Ok {L : numpy} {O} (body : Z -> gen L O) (k : Z) (l : list Z)
      g os g' :
  GE.gfor body (k :: l) g = (Ok os, g') ->
  exists o g1 os', body k g = (Ok o, g1) /\ GE.gfor body l g1 = (Ok os', g')
                   /\ os = o :: os'.
Proof.
  cbn [GE.gfor]. intros H.
  apply gbind_Ok in H as (o & g1 & Ho & H).
  apply gbind_Ok in H as (os' & g2 & Hos & H).
  injection H as <- <-. eauto 10.
Qed.

Lemma map_const_seq {C} (c : C) (f : nat -> C) (n : nat) :
  (forall k, (k < n)%nat -> f k = c) -> map f (seq 0 n) = replicate n c.
Proof.
  intros Hf. induction n as [|n IH]; [reflexivity|].
  rewrite seq_S, map_app, IH by (intros k Hk; apply Hf; lia).
  cbn [map]. rewrite Hf by lia.
  rewrite replicate_S_end. reflexivity.
Qed.

(** The arrays that [convertToBatched] is given have the shapes
    [(4, numSequences)] and [(2, sequenceLength, numSequences)]. *)
Lemma toeplitz_arrays_shapes (data : toeplitz) (S N : Z) :
  well_shaped data S N ->
  length (GE.finalStates_array data) = 4%nat
  /\ Forall (fun r => length r = Z.to_nat N) (GE.finalStates_array data)
  /\ rectangular3 (GE.observation_array S data)
  /\ shape3 (GE.observation_array S data) = (2%nat, Z.to_nat S, Z.to_nat N).
Proof.
  intros (_ & _ & Hobs & _ & Hfin & _).
  unfold GE.finalStates_array, GE.observation_array, rectangular3.
  cbn [shape3 cells fst snd length].
  split; [reflexivity|]. split.
  { apply Forall_fmap, Forall_forall. intros c _. cbn. rewrite length_map. exact Hfin. }
  split; [|rewrite Hobs; reflexivity].
  split; [reflexivity|].
  repeat constructor; rewrite ?length_map, ?length_seq; try reflexivity;
    apply Forall_fmap, Forall_forall; intros k _; cbn; rewrite length_map;
    reflexivity.
Qed.

(** The rows of one subset: [numSequences // batch_size] batches, and
    element [b] of batch [i] is window [i * batch_size + b]. *)
Lemma batched_rows_closed (data : toeplitz) (S N bs : Z) :
  well_shaped data S N -> 0 <= N -> 0 < bs ->
  GE.batched_rows data S bs (Z.quot N bs)
  = Ok (map (fun i : Z =>
               map (fun n => map (fun row => row !!! n) (GE.finalStates_array data))
                   (seq (Z.to_nat (i * bs)) (Z.to_nat bs)))
            (seqZ 0 (N / bs)),
        map (fun i : Z =>
               map (fun n => map (fun plane => map (fun row => row !!! n) plane)
                                 (cells (GE.observation_array S data)))
                   (seq (Z.to_nat (i * bs)) (Z.to_nat bs)))
            (seqZ 0 (N / bs))).
Proof.
  intros Hshape HN Hbs.
  destruct (toeplitz_arrays_shapes data S N Hshape) as (H4 & Hrows & Hrect & Hsh).
  unfold GE.batched_rows.
  rewrite (convertToBatched_batches_floor _ _ bs (Z.to_nat N) (Z.to_nat S))
    by assumption.
  cbn [bind fst snd]. rewrite Z2Nat.id by lia.
  rewrite Z.quot_div_nonneg by lia.
  rewrite !assign_exact by (rewrite length_map, length_seqZ; reflexivity).
  reflexivity.
Qed.

(** The first sample of the first batch of a subset whose first window
    observes zeros. *)
Lemma batched_first_sample (data : toeplitz) (S N bs : Z) t m :
  well_shaped data S N -> 0 <= S -> 0 < bs <= N ->
  GE.batched_rows data S bs (Z.quot N bs) = Ok (t, m) ->
  toeplitzObservationStates data !! 0%nat
  = Some (replicate (Z.to_nat S) 0%float, replicate (Z.to_nat S) 0%float) ->
  length t = Z.to_nat (N / bs) /\ length m = Z.to_nat (N / bs)
  /\ exists batch,
       m !! 0%nat = Some batch
       /\ batch !! 0%nat
          = Some [replicate (Z.to_nat S) 0%float; replicate (Z.to_nat S) 0%float].
Proof.
  intros Hshape HS Hbs Hrows Hzero.
  rewrite batched_rows_closed in Hrows by (assumption || lia).
  injection Hrows as <- <-.
  split; [rewrite length_map, length_seqZ; reflexivity|].
  split; [rewrite length_map, length_seqZ; reflexivity|].
  assert (HK : 0 < N / bs) by (apply Z.div_str_pos; lia).
  destruct (batches_lookup
              (fun n => map (fun plane => map (fun row => row !!! n) plane)
                            (cells (GE.observation_array S data)))
              bs (N / bs) 0 0) as (batch & Hbatch & Hb); try lia.
  exists batch. split; [exact Hbatch|]. rewrite Hb.
  cbn [Nat.mul Nat.add GE.observation_array cells map]. f_equal.
  rewrite !map_map.
  assert (Hrow : forall (h : rows -> list float),
            h (replicate (Z.to_nat S) 0%float, replicate (Z.to_nat S) 0%float)
            = replicate (Z.to_nat S) 0%float ->
            map (fun k => map (fun w : rows => h w !!! k)
                              (toeplitzObservationStates data) !!! 0%nat)
                (seq 0 (Z.to_nat S))
            = replicate (Z.to_nat S) 0%float).
  { intros h Hh. apply map_const_seq. intros k Hk.
    pose proof (list_lookup_fmap (fun w : rows => h w !!! k)
                                 (toeplitzObservationStates data) 0) as E.
    assert (Hzero' : @lookup nat rows (list rows) _ 0%nat
                             (toeplitzObservationStates data)
                     = Some (replicate (Z.to_nat S) 0%float,
                             replicate (Z.to_nat S) 0%float)) by exact Hzero.
    rewrite Hzero' in E.
    rewrite (list_lookup_total_correct _ _ _ E), Hh.
    apply list_lookup_total_correct, lookup_replicate_2, Hk. }
  rewrite (Hrow fst eq_refl), (Hrow snd eq_refl). reflexivity.
Qed.

(** What the wrapper cut its windows from: the generated trajectory,
    or its zero-padded copy. *)
Lemma GE_GilElDataGenWrapper_source (L : numpy) (S N : Z)
      (goodCoefficients badCoefficients goodTransProb badTransProb
         QVar RVar : val) (randSeed : Z) (startingState initTest : val)
      (g : rng L) data ric cc (g' : rng L) :
  1 <= S -> 2 <= N ->
  GE.GilElDataGenWrapper L S N goodCoefficients badCoefficients
    goodTransProb badTransProb QVar RVar randSeed startingState initTest g
  = (Ok (data, ric, cc), g') ->
  exists sd,
    GE.GilEllDataGen L
      (Seq [Seq [goodTransProb; badTransProb];
            Seq [goodCoefficients; badCoefficients];
            Int (N + S - 1); Seq [QVar; RVar]; startingState]) randSeed g
    = (Ok sd, g')
    /\ well_shaped data S N
    /\ (Params.truthy initTest = true ->
        toeplitzObservationStates data !! 0%nat
        = Some (replicate (Z.to_nat S) 0%float, replicate (Z.to_nat S) 0%float)
        /\ exists cl,
             cl ∈ channelStates sd
             /\ cc = replicate (Z.to_nat S) (0%float, 0%float)
                     ++ slice 0 (N - 1) (channelStates sd) ++ [cl])
    /\ (Params.truthy initTest = false -> cc = channelStates sd).
Proof.
  intros HS HN H.
  apply GE_GilElDataGenWrapper_inv in H as (sd & sd' & Hsd & Hpad & Ht & -> & ->).
  exists sd. split; [exact Hsd|].
  destruct (GE_GilEllDataGen_lengths L _ _ _ _ _ (N + S - 1) Hsd eq_refl)
    as (_ & Hx & Hz & Hc).
  replace (N + S - 1 + 1) with (N + S) in Hx, Hz, Hc by lia.
  destruct (Params.truthy initTest).
  - destruct (last_of_nonempty (sd_x sd)) as [xl Hxl]; [lia|].
    destruct (last_of_nonempty (sd_z sd)) as [zl Hzl]; [lia|].
    destruct (last_of_nonempty (channelStates sd)) as [cl Hcl]; [lia|].
    rewrite (initTest_padding_Ok S N sd xl zl cl) in Hpad
      by (assumption || lia).
    injection Hpad as <-. cbn [sd_x sd_z channelStates] in *.
    destruct (lookup_lt_is_Some_2 (sd_x sd) 0) as [x0 Hx0]; [lia|].
    destruct (GE_padded_first_window S N (sd_x sd) (sd_z sd) xl zl x0)
      as (data' & Ht' & Hshape & Hobs & _); try assumption; try lia.
    assert (data' = data) as -> by congruence.
    split; [exact Hshape|]. split; [|discriminate].
    intros _. split; [exact Hobs|]. exists cl. split; [|reflexivity].
    rewrite last_lookup in Hcl. eapply list_elem_of_lookup_2, Hcl.
  - injection Hpad as <-.
    destruct (GE_toeplitzData_shapes (sd_x sd) (sd_z sd) S N)
      as (data' & Ht' & Hshape); try lia.
    assert (data' = data) as -> by congruence.
    split; [exact Hshape|]. split; [discriminate|reflexivity].
Qed.

(** One subset that [GilElTestDataGen] asks for with a transition
    probability of zero out of its start state and without passing
    [initTest]. *)
Lemma GE_single_regime_subset (L : numpy) (st : markov) (S N bs : Z)
      (goodCoefficients badCoefficients goodTransProb badTransProb
         QVar RVar : val) (randSeed : Z) (g : rng L) data ric cc (g' : rng L) t m :
  (forall g0, (fst (random_sample L g0) <? 1)%float = true) ->
  1 <= S -> 2 <= N -> 1 <= bs <= N ->
  Params.num (match st with good => goodTransProb | bad => badTransProb end)
  = Ok 0%float ->
  GE.GilElDataGenWrapper L S N goodCoefficients badCoefficients
    goodTransProb badTransProb QVar RVar randSeed
    (Str (match st with good => "good" | bad => "bad" end)) GE.default_initTest g
  = (Ok (data, ric, cc), g') ->
  GE.batched_rows data S bs (Z.quot N bs) = Ok (t, m) ->
  exists c,
    Params.coeff_row (match st with
                      | good => goodCoefficients
                      | bad => badCoefficients
                      end) = Ok c
    /\ Forall (fun c' => c' = (0%float, 0%float) \/ c' = c) cc
    /\ take (Z.to_nat S) cc = replicate (Z.to_nat S) (0%float, 0%float)
    /\ length t = Z.to_nat (N / bs) /\ length m = Z.to_nat (N / bs)
    /\ exists batch,
         m !! 0%nat = Some batch
         /\ batch !! 0%nat
            = Some [replicate (Z.to_nat S) 0%float; replicate (Z.to_nat S) 0%float].
Proof.
  intros Hu HS HN Hbs Hzero Hw Hrows.
  apply GE_GilElDataGenWrapper_source in Hw
    as (sd & Hsd & Hshape & Hpadded & _); try assumption.
  destruct (Hpadded eq_refl) as (Hobs & cl & Hcl & ->).
  destruct (batched_first_sample data S N bs t m Hshape ltac:(lia) ltac:(lia)
                                 Hrows Hobs)
    as (Ht & Hm & Hbatch).
  apply GE_GilEllDataGen_inv in Hsd
    as (pq & p & q & cs & noise' & start & Q_diag & R & n & gc & bc & ric' & out
        & gs & g0 & _ & Hpq & Hp & Hq & Hcs & _ & Hstart & _ & _ & _ & _ & Hgc
        & Hbc & _ & Hout & ->).
  apply coeff_params_Ok in Hcs as (p1 & H1 & H10 & H11 & _).
  injection H1 as <-. injection H10 as H10. injection H11 as H11.
  injection Hpq as <-. cbn [fst snd] in Hp, Hq.
  assert (Hst : start = Some st).
  { destruct st; vm_compute in Hstart; injection Hstart as <- _; reflexivity. }
  subst start.
  assert (Hall : Forall (fun c' => c' = match st with good => gc | bad => bc end)
                        (map s_coeffs out)).
  { apply Forall_fmap.
    eapply (GE_scan_single_regime L st p q); [exact Hu| | |exact Hout];
      [destruct st; congruence|reflexivity]. }
  cbn [channelStates] in *.
  exists (match st with good => gc | bad => bc end).
  split; [destruct st; congruence|].
  split; [|split; [|auto]].
  - rewrite !Forall_app. split; [|split].
    + apply Forall_replicate. left. reflexivity.
    + unfold slice. apply Forall_take, Forall_drop.
      eapply Forall_impl; [exact Hall|]. intros c' Hc'. right. exact Hc'.
    + constructor; [|constructor]. right.
      rewrite Forall_forall in Hall. apply Hall, Hcl.
  - rewrite take_app_le by (rewrite length_replicate; lia).
    rewrite take_replicate. f_equal. lia.
Qed.

(** [GilElTestDataGen] of src/gilbertElliot/gilbertElliotDataGen.py with
    its three subsets.  Each subset has [numSequences // batch_size]
    batches.  Subset 1 comes from a chain that never leaves 'good' and
    subset 2 from one that never leaves 'bad'.  The two calls that
    generate them do not pass [initTest], so they run with its default,
    the true string 'False': whatever [initTest] the caller gave, their
    first [sequenceLength] channel coefficients are zero and so are the
    measurements of the first sample of their first batch, and every
    other pair of channel coefficients is the pair of the one regime.
    Subset 0 alone follows the caller: with a false [initTest] it is cut
    from the trajectory as generated. *)
Theorem GE_GilElTestDataGen_subsets (L : numpy) (S N : Z)
        (goodCoefficients badCoefficients goodTransProb badTransProb
           QVar RVar : val) (randSeed batch_size : Z) (initTest : val)
        (g : rng L) (out : list (option GE.testSubset)) (g' : rng L) :
  (forall g0, (fst (random_sample L g0) <? 1)%float = true) ->
  1 <= S -> 2 <= N -> 1 <= batch_size <= N ->
  GE.GilElTestDataGen L S N goodCoefficients badCoefficients
    goodTransProb badTransProb QVar RVar randSeed batch_size 3 initTest g
  = (Ok out, g') ->
  exists s0 s1 s2 cg cb,
    out = [Some s0; Some s1; Some s2]
    /\ Params.coeff_row goodCoefficients = Ok cg
    /\ Params.coeff_row badCoefficients = Ok cb
    /\ Forall (fun s => length (GE.trueState s) = Z.to_nat (N / batch_size)
                        /\ length (GE.measuredState s) = Z.to_nat (N / batch_size))
              [s0; s1; s2]
    /\ Forall (fun c => c = (0%float, 0%float) \/ c = cg) (GE.channelCoefficients s1)
    /\ Forall (fun c => c = (0%float, 0%float) \/ c = cb) (GE.channelCoefficients s2)
    /\ Forall (fun s =>
                 take (Z.to_nat S) (GE.channelCoefficients s)
                 = replicate (Z.to_nat S) (0%float, 0%float)
                 /\ exists batch,
                      GE.measuredState s !! 0%nat = Some batch
                      /\ batch !! 0%nat
                         = Some [replicate (Z.to_nat S) 0%float;
                                 replicate (Z.to_nat S) 0%float])
              [s1; s2]
    /\ (Params.truthy initTest = false ->
        exists sd0 g1,
          GE.GilEllDataGen L
            (Seq [Seq [goodTransProb; badTransProb];
                  Seq [goodCoefficients; badCoefficients];
                  Int (N + S - 1); Seq [QVar; RVar]; GE.default_startingState])
            randSeed g
          = (Ok sd0, g1)
          /\ GE.channelCoefficients s0 = channelStates sd0
          /\ GE.toeplitzData (sd_x sd0) (sd_z sd0) S
             = Ok (GE.subsetTestStateData s0)).
Proof.
  intros Hu HS HN Hbs H. unfold GE.GilElTestDataGen in H.
  destruct (Z.eqb_spec batch_size 0) as [|_]; [lia|].
  apply gbind_Ok in H as ([] & g0 & E & H). apply lift_Ok in E as [_ ->].
  apply gbind_Ok in H as ([] & g0 & E & H). apply lift_Ok in E as [_ ->].
  change (seqZ 0 3) with [0; 1; 2] in H.
  apply gfor_cons_Ok in H as (o0 & gA & os1 & H0 & H & ->).
  apply gfor_cons_Ok in H as (o1 & gB & os2 & H1 & H & ->).
  apply gfor_cons_Ok in H as (o2 & gC & os3 & H2 & H & ->).
  injection H as <- ->.
  cbn [Z.eqb Pos.eqb] in H0, H1, H2.
  (* subset 0 *)
  apply gbind_Ok in H0 as ([[data0 ric0] cc0] & gw & Hw0 & H0).
  apply gbind_Ok in H0 as ([t0 m0] & gx & Hr0 & H0).
  apply lift_Ok in Hr0 as [Hr0 ->]. injection H0 as <- ->.
  cbn [fst snd] in *.
  pose proof Hw0 as Hinv0.
  apply GE_GilElDataGenWrapper_source in Hw0
    as (sd0 & Hsd0 & Hshape0 & _ & Hplain0); try assumption.
  pose proof Hr0 as Hlen0.
  rewrite batched_rows_closed in Hlen0 by (assumption || lia).
  injection Hlen0 as <- <-.
  (* subset 1 *)
  apply gbind_Ok in H1 as ([[data1 ric1] cc1] & gw & Hw1 & H1).
  apply gbind_Ok in H1 as ([t1 m1] & gx & Hr1 & H1).
  apply lift_Ok in Hr1 as [Hr1 ->]. injection H1 as <- ->.
  cbn [fst snd] in *.
  destruct (GE_single_regime_subset L good S N batch_size
              goodCoefficients badCoefficients (Int 0) (Int 1) QVar RVar randSeed
              gA data1 ric1 cc1 gB t1 m1 Hu HS HN Hbs eq_refl Hw1 Hr1)
    as (cg & Hcg & Hall1 & Hzeros1 & Ht1 & Hm1 & Hbatch1).
  (* subset 2 *)
  apply gbind_Ok in H2 as ([[data2 ric2] cc2] & gw & Hw2 & H2).
  apply gbind_Ok in H2 as ([t2 m2] & gx & Hr2 & H2).
  apply lift_Ok in Hr2 as [Hr2 ->]. injection H2 as <- ->.
  cbn [fst snd] in *.
  destruct (GE_single_regime_subset L bad S N batch_size
              goodCoefficients badCoefficients (Int 1) (Int 0) QVar RVar randSeed
              gB data2 ric2 cc2 g' t2 m2 Hu HS HN Hbs eq_refl Hw2 Hr2)
    as (cb & Hcb & Hall2 & Hzeros2 & Ht2 & Hm2 & Hbatch2).
  eexists _, _, _, cg, cb. split; [reflexivity|].
  split; [exact Hcg|]. split; [exact Hcb|].
  cbn [GE.trueState GE.measuredState GE.channelCoefficients GE.subsetTestStateData].
  split.
  { constructor; [|constructor; [|constructor; [|constructor]]];
      cbn [GE.trueState GE.measuredState]; split; try assumption;
      rewrite length_map, length_seqZ; reflexivity. }
  split; [exact Hall1|]. split; [exact Hall2|]. split.
  { constructor; [|constructor; [|constructor]];
      cbn [GE.channelCoefficients GE.measuredState]; split; assumption. }
  intros Hfalse.
  apply GE_GilElDataGenWrapper_inv in Hinv0
    as (sd & sd' & Hsd & Hpad & Ht & _ & Hcc).
  rewrite Hfalse in Hpad. injection Hpad as <-.
  exists sd, gA. auto.
Qed.

Lemma GE_GilElTestDataGen_subsets_witness :
  Params.truthy (Int 0) = false
  /\ exists s0 s1 s2 g',
       GE.GilElTestDataGen Fixture.counter_numpy 2 3
         (Seq [Float 0.5; Float (-0.25)]) (Seq [Float 1.5; Float (-0.75)])
         (Float 0.5) (Float 0.5) (Float 1) (Float 1) 100 1 3 (Int 0) 0
       = (Ok [Some s0; Some s1; Some s2], g')
       /\ take 2 (GE.channelCoefficients s1) = [(0, 0); (0, 0)]%float
       /\ Forall (fun c => c = (0, 0)%float \/ c = (0.5, -0.25)%float)
                 (GE.channelCoefficients s1)
       /\ Forall (fun c => c = (0, 0)%float \/ c = (1.5, -0.75)%float)
                 (GE.channelCoefficients s2).
Proof.
  split; [reflexivity|].
  edestruct (GE_GilElTestDataGen_subsets
               Fixture.counter_numpy 2 3
               (Seq [Float 0.5; Float (-0.25)]) (Seq [Float 1.5; Float (-0.75)])
               (Float 0.5) (Float 0.5) (Float 1) (Float 1) 100 1 (Int 0) 0)
    as (s0 & s1 & s2 & cg & cb & Hout & Hcg & Hcb & _ & Hall1 & Hall2 & Hpad & _).
  - exact counter_numpy_uniform_below_one.
  - lia.
  - lia.
  - lia.
  - vm_compute. reflexivity.
  - injection Hcg as <-. injection Hcb as <-.
    exists s0, s1, s2. eexists. split.
    + rewrite <- Hout. vm_compute. reflexivity.
    + apply Forall_cons_1 in Hpad as [[Hz _] _].
      split; [exact Hz|]. split; [exact Hall1|exact Hall2].
Defined.

(** ** The legacy training set *)

Lemma gfold_invariant {L : numpy} {St} (body : Z -> St -> gen L St)
      (Inv : Z -> St -> Prop) (k : nat) :
  forall (m : Z) (s : St) g s' g',
    (forall i s1 g1 s2 g2,
       m <= i < m + Z.of_nat k -> Inv i s1 -> body i s1 g1 = (Ok s2, g2) ->
       Inv (i + 1) s2) ->
    Inv m s ->
    Legacy.gfold body (seqZ m (Z.of_nat k)) s g = (Ok s', g') ->
    Inv (m + Z.of_nat k) s'.
Proof.
  induction k as [|k IH]; intros m s g s' g' Hstep HInv H.
  - cbn in H. injection H as <- _. rewrite Z.add_0_r. exact HInv.
  - rewrite seqZ_cons in H by lia. cbn [Legacy.gfold] in H.
    apply gbind_Ok in H as (s1 & g1 & Hbody & H).
    replace (Z.pred (Z.of_nat (S k))) with (Z.of_nat k) in H by lia.
    replace (m + Z.of_nat (S k)) with (Z.succ m + Z.of_nat k) by lia.
    eapply IH; [|eapply (Hstep m); [lia|exact HInv|exact Hbody]|exact H].
    intros i sa ga sb gb Hi. apply Hstep. lia.
Qed.

Lemma axis_index_inside (len : nat) (k : Z) :
  0 <= k < Z.of_nat len -> Legacy.axis_index len k = Ok (Z.to_nat k).
Proof.
  intros Hk. unfold Legacy.axis_index.
  destruct (Z.leb_spec 0 k); [|lia]. destruct (Z.ltb_spec k (Z.of_nat len)); [|lia].
  reflexivity.
Qed.

(** Writing a sequence into a column that exists replaces that column
    and no other. *)
Lemma write_sequence_inside (S : Z) (sd : sequenceData) (k : Z)
      (a a' : Legacy.trainingArrays) (n : nat) :
  length (Legacy.finalTrueStates a) = n ->
  length (Legacy.observationStates a) = n ->
  length (Legacy.allTrueStates a) = n ->
  0 <= k < Z.of_nat n ->
  Legacy.write_sequence S sd k a = Ok a' ->
  length (Legacy.finalTrueStates a') = n
  /\ length (Legacy.observationStates a') = n
  /\ length (Legacy.allTrueStates a') = n
  /\ (exists col, Legacy.sequence_column S sd = Ok col
                  /\ Legacy.column_at a' (Z.to_nat k) = Some col)
  /\ forall j : nat, j <> Z.to_nat k ->
       Legacy.column_at a' j = Legacy.column_at a j.
Proof.
  intros Hf Ho Ha Hk. unfold Legacy.write_sequence.
  rewrite Hf, axis_index_inside by exact Hk. cbn [bind].
  destruct (Legacy.sequence_column S sd) as [col|e]; [|discriminate].
  cbn [bind]. intros [= <-].
  cbn [Legacy.finalTrueStates Legacy.observationStates Legacy.allTrueStates].
  rewrite !length_insert. repeat split; try assumption.
  - exists col. split; [reflexivity|]. unfold Legacy.column_at.
    cbn [Legacy.finalTrueStates Legacy.observationStates Legacy.allTrueStates].
    rewrite !list_lookup_insert_eq by lia.
    destruct col as [[f o] s]. reflexivity.
  - intros j Hj. unfold Legacy.column_at.
    cbn [Legacy.finalTrueStates Legacy.observationStates Legacy.allTrueStates].
    rewrite !list_lookup_insert_ne by lia. reflexivity.
Qed.

(** [GilEllTrainingDataGen] of src/gilbertElliotDataGen.py does not
    mix its sequences, and does not fill its arrays: for
    [numSequences >= 2], column [i] of the three returned arrays holds
    the good-state trajectory of seed [randSeed + i] for every
    [i < numSequences], column [i + numSequences - 1] holds the
    bad-state trajectory of seed [randSeed + i + numSequences] for
    [1 <= i < numSequences] (the bad-state trajectory of [i = 0] was
    written to column [numSequences - 1] and overwritten there), and the
    last column, [2 * numSequences - 1], still holds the zeros the arrays
    were allocated with. *)
Theorem Legacy_GilEllTrainingDataGen_columns (L : numpy)
        (np_shuffle : Z -> rng L -> rng L) (S N : Z)
        (goodCoefficients badCoefficients QVar RVar : val) (randSeed : Z)
        (g : rng L) (arrays : Legacy.trainingArrays)
        (shapes : list Z * list Z * list Z) (ric : mat2) (g' : rng L) :
  2 <= N ->
  Legacy.GilEllTrainingDataGen L np_shuffle S N goodCoefficients badCoefficients
                               QVar RVar randSeed g
  = (Ok (arrays, shapes, ric), g') ->
  length (Legacy.finalTrueStates arrays) = Z.to_nat (2 * N)
  /\ length (Legacy.observationStates arrays) = Z.to_nat (2 * N)
  /\ length (Legacy.allTrueStates arrays) = Z.to_nat (2 * N)
  /\ Legacy.column_at arrays (Z.to_nat (2 * N - 1))
     = Some (replicate 4 0%float,
             (replicate (Z.to_nat S) 0%float, replicate (Z.to_nat S) 0%float),
             (replicate (Z.to_nat (S + 1)) 0%float,
              replicate (Z.to_nat (S + 1)) 0%float))
  /\ (forall i, 0 <= i < N ->
        exists sd g0 g1 col,
          Legacy.GilEllDataGen L
            (Seq [Seq [Int 1; Int 0]; Seq [goodCoefficients; badCoefficients];
                  Int S; Seq [QVar; RVar]; Str "good"]) (randSeed + i) g0
          = (Ok sd, g1)
          /\ Legacy.sequence_column S sd = Ok col
          /\ Legacy.column_at arrays (Z.to_nat i) = Some col)
  /\ (forall i, 1 <= i < N ->
        exists sd g0 g1 col,
          Legacy.GilEllDataGen L
            (Seq [Seq [Int 0; Int 1]; Seq [goodCoefficients; badCoefficients];
                  Int S; Seq [QVar; RVar]; Str "bad"]) (randSeed + i + N) g0
          = (Ok sd, g1)
          /\ Legacy.sequence_column S sd = Ok col
          /\ Legacy.column_at arrays (Z.to_nat (i + N - 1)) = Some col).
Proof.
  intros HN H. unfold Legacy.GilEllTrainingDataGen in H.
  apply gbind_Ok in H as ([] & g0 & E & H). apply lift_Ok in E as [_ ->].
  apply gbind_Ok in H as ([] & g0 & E & H). apply lift_Ok in E as [_ ->].
  apply gbind_Ok in H as ([] & g0 & E & H). apply lift_Ok in E as [_ ->].
  apply gbind_Ok in H as ([a last] & g1 & Hloop & H).
  apply gbind_Ok in H as ([] & g2 & _ & H).
  cbn [snd fst] in H. destruct last as [sdl|]; [|discriminate].
  injection H as <- _ _ _.
  set (good_params := Seq [Seq [Int 1; Int 0];
                           Seq [goodCoefficients; badCoefficients];
                           Int S; Seq [QVar; RVar]; Str "good"]) in *.
  set (bad_params := Seq [Seq [Int 0; Int 1];
                          Seq [goodCoefficients; badCoefficients];
                          Int S; Seq [QVar; RVar]; Str "bad"]) in *.
  set (zero_column := (replicate 4 0%float,
                       (replicate (Z.to_nat S) 0%float,
                        replicate (Z.to_nat S) 0%float),
                       (replicate (Z.to_nat (S + 1)) 0%float,
                        replicate (Z.to_nat (S + 1)) 0%float))).
  set (Inv := fun (i : Z) (st : Legacy.trainingArrays * option sequenceData) =>
    length (Legacy.finalTrueStates (fst st)) = Z.to_nat (2 * N)
    /\ length (Legacy.observationStates (fst st)) = Z.to_nat (2 * N)
    /\ length (Legacy.allTrueStates (fst st)) = Z.to_nat (2 * N)
    /\ Legacy.column_at (fst st) (Z.to_nat (2 * N - 1)) = Some zero_column
    /\ (forall j, 0 <= j < i ->
          exists sd ga gb col,
            Legacy.GilEllDataGen L good_params (randSeed + j) ga = (Ok sd, gb)
            /\ Legacy.sequence_column S sd = Ok col
            /\ Legacy.column_at (fst st) (Z.to_nat j) = Some col)
    /\ (forall j, 1 <= j < i ->
          exists sd ga gb col,
            Legacy.GilEllDataGen L bad_params (randSeed + j + N) ga = (Ok sd, gb)
            /\ Legacy.sequence_column S sd = Ok col
            /\ Legacy.column_at (fst st) (Z.to_nat (j + N - 1)) = Some col)).
  assert (HInv : Inv (0 + Z.of_nat (Z.to_nat N)) (a, Some sdl)).
  { assert (EN : seqZ 0 N = seqZ 0 (Z.of_nat (Z.to_nat N)))
      by (rewrite Z2Nat.id by lia; reflexivity).
    rewrite EN in Hloop.
    eapply (gfold_invariant _ Inv); [|.. |exact Hloop].
    - (* one iteration *)
      intros i [a0 last0] ga [a2 last2] gb Hi (Hf & Ho & Ha & Hzero & Hgood & Hbad) Hbody.
      cbn [fst] in *.
      apply gbind_Ok in Hbody as (sdG & gG & HrunG & Hbody).
      apply gbind_Ok in Hbody as (a1 & gx & Hw1 & Hbody).
      apply lift_Ok in Hw1 as [Hw1 ->].
      apply gbind_Ok in Hbody as (sdB & gB & HrunB & Hbody).
      apply gbind_Ok in Hbody as (a2' & gx & Hw2 & Hbody).
      apply lift_Ok in Hw2 as [Hw2 ->].
      injection Hbody as <- _ _.
      destruct (write_sequence_inside S sdG i a0 a1 _ Hf Ho Ha ltac:(lia) Hw1)
        as (Hf1 & Ho1 & Ha1 & (colG & HcolG & HatG) & Hother1).
      destruct (write_sequence_inside S sdB (i + N - 1) a1 a2' _ Hf1 Ho1 Ha1
                                      ltac:(lia) Hw2)
        as (Hf2 & Ho2 & Ha2 & (colB & HcolB & HatB) & Hother2).
      unfold Inv. cbn [fst]. repeat (split; [assumption|]).
      split; [|split].
      + rewrite Hother2, Hother1 by lia. exact Hzero.
      + intros j Hj. destruct (Z.eq_dec j i) as [->|Hne].
        * exists sdG, ga, gG, colG. split; [exact HrunG|]. split; [exact HcolG|].
          rewrite Hother2 by lia. exact HatG.
        * destruct (Hgood j ltac:(lia)) as (sd & gc & gd & col & Hrun & Hcol & Hat).
          exists sd, gc, gd, col. split; [exact Hrun|]. split; [exact Hcol|].
          rewrite Hother2, Hother1 by lia. exact Hat.
      + intros j Hj. destruct (Z.eq_dec j i) as [->|Hne].
        * exists sdB, gG, gB, colB. split; [exact HrunB|]. split; [exact HcolB|].
          exact HatB.
        * destruct (Hbad j ltac:(lia)) as (sd & gc & gd & col & Hrun & Hcol & Hat).
          exists sd, gc, gd, col. split; [exact Hrun|]. split; [exact Hcol|].
          rewrite Hother2, Hother1 by lia. exact Hat.
    - (* before the loop *)
      unfold Inv. cbn [fst Legacy.finalTrueStates Legacy.observationStates
                       Legacy.allTrueStates].
      rewrite !length_replicate.
      repeat (split; [f_equal; lia|]).
      split; [|split; intros j Hj; lia].
      unfold Legacy.column_at.
      cbn [Legacy.finalTrueStates Legacy.observationStates Legacy.allTrueStates].
      rewrite !lookup_replicate_2 by lia. reflexivity. }
  rewrite Z.add_0_l, Z2Nat.id in HInv by lia.
  destruct HInv as (Hf & Ho & Ha & Hzero & Hgood & Hbad). cbn [fst] in *.
  auto 10.
Qed.

Lemma Legacy_GilEllTrainingDataGen_columns_witness :
  exists arrays shapes ric g',
    Legacy.GilEllTrainingDataGen Fixture.counter_numpy (fun n g => g + n) 2 2
      (Seq [Float 0.5; Float (-0.25)]) (Seq [Float 1.5; Float (-0.75)])
      (Float 1) (Float 1) 100 0
    = (Ok (arrays, shapes, ric), g')
    /\ length (Legacy.finalTrueStates arrays) = 4%nat
    /\ Legacy.column_at arrays 3
       = Some ([0; 0; 0; 0], ([0; 0], [0; 0]), ([0; 0; 0], [0; 0; 0]))%float.
Proof.
  eexists _, _, _, _. split; [vm_compute; reflexivity|].
  edestruct (Legacy_GilEllTrainingDataGen_columns
               Fixture.counter_numpy (fun n g => g + n) 2 2
               (Seq [Float 0.5; Float (-0.25)]) (Seq [Float 1.5; Float (-0.75)])
               (Float 1) (Float 1) 100 0)
    as (Hf & _ & _ & Hzero & _); [lia|vm_compute; reflexivity|].
  split; [exact Hf|exact Hzero].
Defined.
